(** * x-scraper: the retrying tweet scraper and its response normaliser

    A shallow embedding of [src/x_scraper/bird_client.py],
    [src/x_scraper/scraper.py], [src/x_scraper/utils.py],
    [src/x_scraper/models.py] and [src/x_scraper/cookie_extractor.py], and
    the properties of the specification established (or refuted) on it.

    Conventions of the embedding:
    - Python [str] is Rocq's [string]; characters are 8-bit and read as the
      code points 0-255.
    - a decoded JSON value is [json]; a Python [dict] with string keys is a
      [gmap string json]; JSON numbers are integers (floating point is
      outside the embedding).
    - a Python call that may raise returns a [result]; [Raise e] carries the
      exception.
    - the outside world (the [bird] executable, the clock, the JSON decoder,
      the two [datetime] parsers of the Python library and pydantic) is read
      from an explicit environment, which also says what the calls outside
      raise; what the code does to the outside world is recorded in a trace
      of [event]s. *)

From stdpp Require Import gmap strings list fin_maps.
From Stdlib Require Import ZArith Ascii Lia DecimalString.

Local Open Scope Z_scope.

(** ** Python strings *)

Module PyStr.

Definition code (c : ascii) : N := N_of_ascii c.

(** [str.isspace] on one character of the range 0-255. *)
Definition isspace (c : ascii) : bool :=
  let n := code c in
  ((9 <=? n) && (n <=? 13) || (28 <=? n) && (n <=? 32)
   || (n =? 133) || (n =? 160))%N.

(** [str.lower] on one character of the range 0-255. *)
Definition lower_char (c : ascii) : ascii :=
  let n := code c in
  if ((65 <=? n) && (n <=? 90)
      || (192 <=? n) && (n <=? 222) && negb (n =? 215))%N
  then ascii_of_N (n + 32) else c.

Fixpoint lower (s : string) : string :=
  match s with
  | EmptyString => EmptyString
  | String c s' => String (lower_char c) (lower s')
  end.

(** [s.startswith(p)] *)
Fixpoint startswith (p s : string) : bool :=
  match p, s with
  | EmptyString, _ => true
  | String _ _, EmptyString => false
  | String a p', String b s' => Ascii.eqb a b && startswith p' s'
  end.

(** [needle in s] *)
Fixpoint contains (needle s : string) : bool :=
  startswith needle s
  || match s with
     | EmptyString => false
     | String _ s' => contains needle s'
     end.

(** [s.endswith(suf)] *)
Fixpoint endswith (suf s : string) : bool :=
  String.eqb s suf
  || match s with
     | EmptyString => false
     | String _ s' => endswith suf s'
     end.

Fixpoint lstrip (s : string) : string :=
  match s with
  | EmptyString => EmptyString
  | String c s' => if isspace c then lstrip s' else s
  end.

Fixpoint rstrip (s : string) : string :=
  match s with
  | EmptyString => EmptyString
  | String c s' =>
      match rstrip s' with
      | EmptyString => if isspace c then EmptyString else String c EmptyString
      | r => String c r
      end
  end.

(** [s.strip()] *)
Definition strip (s : string) : string := rstrip (lstrip s).

(** [s.split(sep)[0]] for a one-character separator. *)
Fixpoint split_first (sep : ascii) (s : string) : string :=
  match s with
  | EmptyString => EmptyString
  | String c s' => if Ascii.eqb c sep then EmptyString else String c (split_first sep s')
  end.

(** [s.replace(old, new)] for a non-empty [old]: occurrences are replaced
    from the left and do not overlap.  [skip] counts the characters of an
    occurrence already replaced that are still to be passed over. *)
Fixpoint replace_from (old new : string) (skip : nat) (s : string) : string :=
  match s with
  | EmptyString => EmptyString
  | String c s' =>
      match skip with
      | S k => replace_from old new k s'
      | O =>
          if startswith old s
          then new +:+ replace_from old new (Nat.pred (String.length old)) s'
          else String c (replace_from old new O s')
      end
  end.

Definition replace (old new s : string) : string := replace_from old new O s.

(** A needle occurs in [s] when case is ignored. *)
Fixpoint startswith_ci (p s : string) : bool :=
  match p, s with
  | EmptyString, _ => true
  | String _ _, EmptyString => false
  | String a p', String b s' =>
      Ascii.eqb (lower_char a) (lower_char b) && startswith_ci p' s'
  end.

Fixpoint contains_ci (needle s : string) : bool :=
  startswith_ci needle s
  || match s with
     | EmptyString => false
     | String _ s' => contains_ci needle s'
     end.

(** The last character of a non-empty string is not white space. *)
Fixpoint ends_nonspace (s : string) : bool :=
  match s with
  | EmptyString => false
  | String c EmptyString => negb (isspace c)
  | String _ s' => ends_nonspace s'
  end.

Definition begins_nonspace (s : string) : bool :=
  match s with
  | EmptyString => false
  | String c _ => negb (isspace c)
  end.

End PyStr.

(** ** Decoded JSON and the dynamic operations the scraper applies to it *)

#[warnings="-register-all"]
Inductive json : Type :=
  | JNull
  | JBool (b : bool)
  | JNum (z : Z)
  | JStr (s : string)
  | JArr (l : list json)
  | JObj (m : gmap string json).

(** Exceptions.  The four classes of [bird_client.py] form one hierarchy
    rooted at [BirdError]; the others are raised by the Python runtime and
    by the libraries.  [OSError] stands for an [OSError] that is no
    [FileNotFoundError], [RuntimeError] for the class and its subclasses
    ([RecursionError]); [UnicodeDecodeError], [JSONDecodeError] and
    pydantic's [ValidationError] derive from [ValueError]. *)
Inductive bird_class := BirdError | BirdNotFoundError | BirdAuthError | BirdRateLimitError.

Inductive builtin_class :=
  | ValueError | TypeError | AttributeError | KeyError | OSError | RuntimeError
  | UnicodeDecodeError | JSONDecodeError | ValidationError.

Inductive exn :=
  | Bird (cls : bird_class) (message stderr : string) (returncode : Z)
  | Builtin (cls : builtin_class) (message : string).

(** [str(e)] *)
Definition exn_str (e : exn) : string :=
  match e with
  | Bird _ m _ _ => m
  | Builtin _ m => m
  end.

(** [isinstance(e, ValueError)] *)
Definition is_ValueError (e : exn) : bool :=
  match e with
  | Builtin (ValueError | UnicodeDecodeError | JSONDecodeError | ValidationError) _ => true
  | _ => false
  end.

(** [isinstance(e, json.JSONDecodeError)] *)
Definition is_JSONDecodeError (e : exn) : bool :=
  match e with
  | Builtin JSONDecodeError _ => true
  | _ => false
  end.

Inductive result (A : Type) :=
  | Ok (a : A)
  | Raise (e : exn).
Arguments Ok {A} a.
Arguments Raise {A} e.

Definition rbind {A B} (r : result A) (k : A -> result B) : result B :=
  match r with
  | Ok a => k a
  | Raise e => Raise e
  end.

Declare Scope result_scope.
Delimit Scope result_scope with result.
Notation "x <- r ;; k" := (rbind r (fun x => k))
  (at level 62, r at next level, right associativity) : result_scope.

Module Py.

(** [type(v).__name__] *)
Definition type_name (v : json) : string :=
  match v with
  | JNull => "NoneType"
  | JBool _ => "bool"
  | JNum _ => "int"
  | JStr _ => "str"
  | JArr _ => "list"
  | JObj _ => "dict"
  end.

Definition no_attribute (v : json) (attr : string) : exn :=
  Builtin AttributeError ("'" +:+ type_name v +:+ "' object has no attribute '" +:+ attr +:+ "'").

(** [bool(v)] *)
Definition truthy (v : json) : bool :=
  match v with
  | JNull => false
  | JBool b => b
  | JNum z => negb (z =? 0)
  | JStr s => negb (String.eqb s "")
  | JArr l => match l with [] => false | _ => true end
  | JObj m => negb (bool_decide (m = ∅))
  end.

(** [a == b] *)
Fixpoint eq (a b : json) {struct a} : bool :=
  match a, b with
  | JNull, JNull => true
  | JBool x, JBool y => bool_decide (x = y)
  | JBool x, JNum y => Z.b2z x =? y
  | JNum x, JBool y => x =? Z.b2z y
  | JNum x, JNum y => x =? y
  | JStr x, JStr y => String.eqb x y
  | JArr l, JArr l' =>
      (fix go (l l' : list json) : bool :=
         match l, l' with
         | [], [] => true
         | x :: l, y :: l' => eq x y && go l l'
         | _, _ => false
         end) l l'
  | JObj m, JObj m' =>
      bool_decide (dom m = dom m')
      && map_fold (fun k v acc =>
                     acc && match m' !! k with
                            | Some v' => eq v v'
                            | None => false
                            end) true m
  | _, _ => false
  end.

(** [d.get(key, default)] on a dict *)
Definition dict_get (d : gmap string json) (key : string) (default : json) : json :=
  match d !! key with
  | Some v => v
  | None => default
  end.

(** [v.get(key, default)] on any value *)
Definition get (v : json) (key : string) (default : json) : result json :=
  match v with
  | JObj d => Ok (dict_get d key default)
  | _ => Raise (no_attribute v "get")
  end.

(** [a or b] where evaluating [b] may raise *)
Definition or_else (a : json) (b : result json) : result json :=
  if truthy a then Ok a else b.

Fixpoint chars (s : string) : list json :=
  match s with
  | EmptyString => []
  | String c s' => JStr (String c EmptyString) :: chars s'
  end.

(** The items [for x in v] runs through *)
Definition iter (v : json) : result (list json) :=
  match v with
  | JArr l => Ok l
  | JStr s => Ok (chars s)
  | JObj m => Ok (JStr <$> (map_to_list m).*1)
  | _ => Raise (Builtin TypeError ("'" +:+ type_name v +:+ "' object is not iterable"))
  end.

(** [needle in v] for a string [needle] *)
Definition contains (needle : string) (v : json) : result bool :=
  match v with
  | JStr s => Ok (PyStr.contains needle s)
  | JArr l => Ok (existsb (eq (JStr needle)) l)
  | JObj m => Ok (bool_decide (is_Some (m !! needle)))
  | _ => Raise (Builtin TypeError ("argument of type '" +:+ type_name v +:+ "' is not iterable"))
  end.

End Py.

(** ** [datetime] and the two parsers of the Python library

    [parse_twitter_date] itself takes the two parsers as arguments, and what
    is proved of it holds for every pair of parsers.  The definitions
    [strptime_twitter] and [fromisoformat] below are reference models of the
    library calls, used to evaluate it on concrete strings:
    [datetime.strptime(s, "%a %b %d %H:%M:%S %z %Y")] in the C locale, and
    [datetime.fromisoformat(s)] as Python 3.7 to 3.10 define it, for the
    grammar [YYYY-MM-DD[*HH[:MM[:SS[.fff[fff]]]][+HH:MM[:SS[.ffffff]]]]].
    From Python 3.11 on [fromisoformat] reads more strings than these (dates
    without hyphens, week dates, fractions of any length, a final [Z]); the
    strings evaluated below are read alike by both. *)

Record datetime := Datetime {
  year : Z;
  month : Z;
  day : Z;
  hour : Z;
  minute : Z;
  second : Z;
  microsecond : Z;
  utcoffset : option Z   (* microseconds east of UTC; [None] for a naive value *)
}.

Module PyTime.

Definition is_leap (y : Z) : bool :=
  (y mod 4 =? 0) && (negb (y mod 100 =? 0) || (y mod 400 =? 0)).

Definition days_in_month (y m : Z) : Z :=
  if m =? 2 then (if is_leap y then 29 else 28)
  else if (m =? 4) || (m =? 6) || (m =? 9) || (m =? 11) then 30
  else 31.

Definition day_us : Z := 86400 * 1000000.

(** The checks of the [datetime] and [timezone] constructors. *)
Definition valid (d : datetime) : bool :=
  (1 <=? year d) && (year d <=? 9999)
  && (1 <=? month d) && (month d <=? 12)
  && (1 <=? day d) && (day d <=? days_in_month (year d) (month d))
  && (0 <=? hour d) && (hour d <=? 23)
  && (0 <=? minute d) && (minute d <=? 59)
  && (0 <=? second d) && (second d <=? 59)
  && (0 <=? microsecond d) && (microsecond d <=? 999999)
  && match utcoffset d with
     | None => true
     | Some o => (- day_us <? o) && (o <? day_us)
     end.

Definition make (y mo d h mi s us : Z) (tz : option Z) : option datetime :=
  let r := Datetime y mo d h mi s us tz in
  if valid r then Some r else None.

Definition digit (c : ascii) : option Z :=
  let n := PyStr.code c in
  if ((48 <=? n) && (n <=? 57))%N then Some (Z.of_N n - 48) else None.

(** Exactly [n] decimal digits. *)
Fixpoint digits (n : nat) (acc : Z) (s : string) : option (Z * string) :=
  match n with
  | O => Some (acc, s)
  | S k =>
      match s with
      | String c s' =>
          match digit c with
          | Some v => digits k (10 * acc + v) s'
          | None => None
          end
      | EmptyString => None
      end
  end.

(** One or two decimal digits, two when two are there: the value, whether
    two were read, and the rest. *)
Definition one_or_two (s : string) : option (Z * bool * string) :=
  match s with
  | String c s' =>
      match digit c with
      | Some v =>
          match s' with
          | String c2 s'' =>
              match digit c2 with
              | Some v2 => Some (10 * v + v2, true, s'')
              | None => Some (v, false, s')
              end
          | EmptyString => Some (v, false, s')
          end
      | None => None
      end
  | EmptyString => None
  end.

(** [\s+] *)
Definition spaces (s : string) : option string :=
  match s with
  | String c _ => if PyStr.isspace c then Some (PyStr.lstrip s) else None
  | EmptyString => None
  end.

Definition expect (c : ascii) (s : string) : option string :=
  match s with
  | String a s' => if Ascii.eqb a c then Some s' else None
  | EmptyString => None
  end.

Fixpoint index_of (x : string) (l : list string) (i : Z) : option Z :=
  match l with
  | [] => None
  | y :: l' => if String.eqb x y then Some i else index_of x l' (i + 1)
  end.

(** A three-letter name of the list, case ignored: its position and the rest. *)
Definition name3 (names : list string) (s : string) : option (Z * string) :=
  match s with
  | String a (String b (String c s')) =>
      match index_of (PyStr.lower (String a (String b (String c EmptyString)))) names 0 with
      | Some i => Some (i, s')
      | None => None
      end
  | _ => None
  end.

Definition weekdays : list string := ["mon"; "tue"; "wed"; "thu"; "fri"; "sat"; "sun"].

Definition months : list string :=
  ["jan"; "feb"; "mar"; "apr"; "may"; "jun"; "jul"; "aug"; "sep"; "oct"; "nov"; "dec"].

Definition nonspace_prefix : string -> string :=
  fix go (s : string) : string :=
    match s with
    | EmptyString => EmptyString
    | String c s' => if PyStr.isspace c then EmptyString else String c (go s')
    end.

Definition signed (negative : bool) (v : Z) : Z := if negative then - v else v.

(** Up to six digits read as a fraction of a second, in microseconds: the
    digits padded with zeros to six, [scale] being the weight of the digit
    before the next one.  Nothing may follow them. *)
Fixpoint fraction (n : nat) (scale acc : Z) (s : string) : option Z :=
  match s with
  | EmptyString => Some (acc * scale)
  | String c s' =>
      match n, digit c with
      | S k, Some v => fraction k (scale / 10) (10 * acc + v) s'
      | _, _ => None
      end
  end.

(** The [%z] field: [Z], or sign, hours, minutes and optional seconds with
    an optional fraction, the colons used throughout or not at all.  The
    offset, in microseconds. *)
Definition z_field (tok : string) : option Z :=
  if String.eqb tok "Z" then Some 0 else
  match tok with
  | String sg t =>
      if Ascii.eqb sg "+" || Ascii.eqb sg "-" then
        let neg := Ascii.eqb sg "-" in
        match digits 2 0 t with
        | Some (hh, t1) =>
            let '(colon, t2) := match expect ":" t1 with
                                | Some r => (true, r)
                                | None => (false, t1)
                                end in
            match digits 2 0 t2 with
            | Some (mm, t3) =>
                if mm <=? 59 then
                  match t3 with
                  | EmptyString => Some (signed neg ((hh * 3600 + mm * 60) * 1000000))
                  | _ =>
                      match (if colon then expect ":" t3 else Some t3) with
                      | Some t4 =>
                          match digits 2 0 t4 with
                          | Some (ss, t5) =>
                              if ss <=? 59 then
                                match t5 with
                                | EmptyString =>
                                    Some (signed neg ((hh * 3600 + mm * 60 + ss) * 1000000))
                                | String dot (String f1 t6) =>
                                    if Ascii.eqb dot "." then
                                      match fraction 6 1000000 0 (String f1 t6) with
                                      | Some us =>
                                          Some (signed neg
                                                  ((hh * 3600 + mm * 60 + ss) * 1000000 + us))
                                      | None => None
                                      end
                                    else None
                                | _ => None
                                end
                              else None
                          | None => None
                          end
                      | None => None
                      end
                  end
                else None
            | None => None
            end
        | None => None
        end
      else None
  | EmptyString => None
  end.

Definition drop_nonspace : string -> string :=
  fix go (s : string) : string :=
    match s with
    | EmptyString => EmptyString
    | String c s' => if PyStr.isspace c then s else go s'
    end.

(** [datetime.strptime(s, "%a %b %d %H:%M:%S %z %Y")]; [None] is [ValueError]. *)
Definition strptime_twitter (s : string) : option datetime :=
  '(_, s) ← name3 weekdays s;
  s ← spaces s;
  '(mo, s) ← name3 months s;
  s ← spaces s;
  '(d, two, s) ← one_or_two s;
  if negb ((1 <=? d) && (d <=? 31)) then None else
  s ← spaces s;
  '(h, two, s) ← one_or_two s;
  if negb (h <=? 23) then None else
  s ← expect ":" s;
  '(mi, two, s) ← one_or_two s;
  if negb (mi <=? 59) then None else
  s ← expect ":" s;
  '(sec, two, s) ← one_or_two s;
  if negb (sec <=? 61) then None else
  s ← spaces s;
  off ← z_field (nonspace_prefix s);
  s ← spaces (drop_nonspace s);
  '(y, s) ← digits 4 0 s;
  match s with
  | EmptyString => make y (mo + 1) d h mi sec 0 (Some off)
  | _ => None
  end.

(** [HH[:MM[:SS[.fff[fff]]]]] with nothing after it: hour, minute, second,
    microsecond. *)
Definition hh_mm_ss_ff (s : string) : option (Z * Z * Z * Z) :=
  '(h, s) ← digits 2 0 s;
  match s with
  | EmptyString => Some (h, 0, 0, 0)
  | _ =>
      s ← expect ":" s;
      '(mi, s) ← digits 2 0 s;
      match s with
      | EmptyString => Some (h, mi, 0, 0)
      | _ =>
          s ← expect ":" s;
          '(sec, s) ← digits 2 0 s;
          match s with
          | EmptyString => Some (h, mi, sec, 0)
          | _ =>
              s ← expect "." s;
              '(f, s) ← digits 3 0 s;
              match s with
              | EmptyString => Some (h, mi, sec, f * 1000)
              | _ =>
                  '(g, s) ← digits 3 0 s;
                  match s with
                  | EmptyString => Some (h, mi, sec, f * 1000 + g)
                  | _ => None
                  end
              end
          end
      end
  end.

(** The text before the first sign, the sign and the text after it. *)
Fixpoint split_sign (s : string) : string * option (bool * string) :=
  match s with
  | EmptyString => (EmptyString, None)
  | String c s' =>
      if Ascii.eqb c "+" then (EmptyString, Some (false, s'))
      else if Ascii.eqb c "-" then (EmptyString, Some (true, s'))
      else let '(t, z) := split_sign s' in (String c t, z)
  end.

(** [datetime.fromisoformat(s)] of Python 3.7 to 3.10; [None] is
    [ValueError]. *)
Definition fromisoformat (s : string) : option datetime :=
  '(y, s) ← digits 4 0 s;
  s ← expect "-" s;
  '(mo, s) ← digits 2 0 s;
  s ← expect "-" s;
  '(d, s) ← digits 2 0 s;
  match s with
  | EmptyString => make y mo d 0 0 0 0 None
  | String _ t =>
      let '(clock, zone) := split_sign t in
      '(h, mi, sec, us) ← hh_mm_ss_ff clock;
      match zone with
      | None => make y mo d h mi sec us None
      | Some (neg, z) =>
          let n := String.length z in
          if negb ((n =? 5) || (n =? 8) || (n =? 15))%nat then None else
          '(zh, zm, zs, zus) ← hh_mm_ss_ff z;
          make y mo d h mi sec us
               (Some (signed neg ((zh * 3600 + zm * 60 + zs) * 1000000 + zus)))
      end
  end.

End PyTime.

(** ** The outside world and the effects of the code *)

(** How a call of [subprocess.run] ends.  [RunRaised] is any other
    exception the call raises: a [ValueError] for a NUL character in an
    argument, a [UnicodeDecodeError] for output that [text=True] cannot
    decode, an [OSError] for an executable that cannot be run. *)
Inductive run_outcome :=
  | RunTimeout                                          (* subprocess.TimeoutExpired *)
  | RunFileNotFound                                     (* FileNotFoundError *)
  | RunCompleted (returncode : Z) (stdout stderr : string)
  | RunRaised (cls : builtin_class) (message : string).

Module Settings.
(** The fields of [models.Settings] the scraper reads. *)
Record t := Make {
  auth_token : option string;
  ct0 : option string;
  proxy_url : option string
}.
End Settings.

(** What one run of [scrape_tweets] finds outside the program, once
    [Settings()] has been built: [get_settings] is what [models.get_settings()]
    returns.  A run in which [Settings()] itself raises (pydantic rejects an
    environment or [.env] file whose [MAX_RETRY], say, is no integer) is not
    a [world]: the exception leaves the caller at the call of
    [get_settings()], before any subprocess is started. *)
Record world := World {
  get_settings : Settings.t;                      (* models.get_settings() *)
  environ : gmap string string;                   (* os.environ *)
  which_bird : bool;                              (* shutil.which("bird") finds it *)
  subprocess_run : list string -> run_outcome;    (* subprocess.run(cmd, ...) *)
  now : datetime                                  (* datetime.now() *)
}.

(** The calls of the Python library whose result the code depends on.
    [lib_json_loads] answers [inr e] when [json.loads] raises [e]: a
    [JSONDecodeError] for a text that is not JSON, and whatever else the
    decoder raises (a [ValueError] for an integer of too many digits, a
    [RecursionError] for a text nested too deep); [lib_strptime] is
    [datetime.strptime] at the format ["%a %b %d %H:%M:%S %z %Y"].  The last
    two are pydantic's: [lib_datetime_or_str v] is what the validator of a
    field annotated [datetime | str] makes of a value [v] that is neither a
    [datetime] nor a string, the [datetime] it is converted to or [None] when
    it is rejected; [lib_validation_error] is the text of the
    [ValidationError] raised for the fields listed, each with the value
    that was rejected. *)
Record pylib := PyLib {
  lib_json_loads : string -> json + exn;
  lib_strptime : string -> result datetime;
  lib_fromisoformat : string -> result datetime;
  lib_datetime_or_str : json -> option datetime;
  lib_validation_error : list (string * json) -> string
}.

Definition of_option (msg : string) (o : option datetime) : result datetime :=
  match o with
  | Some d => Ok d
  | None => Raise (Builtin ValueError msg)
  end.

(** [", ".join(names)] *)
Fixpoint join_names (names : list string) : string :=
  match names with
  | [] => ""
  | [name] => name
  | name :: rest => name +:+ ", " +:+ join_names rest
  end.

(** The library with the reference parsers of [PyTime].  Of the values
    the normaliser can hand to a [datetime | str] field, the number 0 is
    read as the Unix time 0 and the others are rejected.  For the text of a
    validation error the reference names the fields; pydantic's own text
    adds, for each field, the reason and a link that changes with its
    version. *)
Definition reference_lib (loads : string -> json + exn) : pylib :=
  {| lib_json_loads := loads;
     lib_strptime s :=
       of_option "time data does not match format '%a %b %d %H:%M:%S %z %Y'"
                 (PyTime.strptime_twitter s);
     lib_fromisoformat s :=
       of_option ("Invalid isoformat string: '" +:+ s +:+ "'") (PyTime.fromisoformat s);
     lib_datetime_or_str v :=
       match v with
       | JNum 0 => Some (Datetime 1970 1 1 0 0 0 0 (Some 0))
       | _ => None
       end;
     lib_validation_error errors :=
       "validation error for TweetData: " +:+ join_names (errors.*1) |}.

Inductive level := debug | info | warning | error | exception.

Inductive event :=
  | Log (lv : level) (name : string)                    (* logger.<lv>(name, ...) *)
  | NewBirdClient                                       (* BirdClient(...) is entered *)
  | Run (cmd : list string) (env : gmap string string) (timeout : Z)
                                                        (* subprocess.run is called *)
  | Sleep (seconds : Z).                                (* the wait before a retry *)

(** A computation that may raise and that leaves a trace. *)
Definition M (A : Type) : Type := result A * list event.

Definition ret {A} (a : A) : M A := (Ok a, []).

Definition raise {A} (e : exn) : M A := (Raise e, []).

Definition emit (ev : event) : M unit := (Ok tt, [ev]).

Definition lift {A} (r : result A) : M A := (r, []).

Definition bind {A B} (m : M A) (k : A -> M B) : M B :=
  match m with
  | (Ok a, t) => let '(r, t') := k a in (r, t ++ t')
  | (Raise e, t) => (Raise e, t)
  end.

(** [try: m  except Exception as e: handler e] *)
Definition try_except {A} (m : M A) (handler : exn -> M A) : M A :=
  match m with
  | (Ok a, t) => (Ok a, t)
  | (Raise e, t) => let '(r, t') := handler e in (r, t ++ t')
  end.

Declare Scope M_scope.
Delimit Scope M_scope with M.
Notation "x <- m ;; k" := (bind m (fun x => k))
  (at level 62, m at next level, right associativity) : M_scope.
Notation "m ;;; k" := (bind m (fun _ => k))
  (at level 62, right associativity) : M_scope.

(** [str(n)] for an integer *)
Definition str_of_int (z : Z) : string := NilZero.string_of_int (Z.to_int z).

(** [a or b] on optional strings *)
Definition opt_or (a b : option string) : option string :=
  match a with
  | Some s => if String.eqb s "" then b else a
  | None => b
  end.

(** ** [bird_client.py] *)

Definition BirdNotFoundError_new : exn :=
  Bird BirdNotFoundError
       "Bird CLI not found. Install it with: bun install -g @nicepkg/bird
Or see: https://github.com/steipete/bird" "" 1.

Module BirdClient.

Record t := Make {
  auth_token : option string;
  ct0 : option string;
  proxy_url : option string;
  timeout : Z
}.

Definition _verify_bird_installed (w : world) : M unit :=
  if which_bird w then ret tt else raise BirdNotFoundError_new.

(** [BirdClient(auth_token, ct0, proxy_url, timeout)] *)
Definition __init__ (w : world) (auth_token ct0 proxy_url : option string) (timeout : Z) : M t :=
  (emit NewBirdClient ;;;
   let settings := get_settings w in
   let self := Make (opt_or auth_token (Settings.auth_token settings))
                    (opt_or ct0 (Settings.ct0 settings))
                    (opt_or proxy_url (Settings.proxy_url settings))
                    timeout in
   _verify_bird_installed w ;;;
   ret self)%M.

Definition set_if (key : string) (value : option string) (env : gmap string string)
  : gmap string string :=
  match opt_or value None with
  | Some v => <[key := v]> env
  | None => env
  end.

Definition _build_env (self : t) (w : world) : gmap string string :=
  let env := environ w in
  let env := set_if "AUTH_TOKEN" (auth_token self) env in
  let env := set_if "CT0" (ct0 self) env in
  let env := set_if "HTTPS_PROXY" (proxy_url self) env in
  set_if "HTTP_PROXY" (proxy_url self) env.

(** The exception [_run_bird] raises for a run that exited with
    [returncode <> 0]; [stderr] is already stripped. *)
Definition classify_error (stderr : string) (returncode : Z) : exn :=
  if PyStr.contains "401" stderr || PyStr.contains "Unauthorized" stderr
     || PyStr.contains "auth" (PyStr.lower stderr)
  then Bird BirdAuthError "Authentication failed. Re-extract cookies from your browser."
            stderr returncode
  else if PyStr.contains "429" stderr || PyStr.contains "rate" (PyStr.lower stderr)
  then Bird BirdRateLimitError "Rate limit exceeded. Wait before retrying." stderr returncode
  else if PyStr.contains "404" stderr
  then Bird BirdError "Tweet not found or query IDs outdated. Try: bird query-ids --fresh"
            stderr returncode
  else Bird BirdError ("Bird CLI failed: " +:+ stderr) stderr returncode.

Definition _run_bird (lib : pylib) (self : t) (w : world) (args : list string) : M json :=
  (let cmd := ["bird"] ++ args ++ ["--json"] in
   emit (Log debug "executing_bird") ;;;
   emit (Run cmd (_build_env self w) (timeout self)) ;;;
   match subprocess_run w cmd with
   | RunTimeout =>
       raise (Bird BirdError
                   ("Bird command timed out after " +:+ str_of_int (timeout self) +:+ "s") "" 1)
   | RunFileNotFound => raise BirdNotFoundError_new
   | RunCompleted returncode stdout stderr =>
       if negb (returncode =? 0) then
         let stderr := PyStr.strip stderr in
         emit (Log error "bird_failed") ;;;
         raise (classify_error stderr returncode)
       else
         match lib_json_loads lib stdout with
         | inl v => ret v
         | inr e =>
             if is_JSONDecodeError e then
               emit (Log error "bird_json_parse_error") ;;;
               raise (Bird BirdError
                           ("Failed to parse Bird output as JSON: " +:+ exn_str e) "" 1)
             else raise e
         end
   | RunRaised cls message => raise (Builtin cls message)
   end)%M.

Definition read_tweet (lib : pylib) (self : t) (w : world) (url : string) : M json :=
  (emit (Log info "reading_tweet") ;;;
   _run_bird lib self w ["read"; url])%M.

Definition refresh_query_ids (self : t) (w : world) : M unit :=
  (let cmd := ["bird"; "query-ids"; "--fresh"] in
   emit (Log info "refreshing_query_ids") ;;;
   emit (Run cmd (_build_env self w) 120) ;;;
   match subprocess_run w cmd with
   | RunTimeout => emit (Log warning "query_ids_refresh_timeout")
   | RunFileNotFound => raise BirdNotFoundError_new
   | RunCompleted _ _ _ => ret tt
   | RunRaised cls message => raise (Builtin cls message)
   end)%M.

End BirdClient.

(** The two media passes of [bird_client.py]. *)
Fixpoint extract_image_urls_loop (media_list : list json) (images : list string)
  : result (list string) :=
  match media_list with
  | [] => Ok images
  | media :: rest =>
      (ty <- Py.get media "type" JNull ;;
       if Py.eq ty (JStr "photo") then
         url <- Py.get media "url" (JStr "") ;;
         hit <- (if Py.truthy url then Py.contains "twimg.com" url else Ok false) ;;
         if hit then
           match url with
           | JStr u =>
               let base_url := PyStr.split_first "?" u in
               let u := if PyStr.endswith ":orig" base_url then u
                        else base_url +:+ "?format=jpg&name=orig" in
               extract_image_urls_loop rest (images ++ [u])
           | _ => Raise (Py.no_attribute url "split")
           end
         else extract_image_urls_loop rest images
       else extract_image_urls_loop rest images)%result
  end.

Definition extract_image_urls (raw_data : json) : result (list string) :=
  (media_list <- Py.get raw_data "media" (JArr []) ;;
   items <- Py.iter media_list ;;
   extract_image_urls_loop items [])%result.

Fixpoint extract_video_urls_loop (media_list : list json) (videos : list json)
  : result (list json) :=
  match media_list with
  | [] => Ok videos
  | media :: rest =>
      (ty <- Py.get media "type" JNull ;;
       if Py.eq ty (JStr "video") || Py.eq ty (JStr "animated_gif") then
         video_url <- Py.get media "videoUrl" (JStr "") ;;
         if Py.truthy video_url then extract_video_urls_loop rest (videos ++ [video_url])
         else extract_video_urls_loop rest videos
       else extract_video_urls_loop rest videos)%result
  end.

Definition extract_video_urls (raw_data : json) : result (list json) :=
  (media_list <- Py.get raw_data "media" (JArr []) ;;
   items <- Py.iter media_list ;;
   extract_video_urls_loop items [])%result.

(** ** [utils.py] *)

Definition normalize_x_url (url : string) : string :=
  PyStr.replace "twitter.com" "x.com" url.

(** [try: strptime  except ValueError: try: fromisoformat  except
    ValueError: now()].  An exception that is not a [ValueError] escapes. *)
Definition parse_twitter_date (lib : pylib) (w : world) (date_str : string) : result datetime :=
  match lib_strptime lib date_str with
  | Ok d => Ok d
  | Raise e =>
      if is_ValueError e then
        match lib_fromisoformat lib (PyStr.replace "Z" "+00:00" date_str) with
        | Ok d => Ok d
        | Raise e' => if is_ValueError e' then Ok (now w) else Raise e'
        end
      else Raise e
  end.

Fixpoint safe_get (current : json) (keys : list string) (default : json) : json :=
  match keys with
  | [] => current
  | key :: keys' =>
      match current with
      | JObj d =>
          match d !! key with
          | Some JNull | None => default
          | Some v => safe_get v keys' default
          end
      | _ => default
      end
  end.

(** ** [models.py]

    A record holds the fields of the model, one each.  The constructor call
    [TweetData(...)] hands its keyword arguments to pydantic, which checks
    them against the annotations of the class: [TweetData.validate]. *)

(** [created_at: datetime | str]: the parsed date, or the raw value when it
    was empty. *)
Inductive created :=
  | CreatedParsed (d : datetime)
  | CreatedRaw (v : json).

Module TweetData.
Record t := Make {
  id : json;
  url : string;
  text : json;
  created_at : created;
  author_handle : json;
  author_name : json;
  images : list string;
  videos : list json;
  is_thread : bool;
  thread_position : option Z;
  conversation_id : json
}.

(** [str] *)
Definition is_str (v : json) : bool :=
  match v with
  | JStr _ => true
  | _ => false
  end.

(** [str | None] *)
Definition is_str_or_none (v : json) : bool :=
  match v with
  | JStr _ | JNull => true
  | _ => false
  end.

(** [list[str]] *)
Definition is_list_of_str (l : list json) : bool := forallb is_str l.

Definition check (ok : bool) (name : string) (v : json) : list (string * json) :=
  if ok then [] else [(name, v)].

(** [created_at: datetime | str] takes a [datetime] and a string as they
    are; another value is converted to a [datetime] or rejected. *)
Definition validate_created_at (lib : pylib) (c : created) : option created :=
  match c with
  | CreatedParsed _ | CreatedRaw (JStr _) => Some c
  | CreatedRaw v => CreatedParsed <$> lib_datetime_or_str lib v
  end.

(** The fields of the keyword arguments that fail their annotation, in the
    order of the class: [id: str], [text: str], [created_at: datetime | str],
    [author_handle: str], [author_name: str | None], [videos: list[str]] and
    [conversation_id: str | None].  The other arguments are a string ([url]),
    a list of strings ([images]) and a [bool] ([is_thread]) as the
    normaliser builds them. *)
Definition errors (lib : pylib) (kw : t) : list (string * json) :=
  check (is_str (id kw)) "id" (id kw)
  ++ check (is_str (text kw)) "text" (text kw)
  ++ match created_at kw, validate_created_at lib (created_at kw) with
     | CreatedRaw v, None => [("created_at", v)]
     | _, _ => []
     end
  ++ check (is_str (author_handle kw)) "author_handle" (author_handle kw)
  ++ check (is_str_or_none (author_name kw)) "author_name" (author_name kw)
  ++ check (is_list_of_str (videos kw)) "videos" (JArr (videos kw))
  ++ check (is_str_or_none (conversation_id kw)) "conversation_id" (conversation_id kw).

(** The constructor call on the keyword arguments [kw]: the model, or
    pydantic's [ValidationError]. *)
Definition validate (lib : pylib) (kw : t) : result t :=
  match errors lib kw, validate_created_at lib (created_at kw) with
  | [], Some c =>
      Ok (Make (id kw) (url kw) (text kw) c (author_handle kw) (author_name kw)
               (images kw) (videos kw) (is_thread kw) (thread_position kw)
               (conversation_id kw))
  | errs, _ => Raise (Builtin ValidationError (lib_validation_error lib errs))
  end.

End TweetData.

Module ScraperResult.
Record t := Make {
  success : bool;
  url : string;
  data : option TweetData.t;
  error : option string
}.
End ScraperResult.

(** ** [scraper.py] *)

Definition parse_bird_response (lib : pylib) (w : world) (raw_data : json) (url : string)
  : result TweetData.t :=
  (author <- Py.get raw_data "author" (JObj ∅) ;;
   username <- Py.get author "username" (JStr "") ;;
   author_handle <- Py.or_else username
                      (handle <- Py.get author "handle" (JStr "") ;;
                       Py.or_else handle (Py.get author "screen_name" (JStr ""))) ;;
   name <- Py.get author "name" (JStr "") ;;
   author_name <- Py.or_else name (Py.get author "displayName" (JStr "")) ;;
   createdAt <- Py.get raw_data "createdAt" (JStr "") ;;
   created_at_raw <- Py.or_else createdAt (Py.get raw_data "created_at" (JStr "")) ;;
   created_at <- (if Py.truthy created_at_raw then
                    match created_at_raw with
                    | JStr s => d <- parse_twitter_date lib w s ;; Ok (CreatedParsed d)
                    | v => Raise (Builtin TypeError
                                    ("strptime() argument 1 must be str, not "
                                       +:+ Py.type_name v))
                    end
                  else Ok (CreatedRaw created_at_raw)) ;;
   images <- extract_image_urls raw_data ;;
   videos <- extract_video_urls raw_data ;;
   conversationId <- Py.get raw_data "conversationId" JNull ;;
   conversation_id <- Py.or_else conversationId
                        (Ok (safe_get raw_data ["legacy"; "conversation_id_str"] JNull)) ;;
   tweet_id <- Py.get raw_data "id" (JStr "") ;;
   let is_thread := negb (Py.eq conversation_id JNull) && negb (Py.eq conversation_id tweet_id) in
   text <- Py.get raw_data "text" (JStr "") ;;
   text <- Py.or_else text (Py.get raw_data "full_text" (JStr "")) ;;
   TweetData.validate lib
     (TweetData.Make tweet_id url text created_at author_handle author_name
                     images videos is_thread None conversation_id))%result.

Definition failed (url error : string) : ScraperResult.t :=
  ScraperResult.Make false url None (Some error).

(** One run of the body of [scrape_tweets].  [Raise e] is an exception that
    leaves the function, to the [@task] wrapper around it. *)
Definition scrape_tweets (lib : pylib) (w : world) (data : gmap string json)
  : M ScraperResult.t :=
  let url := Py.dict_get data "url" (JStr "") in
  if negb (Py.truthy url) then ret (failed "" "No URL provided")
  else
    (url <- match url with
            | JStr u => ret (normalize_x_url u)
            | v => raise (Py.no_attribute v "replace")
            end ;;
     let settings := get_settings w in
     client <- BirdClient.__init__ w (Settings.auth_token settings) (Settings.ct0 settings)
                                   (Settings.proxy_url settings) 60 ;;
     try_except
       (emit (Log info "scraping_tweet") ;;;
        raw_data <- BirdClient.read_tweet lib client w url ;;
        tweet <- lift (parse_bird_response lib w raw_data url) ;;
        emit (Log info "tweet_scraped") ;;;
        ret (ScraperResult.Make true url (Some tweet) None))
       (fun e =>
          match e with
          | Bird BirdRateLimitError _ _ _ =>
              emit (Log warning "rate_limited") ;;;
              raise e
          | Bird _ _ _ _ =>
              if PyStr.contains "404" (exn_str e)
                 || PyStr.contains "query" (PyStr.lower (exn_str e))
              then
                emit (Log info "refreshing_query_ids_for_retry") ;;;
                BirdClient.refresh_query_ids client w ;;;
                raise e
              else
                emit (Log error "scrape_failed") ;;;
                ret (failed url (exn_str e))
          | Builtin _ _ =>
              emit (Log exception "unexpected_error") ;;;
              ret (failed url ("Unexpected error: " +:+ exn_str e))
          end))%M.

(** [data = [{"url": url} for url in urls]] *)
Definition scrape_urls_data (urls : list string) : list (gmap string json) :=
  (fun url => {[ "url" := JStr url ]}) <$> urls.

(** ** Failure kinds *)

Inductive FailureKind :=
  | ToolMissing
  | AuthExpired
  | RateLimited
  | NotFoundOrStale
  | Timeout
  | MalformedOutput
  | Unclassified.

(** The classifier in the words of the specification: substring rules over
    the text the tool wrote to stderr, the first that matches wins. *)
Definition classify_stderr (stderr : string) : FailureKind :=
  if PyStr.contains "401" stderr || PyStr.contains "Unauthorized" stderr
     || PyStr.contains_ci "auth" stderr
  then AuthExpired
  else if PyStr.contains "429" stderr || PyStr.contains_ci "rate" stderr
  then RateLimited
  else if PyStr.contains "404" stderr
  then NotFoundOrStale
  else Unclassified.

(** The failure kind an exception of an attempt stands for: an exception of
    the [BirdError] family by its class and the beginning of its message, a
    built-in exception, as the normaliser raises on JSON that is no object,
    as MalformedOutput.  The specification has no kind for what
    [subprocess.run] and the decoder raise besides; [run_kind] gives such a
    run none. *)
Definition failure_kind (e : exn) : FailureKind :=
  match e with
  | Bird BirdNotFoundError _ _ _ => ToolMissing
  | Bird BirdAuthError _ _ _ => AuthExpired
  | Bird BirdRateLimitError _ _ _ => RateLimited
  | Bird BirdError m _ _ =>
      if PyStr.startswith "Tweet not found or query IDs outdated" m then NotFoundOrStale
      else if PyStr.startswith "Bird command timed out" m then Timeout
      else if PyStr.startswith "Failed to parse Bird output as JSON" m then MalformedOutput
      else Unclassified
  | Builtin _ _ => MalformedOutput
  end.

(** The failure kind of one run of the tool: [None] when it succeeded, and
    when [subprocess.run] or the decoder raised an exception that [_run_bird]
    does not handle, which is no failure of the tool. *)
Definition run_kind (lib : pylib) (r : run_outcome) : option FailureKind :=
  match r with
  | RunTimeout => Some Timeout
  | RunFileNotFound => Some ToolMissing
  | RunCompleted returncode stdout stderr =>
      if negb (returncode =? 0) then Some (classify_stderr stderr)
      else match lib_json_loads lib stdout with
           | inl _ => None
           | inr e => if is_JSONDecodeError e then Some MalformedOutput else None
           end
  | RunRaised _ _ => None
  end.

(** The command line of [read_tweet]. *)
Definition read_cmd (url : string) : list string := ["bird"; "read"; url; "--json"].

Definition refresh_cmd : list string := ["bird"; "query-ids"; "--fresh"].

(** ** The job orchestrator

    The retries and the batch are the work of the [@task] decorator on
    [scrape_tweets]; the decorator comes from botasaurus and is not among the
    sources.  Its part is taken from section 4.4 of the specification. *)

(** Modelled from the spec: the states of a job of section 4.4
    ([Invoking], then [Succeeded] or [Failed]); the [@task] wrapper that
    holds them is missing. *)
Inductive job_state :=
  | Invoking (attempts : nat)                          (* attempts consumed so far *)
  | Succeeded (r : ScraperResult.t) (attempts : nat)
  | Failed (r : ScraperResult.t) (attempts : nat)      (* the attempt returned a failure *)
  | Exhausted (e : exn) (attempts : nat).              (* the last attempt allowed raised *)

Definition terminal (st : job_state) : bool :=
  match st with
  | Invoking _ => false
  | _ => true
  end.

Section Orchestrator.

Variable max_attempts : nat.
Variable retry_wait : Z.
Variable lib : pylib.

(** Modelled from the spec: one attempt of a job under the [@task] wrapper
    (missing), which has consumed [n] attempts and runs in world [w].  What
    [scrape_tweets] returns ends the job; when it raises, the job waits
    [retry_wait] and is invoked again if the attempts consumed are fewer
    than [max_attempts], and ends failed otherwise. *)
Definition job_step (w : world) (data : gmap string json) (n : nat)
  : job_state * list event :=
  match scrape_tweets lib w data with
  | (Ok r, t) =>
      (if ScraperResult.success r then Succeeded r (S n) else Failed r (S n), t)
  | (Raise e, t) =>
      if (S n <? max_attempts)%nat then (Invoking (S n), t ++ [Sleep retry_wait])
      else (Exhausted e (S n), t)
  end.

(** Modelled from the spec: a job of the [@task] wrapper (missing) run to
    its end; [ws n] is the world its attempt number [n + 1] runs in. *)
Fixpoint run_from (fuel : nat) (ws : nat -> world) (data : gmap string json) (n : nat)
  : job_state * list event :=
  let '(st, t) := job_step (ws n) data n in
  match st, fuel with
  | Invoking n', S fuel' =>
      let '(st', t') := run_from fuel' ws data n' in (st', t ++ t')
  | _, _ => (st, t)
  end.

Definition run_job (ws : nat -> world) (data : gmap string json) : job_state * list event :=
  run_from max_attempts ws data 0.

(** The outcome of job [i] of a batch; [wss i] are the worlds of its attempts. *)
Definition outcome (wss : nat -> nat -> world) (i : nat) (data : gmap string json)
  : job_state :=
  (run_job (wss i) data).1.

(** Modelled from the spec: the completion of a job in the worker pool of
    the [@task] wrapper (missing).  Its outcome is stored in the slot of its
    input index. *)
Definition complete (wss : nat -> nat -> world) (inputs : list (gmap string json))
    (slots : list (option job_state)) (i : nat) : list (option job_state) :=
  match inputs !! i with
  | Some data => <[i := Some (outcome wss i data)]> slots
  | None => slots
  end.

(** Modelled from the spec: a batch of the [@task] wrapper (missing).  The
    jobs complete in the order [schedule]; the result is there once every
    slot is filled. *)
Definition run_batch (wss : nat -> nat -> world) (inputs : list (gmap string json))
    (schedule : list nat) : option (list job_state) :=
  mapM id (foldl (complete wss inputs) (replicate (length inputs) None) schedule).

(** [scrape_urls(urls)]: the decorated [scrape_tweets] applied to the list
    of job inputs. *)
Definition scrape_urls (wss : nat -> nat -> world) (urls : list string) (schedule : list nat)
  : option (list job_state) :=
  run_batch wss (scrape_urls_data urls) schedule.

End Orchestrator.

(** ** Sample inputs *)

(** A decoder that knows two texts; every other text is a decoding error. *)
Definition sample_loads (s : string) : json + exn :=
  if String.eqb s "{}" then inl (JObj ∅)
  else if String.eqb s "[]" then inl (JArr [])
  else inr (Builtin JSONDecodeError "Expecting value: line 1 column 1 (char 0)").

Definition sample_lib : pylib := reference_lib sample_loads.

Definition noon : datetime := Datetime 2026 1 20 12 0 0 0 None.

Definition later : datetime := Datetime 2026 1 20 12 0 1 0 None.

(** A world in which [bird] is installed, [bird query-ids --fresh] ends as
    [refresh] and every other command as [read]. *)
Definition sample_world (read refresh : run_outcome) (clock : datetime) : world :=
  World (Settings.Make None None None) ∅ true
        (fun cmd => if bool_decide (cmd = refresh_cmd) then refresh else read)
        clock.

Definition sample_client : BirdClient.t := BirdClient.Make None None None 60.

Definition sample_url : string := "https://twitter.com/bozhou_ai/status/2011738838767423983".

Definition sample_data : gmap string json := {[ "url" := JStr sample_url ]}.

(** The client [scrape_tweets] builds in world [w]. *)
Definition scrape_client (w : world) : BirdClient.t :=
  let settings := get_settings w in
  BirdClient.Make
    (opt_or (Settings.auth_token settings) (Settings.auth_token settings))
    (opt_or (Settings.ct0 settings) (Settings.ct0 settings))
    (opt_or (Settings.proxy_url settings) (Settings.proxy_url settings))
    60.

(** The [except] clauses of [scrape_tweets] retry this error after a refresh. *)
Definition asks_refresh (e : exn) : bool :=
  PyStr.contains "404" (exn_str e) || PyStr.contains "query" (PyStr.lower (exn_str e)).

(** The number of subprocesses a trace started. *)
Definition is_run (ev : event) : bool :=
  match ev with
  | Run _ _ _ => true
  | _ => false
  end.

Definition count_runs (t : list event) : nat := length (List.filter is_run t).

(** ** Reading the normaliser *)

(** [t] with its [created_at] replaced. *)
Definition set_created_at (c : created) (t : TweetData.t) : TweetData.t :=
  TweetData.Make (TweetData.id t) (TweetData.url t) (TweetData.text t) c
                 (TweetData.author_handle t) (TweetData.author_name t)
                 (TweetData.images t) (TweetData.videos t) (TweetData.is_thread t)
                 (TweetData.thread_position t) (TweetData.conversation_id t).

(** The date of a response as the normaliser reads it: ["createdAt"] when
    that is truthy, ["created_at"] otherwise, the empty string when neither
    is there. *)
Definition raw_date (d : gmap string json) : json :=
  let createdAt := Py.dict_get d "createdAt" (JStr "") in
  if Py.truthy createdAt then createdAt else Py.dict_get d "created_at" (JStr "").

(** The URL [extract_image_urls] keeps for the URL [u] of a photo. *)
Definition full_size (u : string) : string :=
  let base_url := PyStr.split_first "?" u in
  if PyStr.endswith ":orig" base_url then u else base_url +:+ "?format=jpg&name=orig".

(** The URL of a media item that is a photo on the image host. *)
Definition photo_url (media : json) : option string :=
  match media with
  | JObj d =>
      if Py.eq (Py.dict_get d "type" JNull) (JStr "photo") then
        match Py.dict_get d "url" (JStr "") with
        | JStr u => if PyStr.contains "twimg.com" u then Some u else None
        | _ => None
        end
      else None
  | _ => None
  end.

(** A media item as the tool writes it: an object whose ["url"], when there
    is one, is a string. *)
Definition media_item (media : json) : Prop :=
  match media with
  | JObj d =>
      match d !! "url" with
      | Some (JStr _) | None => True
      | Some _ => False
      end
  | _ => False
  end.

(** A URL carries a mark of the original size. *)
Definition has_orig_marker (u : string) : bool :=
  PyStr.contains ":orig" u || PyStr.contains "name=orig" u.

(** The fixture [sample_bird_response] of the tests. *)
Definition sample_media : list json :=
  [JObj (list_to_map [("type", JStr "photo");
                      ("url", JStr "https://pbs.twimg.com/media/sample1.jpg");
                      ("width", JNum 1200); ("height", JNum 800)]);
   JObj (list_to_map [("type", JStr "photo");
                      ("url", JStr "https://pbs.twimg.com/media/sample2.jpg");
                      ("width", JNum 1200); ("height", JNum 800)]);
   JObj (list_to_map [("type", JStr "video");
                      ("videoUrl", JStr "https://video.twimg.com/ext_tw_video/sample.mp4");
                      ("width", JNum 1920); ("height", JNum 1080)])].

Definition sample_bird_fields : gmap string json :=
  list_to_map
    [("id", JStr "2011738838767423983");
     ("text", JStr "This is a sample tweet with some content.");
     ("author", JObj (list_to_map [("handle", JStr "bozhou_ai"); ("name", JStr "Bo Zhou");
                                   ("id", JStr "123456789")]));
     ("createdAt", JStr "Wed Jan 15 10:30:00 +0000 2026");
     ("media", JArr sample_media);
     ("conversationId", JStr "2011738838767423983")].

Definition sample_bird_response : json := JObj sample_bird_fields.

(** A reply: the same tweet inside the conversation of another. *)
Definition sample_reply : json :=
  JObj (list_to_map
    [("id", JStr "2011738838767423983");
     ("text", JStr "A reply.");
     ("author", JObj (list_to_map [("handle", JStr "bozhou_ai")]));
     ("createdAt", JStr "not a date");
     ("conversationId", JStr "2011700000000000000")]).

(** ** The claims the code does not meet, as the specification states them *)


(** No failure of the refresh action leaves the refresh call. *)
Definition refresh_never_escalates : Prop :=
  ∀ (self : BirdClient.t) (w : world),
    ∃ t, BirdClient.refresh_query_ids self w = (Ok tt, t).

(** Normalising the same raw JSON twice gives the same record. *)
Definition normalize_twice_identical : Prop :=
  ∀ (lib : pylib) (w1 w2 : world) (raw_data : json) (url : string),
    get_settings w1 = get_settings w2 → environ w1 = environ w2 →
    which_bird w1 = which_bird w2 → subprocess_run w1 = subprocess_run w2 →
    parse_bird_response lib w1 raw_data url = parse_bird_response lib w2 raw_data url.

(** The URL the specification keeps for the URL [u] of a photo: [u] itself
    when it ends with the mark of the original size, and otherwise [u]
    without its query string, followed by the canonical query. *)
Definition full_size_as_stated (u : string) : string :=
  if PyStr.endswith ":orig" u then u
  else PyStr.split_first "?" u +:+ "?format=jpg&name=orig".

(** Every photo on the image host is kept under the URL of the
    specification. *)
Definition image_urls_as_stated : Prop :=
  ∀ (d : gmap string json) (items : list json),
    Py.dict_get d "media" (JArr []) = JArr items → Forall media_item items →
    extract_image_urls (JObj d)
    = Ok (omap (λ m, full_size_as_stated <$> photo_url m) items).

(** A photo whose URL has the mark of the original size before a query
    string. *)
Definition sample_orig_url : string := "https://pbs.twimg.com/media/a.jpg:orig?x=1".

Definition sample_orig_fields : gmap string json :=
  {[ "media" := JArr [JObj (list_to_map [("type", JStr "photo");
                                         ("url", JStr sample_orig_url)])] ]}.

(** ** The rest of [utils.py] *)

Module XUrl.

(** The dict [parse_x_url] returns: its three keys. *)
Record t := Make {
  username : option string;
  tweet_id : option string;
  type : string
}.

(** The rest of [s] after the prefix [p]. *)
Fixpoint strip_prefix (p s : string) : option string :=
  match p, s with
  | EmptyString, _ => Some s
  | String _ _, EmptyString => None
  | String a p', String b s' => if Ascii.eqb a b then strip_prefix p' s' else None
  end.

(** [https?://(?:www\.)?(?:x|twitter)\.com/] at the start of [s]: the rest. *)
Definition match_host (s : string) : option string :=
  s ← strip_prefix "http" s;
  let s := default s (strip_prefix "s" s) in
  s ← strip_prefix "://" s;
  let s := default s (strip_prefix "www." s) in
  s ← match strip_prefix "x" s with
      | Some r => Some r
      | None => strip_prefix "twitter" s
      end;
  strip_prefix ".com/" s.

(** The longest prefix of characters that satisfy [keep], and the rest. *)
Fixpoint span (keep : ascii → bool) (s : string) : string * string :=
  match s with
  | EmptyString => (EmptyString, EmptyString)
  | String c s' =>
      if keep c then let '(a, b) := span keep s' in (String c a, b)
      else (EmptyString, s)
  end.

Definition nonslash (c : ascii) : bool := negb (Ascii.eqb c "/").

Definition isdigit (c : ascii) : bool :=
  let n := PyStr.code c in ((48 <=? n) && (n <=? 57))%N.

(** [([^/]+)/status/(\d+)] after the host: the two groups. *)
Definition match_tweet (s : string) : option (string * string) :=
  let '(user, rest) := span nonslash s in
  if String.eqb user "" then None else
  rest ← strip_prefix "/status/" rest;
  let '(digits, _) := span isdigit rest in
  if String.eqb digits "" then None else Some (user, digits).

(** [([^/]+)/?$] after the host: the group.  [$] is the end of the string,
    or the place before a newline that ends it. *)
Definition match_profile (s : string) : option string :=
  let '(user, rest) := span nonslash s in
  if String.eqb user "" then None
  else if String.eqb rest "" || String.eqb rest "/" || String.eqb rest "/
"
  then Some user else None.

End XUrl.

Definition parse_x_url (url : string) : XUrl.t :=
  let url := PyStr.strip url in
  match XUrl.match_host url ≫= XUrl.match_tweet with
  | Some (user, digits) => XUrl.Make (Some user) (Some digits) "tweet"
  | None =>
      match XUrl.match_host url ≫= XUrl.match_profile with
      | Some user => XUrl.Make (Some user) None "profile"
      | None => XUrl.Make None None "unknown"
      end
  end.

Definition format_image_url (url size : string) : string :=
  if String.eqb url "" || negb (PyStr.contains "twimg.com" url) then url
  else
    let base_url := PyStr.split_first "?" url in
    base_url +:+ "?format=jpg&name=" +:+ size.

(** [s[:n]] for [0 <= n] *)
Fixpoint str_take (n : nat) (s : string) : string :=
  match n, s with
  | S k, String c s' => String c (str_take k s')
  | _, _ => EmptyString
  end.

(** [s[:k]] for any integer [k]: a negative [k] counts from the end. *)
Definition slice_to (k : Z) (s : string) : string :=
  if 0 <=? k then str_take (Z.to_nat k) s
  else str_take (Z.to_nat (Z.of_nat (String.length s) + k)) s.

Definition truncate_text (text : string) (max_length : Z) : string :=
  if Z.of_nat (String.length text) <=? max_length then text
  else slice_to (max_length - 3) text +:+ "...".

(** Every character of [s] satisfies [keep]. *)
Fixpoint str_forall (keep : ascii → bool) (s : string) : bool :=
  match s with
  | EmptyString => true
  | String c s' => keep c && str_forall keep s'
  end.

(** The beginnings of a URL that [parse_x_url] takes for X. *)
Definition x_hosts : list string :=
  ["https://x.com/"; "https://twitter.com/"; "http://x.com/"; "http://twitter.com/";
   "https://www.x.com/"; "https://www.twitter.com/"; "http://www.x.com/";
   "http://www.twitter.com/"].

(** The video URL [extract_video_urls] takes from a media item. *)
Definition video_url (media : json) : option json :=
  match media with
  | JObj d =>
      let ty := Py.dict_get d "type" JNull in
      if Py.eq ty (JStr "video") || Py.eq ty (JStr "animated_gif") then
        let v := Py.dict_get d "videoUrl" (JStr "") in
        if Py.truthy v then Some v else None
      else None
  | _ => None
  end.

Definition is_object (v : json) : Prop :=
  match v with
  | JObj _ => True
  | _ => False
  end.

(** [v is None] *)
Definition is_none (v : json) : bool :=
  match v with
  | JNull => true
  | _ => false
  end.

(** ** The rest of [bird_client.py] *)

(** [BirdClient.get_version]: the child inherits the environment of the
    process. *)
Definition get_version (self : BirdClient.t) (w : world) : M string :=
  (let cmd := ["bird"; "--version"] in
   emit (Run cmd (environ w) 10) ;;;
   match subprocess_run w cmd with
   | RunTimeout | RunFileNotFound => ret "unknown"
   | RunCompleted _ stdout _ => ret (PyStr.strip stdout)
   | RunRaised cls message => raise (Builtin cls message)
   end)%M.

(** The first of the optional strings that is there and not empty. *)
Fixpoint first_nonempty (l : list (option string)) : option string :=
  match l with
  | [] => None
  | o :: l' => match opt_or o None with
               | Some s => Some s
               | None => first_nonempty l'
               end
  end.

(** ** [cookie_extractor.py] *)

Module XCookies.
Record t := Make {
  auth_token : json;
  ct0 : json
}.
End XCookies.

Definition bird_managed : XCookies.t :=
  XCookies.Make (JStr "[bird-managed]") (JStr "[bird-managed]").

(** What [load_cookies] finds at [COOKIES_FILE]: no file, a file and its
    text, or an exception of [open] or of reading it (a [PermissionError], a
    [UnicodeDecodeError] for bytes that are no text). *)
Inductive cookies_file :=
  | FileMissing
  | FileText (text : string)
  | FileRaised (cls : builtin_class) (message : string).

(** [except (json.JSONDecodeError, KeyError)] *)
Definition load_cookies_catches (e : exn) : bool :=
  match e with
  | Builtin (JSONDecodeError | KeyError) _ => true
  | _ => false
  end.

Definition load_cookies (lib : pylib) (file : cookies_file) : M (option XCookies.t) :=
  match file with
  | FileMissing => ret None
  | FileText text =>
      try_except
        (data <- lift (match lib_json_loads lib text with
                       | inl data => Ok data
                       | inr e => Raise e
                       end) ;;
         auth_token <- lift (Py.get data "auth_token" (JStr "")) ;;
         ct0 <- lift (Py.get data "ct0" (JStr "")) ;;
         ret (Some (XCookies.Make auth_token ct0)))%M
        (fun e =>
           if load_cookies_catches e then
             (emit (Log warning "cookies_load_failed") ;;; ret None)%M
           else raise e)
  | FileRaised cls message =>
      try_except
        (raise (Builtin cls message))
        (fun e =>
           if load_cookies_catches e then
             (emit (Log warning "cookies_load_failed") ;;; ret None)%M
           else raise e)
  end.

Definition extract_cookies_via_bird (w : world) : M (option XCookies.t) :=
  (let cmd := ["bird"; "whoami"] in
   emit (Run cmd (environ w) 30) ;;;
   match subprocess_run w cmd with
   | RunTimeout | RunFileNotFound =>
       emit (Log warning "bird_auth_check_error") ;;; ret None
   | RunCompleted returncode stdout stderr =>
       if (returncode =? 0) && negb (String.eqb (PyStr.strip stdout) "") then
         emit (Log info "bird_auto_auth_success") ;;; ret (Some bird_managed)
       else
         emit (Log warning "bird_auto_auth_failed") ;;; ret None
   | RunRaised cls message =>
       if is_JSONDecodeError (Builtin cls message) then
         emit (Log warning "bird_auth_check_error") ;;; ret None
       else raise (Builtin cls message)
   end)%M.

Definition extract_cookies_from_env (w : world) : option XCookies.t :=
  let settings := get_settings w in
  match opt_or (Settings.auth_token settings) None, opt_or (Settings.ct0 settings) None with
  | Some auth_token, Some ct0 => Some (XCookies.Make (JStr auth_token) (JStr ct0))
  | _, _ => None
  end.

Definition get_best_cookies (lib : pylib) (w : world) (file : cookies_file)
  : M (option XCookies.t) :=
  match extract_cookies_from_env w with
  | Some cookies => (emit (Log debug "using_env_cookies") ;;; ret (Some cookies))%M
  | None =>
      (saved <- load_cookies lib file ;;
       match saved with
       | Some cookies =>
           if Py.truthy (XCookies.auth_token cookies)
              && negb (Py.eq (XCookies.auth_token cookies) (JStr "[bird-managed]"))
           then emit (Log debug "using_saved_cookies") ;;; ret (Some cookies)
           else
             found <- extract_cookies_via_bird w ;;
             match found with
             | Some cookies => emit (Log debug "using_bird_auto_cookies") ;;; ret (Some cookies)
             | None => ret None
             end
       | None =>
           found <- extract_cookies_via_bird w ;;
           match found with
           | Some cookies => emit (Log debug "using_bird_auto_cookies") ;;; ret (Some cookies)
           | None => ret None
           end
       end)%M
  end.

(** A key that is absent or holds a string. *)
Definition str_or_absent (o : option json) : Prop :=
  match o with
  | Some (JStr _) | None => True
  | Some _ => False
  end.

(** A media item whose ["url"] and ["videoUrl"], when there, are strings. *)
Definition well_formed_media_item (media : json) : Prop :=
  media_item media
  ∧ match media with
    | JObj d => str_or_absent (d !! "videoUrl")
    | _ => False
    end.

(** A response of the tool as the normaliser and the model expect it: the
    author, when there is one, is an object whose names are strings; the two
    dates, the identifier and the two texts are strings; the conversation
    identifier is a string or [None], at the top level and under ["legacy"];
    the media are a list of media items.  Each key may be absent. *)
Definition well_formed_response (d : gmap string json) : Prop :=
  match d !! "author" with
  | Some (JObj a) =>
      str_or_absent (a !! "username") ∧ str_or_absent (a !! "handle")
      ∧ str_or_absent (a !! "screen_name") ∧ str_or_absent (a !! "name")
      ∧ str_or_absent (a !! "displayName")
  | None => True
  | Some _ => False
  end
  ∧ str_or_absent (d !! "createdAt")
  ∧ str_or_absent (d !! "created_at")
  ∧ match d !! "media" with
    | Some (JArr items) => Forall well_formed_media_item items
    | None => True
    | Some _ => False
    end
  ∧ str_or_absent (d !! "id")
  ∧ str_or_absent (d !! "text")
  ∧ str_or_absent (d !! "full_text")
  ∧ TweetData.is_str_or_none (Py.dict_get d "conversationId" JNull) = true
  ∧ TweetData.is_str_or_none (safe_get (JObj d) ["legacy"; "conversation_id_str"] JNull) = true.

(** * Properties *)

(** ** Strings *)

Lemma isspace_lower_char c : PyStr.isspace (PyStr.lower_char c) = PyStr.isspace c.
Proof. destruct c as [[] [] [] [] [] [] [] []]; reflexivity. Qed.

Lemma lower_lstrip s : PyStr.lower (PyStr.lstrip s) = PyStr.lstrip (PyStr.lower s).
Proof.
  induction s as [|c s IH]; simpl; [done|].
  rewrite isspace_lower_char. destruct (PyStr.isspace c); [apply IH | done].
Qed.

Lemma lower_rstrip s : PyStr.lower (PyStr.rstrip s) = PyStr.rstrip (PyStr.lower s).
Proof.
  induction s as [|c s IH]; simpl; [done|].
  rewrite <- IH, isspace_lower_char.
  destruct (PyStr.rstrip s); simpl; [destruct (PyStr.isspace c) |]; done.
Qed.

Lemma lower_strip s : PyStr.lower (PyStr.strip s) = PyStr.strip (PyStr.lower s).
Proof. unfold PyStr.strip. by rewrite lower_rstrip, lower_lstrip. Qed.

Lemma startswith_ci_lower p s :
  PyStr.startswith_ci p s = PyStr.startswith (PyStr.lower p) (PyStr.lower s).
Proof.
  revert s. induction p as [|a p IH]; intros [|b s]; simpl; try done.
  by rewrite IH.
Qed.

Lemma contains_ci_lower needle s :
  PyStr.contains_ci needle s = PyStr.contains (PyStr.lower needle) (PyStr.lower s).
Proof.
  induction s as [|c s IH]; simpl.
  - by rewrite startswith_ci_lower.
  - by rewrite startswith_ci_lower, IH.
Qed.

Lemma startswith_cons a p b s :
  PyStr.startswith (String a p) (String b s) = Ascii.eqb a b && PyStr.startswith p s.
Proof. done. Qed.

Lemma contains_cons needle c s :
  PyStr.contains needle (String c s)
  = PyStr.startswith needle (String c s) || PyStr.contains needle s.
Proof. done. Qed.

Lemma startswith_space_head needle c s :
  PyStr.begins_nonspace needle = true → PyStr.isspace c = true →
  PyStr.startswith needle (String c s) = false.
Proof.
  destruct needle as [|a p]; simpl; [done|]. intros Ha Hc.
  destruct (Ascii.eqb_spec a c) as [->|]; [|done].
  by rewrite Hc in Ha.
Qed.

Lemma contains_lstrip needle s :
  PyStr.begins_nonspace needle = true →
  PyStr.contains needle (PyStr.lstrip s) = PyStr.contains needle s.
Proof.
  intros Hn. induction s as [|c s IH]; [done|].
  cbn [PyStr.lstrip]. destruct (PyStr.isspace c) eqn:Hc; [|done].
  rewrite IH. cbn [PyStr.contains]. by rewrite startswith_space_head.
Qed.

Lemma rstrip_empty_startswith needle s :
  PyStr.ends_nonspace needle = true → PyStr.rstrip s = EmptyString →
  PyStr.startswith needle s = false.
Proof.
  revert s. induction needle as [|a p IH]; intros s Hn Hs; [done|].
  destruct s as [|c s]; [done|]. simpl in Hs.
  destruct (PyStr.rstrip s) eqn:Hr; [|done].
  destruct (PyStr.isspace c) eqn:Hc; [|done].
  cbn [PyStr.startswith]. destruct (Ascii.eqb_spec a c) as [->|]; [|done].
  simpl. destruct p as [|b p].
  - simpl in Hn. by rewrite Hc in Hn.
  - apply IH; done.
Qed.

Lemma startswith_rstrip needle s :
  PyStr.ends_nonspace needle = true →
  PyStr.startswith needle (PyStr.rstrip s) = PyStr.startswith needle s.
Proof.
  revert s. induction needle as [|a p IH]; intros s Hn; [done|].
  destruct s as [|c s]; [done|].
  destruct p as [|b p].
  - simpl in Hn. simpl.
    destruct (PyStr.rstrip s); [destruct (PyStr.isspace c) eqn:Hc|]; simpl; try done.
    destruct (Ascii.eqb_spec a c) as [->|]; [|done]. by rewrite Hc in Hn.
  - assert (Hp : PyStr.ends_nonspace (String b p) = true) by done.
    cbn [PyStr.rstrip]. destruct (PyStr.rstrip s) eqn:Hr.
    + pose proof (rstrip_empty_startswith _ _ Hp Hr) as Hf.
      destruct (PyStr.isspace c); cbn [PyStr.startswith]; rewrite ?Hf;
        destruct (Ascii.eqb a c); done.
    + rewrite (startswith_cons a (String b p) c s), <- (IH s Hp), Hr. done.
Qed.

Lemma rstrip_empty_contains needle s :
  PyStr.ends_nonspace needle = true → PyStr.rstrip s = EmptyString →
  PyStr.contains needle s = false.
Proof.
  intros Hn. induction s as [|c s IH]; intros Hs.
  - destruct needle; done.
  - cbn [PyStr.contains]. rewrite (rstrip_empty_startswith _ _ Hn Hs).
    simpl in Hs. destruct (PyStr.rstrip s); [|done]. by apply IH.
Qed.

Lemma contains_rstrip needle s :
  PyStr.ends_nonspace needle = true →
  PyStr.contains needle (PyStr.rstrip s) = PyStr.contains needle s.
Proof.
  intros Hn. induction s as [|c s IH]; [done|].
  cbn [PyStr.contains]. rewrite <- (startswith_rstrip needle (String c s) Hn).
  cbn [PyStr.rstrip]. destruct (PyStr.rstrip s) eqn:Hr.
  - rewrite (rstrip_empty_contains _ _ Hn Hr).
    destruct (PyStr.isspace c); cbn [PyStr.contains]; [|by destruct needle].
    by destruct needle.
  - cbn [PyStr.contains]. by rewrite <- IH.
Qed.

Lemma contains_strip needle s :
  PyStr.begins_nonspace needle = true → PyStr.ends_nonspace needle = true →
  PyStr.contains needle (PyStr.strip s) = PyStr.contains needle s.
Proof.
  intros Hb He. unfold PyStr.strip. by rewrite contains_rstrip, contains_lstrip.
Qed.

(** ** The failure classifier *)

Lemma classify_error_kind err rc :
  failure_kind (BirdClient.classify_error (PyStr.strip err) rc) = classify_stderr err.
Proof.
  unfold BirdClient.classify_error, classify_stderr.
  rewrite lower_strip, !contains_strip by done.
  rewrite !contains_ci_lower.
  change (PyStr.lower "auth") with "auth". change (PyStr.lower "rate") with "rate".
  repeat match goal with |- context [if ?b then _ else _] => destruct b; try done end.
Qed.

Lemma classify_error_shape err rc :
  BirdClient.classify_error (PyStr.strip err) rc =
  match classify_stderr err with
  | AuthExpired =>
      Bird BirdAuthError "Authentication failed. Re-extract cookies from your browser."
           (PyStr.strip err) rc
  | RateLimited =>
      Bird BirdRateLimitError "Rate limit exceeded. Wait before retrying." (PyStr.strip err) rc
  | NotFoundOrStale =>
      Bird BirdError "Tweet not found or query IDs outdated. Try: bird query-ids --fresh"
           (PyStr.strip err) rc
  | _ => Bird BirdError ("Bird CLI failed: " +:+ PyStr.strip err) (PyStr.strip err) rc
  end.
Proof.
  unfold BirdClient.classify_error, classify_stderr.
  rewrite lower_strip, !contains_strip by done.
  rewrite !contains_ci_lower.
  change (PyStr.lower "auth") with "auth". change (PyStr.lower "rate") with "rate".
  repeat match goal with |- context [if ?b then _ else _] => destruct b; try done end.
Qed.

Lemma run_bird_nonzero lib self w args rc out err :
  subprocess_run w (["bird"] ++ args ++ ["--json"]) = RunCompleted rc out err →
  rc ≠ 0 →
  BirdClient._run_bird lib self w args =
  (Raise (BirdClient.classify_error (PyStr.strip err) rc),
   [Log debug "executing_bird";
    Run (["bird"] ++ args ++ ["--json"]) (BirdClient._build_env self w) (BirdClient.timeout self);
    Log error "bird_failed"]).
Proof.
  intros Hrun Hrc. unfold BirdClient._run_bird. rewrite Hrun.
  destruct (Z.eqb_spec rc 0) as [|_]; [done|]. reflexivity.
Qed.

(** C2.  A run of the tool that exits nonzero raises the exception of the
    first rule that matches its stderr: "401", "Unauthorized" or "auth" in
    any case give [BirdAuthError] (AuthExpired); otherwise "429" or "rate" in
    any case give [BirdRateLimitError] (RateLimited); otherwise "404" gives
    the [BirdError] for a missing tweet (NotFoundOrStale); otherwise the
    generic [BirdError] (Unclassified).  A stderr with "401" is AuthExpired
    also when it contains "404". *)
Theorem run_bird_classifies lib self w args rc out err :
  subprocess_run w (["bird"] ++ args ++ ["--json"]) = RunCompleted rc out err →
  rc ≠ 0 →
  ∃ e, (BirdClient._run_bird lib self w args).1 = Raise e
       ∧ failure_kind e = classify_stderr err
       ∧ e = match classify_stderr err with
             | AuthExpired =>
                 Bird BirdAuthError
                      "Authentication failed. Re-extract cookies from your browser."
                      (PyStr.strip err) rc
             | RateLimited =>
                 Bird BirdRateLimitError "Rate limit exceeded. Wait before retrying."
                      (PyStr.strip err) rc
             | NotFoundOrStale =>
                 Bird BirdError
                      "Tweet not found or query IDs outdated. Try: bird query-ids --fresh"
                      (PyStr.strip err) rc
             | _ => Bird BirdError ("Bird CLI failed: " +:+ PyStr.strip err) (PyStr.strip err) rc
             end
       ∧ (PyStr.contains "401" err = true → failure_kind e = AuthExpired).
Proof.
  intros Hrun Hrc. eexists. rewrite (run_bird_nonzero _ _ _ _ _ _ _ Hrun Hrc).
  split; [reflexivity|]. split; [apply classify_error_kind|].
  split; [apply classify_error_shape|].
  intros H401. rewrite classify_error_kind. unfold classify_stderr. by rewrite H401.
Qed.

Lemma run_bird_classifies_witness :
  let w := sample_world (RunCompleted 1 "" "HTTP 404, then 401 Unauthorized
") RunTimeout noon in
  ∃ e, (BirdClient._run_bird sample_lib sample_client w ["read"; sample_url]).1 = Raise e
       ∧ failure_kind e = AuthExpired.
Proof.
  intros w.
  destruct (run_bird_classifies sample_lib sample_client w ["read"; sample_url] 1 ""
              "HTTP 404, then 401 Unauthorized
") as (e & He & _ & _ & Hk); [reflexivity | lia |].
  exists e. split; [exact He | apply Hk; reflexivity].
Defined.

(** ** One attempt of [scrape_tweets] *)

Lemma truthy_nonempty u : u ≠ "" → Py.truthy (JStr u) = true.
Proof. intros H. simpl. by destruct (String.eqb_spec u ""). Qed.

(** What [scrape_tweets] does when reading the tweet raises [e]. *)
Lemma scrape_tweets_read_raises lib w data u e t :
  data !! "url" = Some (JStr u) → u ≠ "" → which_bird w = true →
  BirdClient._run_bird lib (scrape_client w) w ["read"; normalize_x_url u] = (Raise e, t) →
  scrape_tweets lib w data =
  let pre := [NewBirdClient; Log info "scraping_tweet"; Log info "reading_tweet"] ++ t in
  match e with
  | Bird BirdRateLimitError _ _ _ => (Raise e, pre ++ [Log warning "rate_limited"])
  | Bird _ _ _ _ =>
      if asks_refresh e then
        let '(r, t') := BirdClient.refresh_query_ids (scrape_client w) w in
        (match r with Ok _ => Raise e | Raise e' => Raise e' end,
         pre ++ [Log info "refreshing_query_ids_for_retry"] ++ t')
      else (Ok (failed (normalize_x_url u) (exn_str e)), pre ++ [Log error "scrape_failed"])
  | Builtin _ _ =>
      (Ok (failed (normalize_x_url u) ("Unexpected error: " +:+ exn_str e)),
       pre ++ [Log exception "unexpected_error"])
  end.
Proof.
  intros Hurl Hu Hwhich Hrun.
  unfold scrape_tweets, Py.dict_get. rewrite Hurl, (truthy_nonempty u Hu).
  cbn [negb]. unfold BirdClient.__init__, BirdClient._verify_bird_installed.
  rewrite Hwhich. fold (scrape_client w).
  unfold BirdClient.read_tweet. cbn [bind ret emit raise lift try_except app].
  rewrite Hrun. cbn [bind ret emit raise lift try_except app].
  assert (Hrefresh : ∀ e0 : exn,
    (let '(r, t') := (BirdClient.refresh_query_ids (scrape_client w) w ;;;
                      (raise e0 : M ScraperResult.t))%M in
     (r, Log info "refreshing_query_ids_for_retry" :: t'))
    = (let '(r, t') := BirdClient.refresh_query_ids (scrape_client w) w in
       (match r with Ok _ => Raise e0 | Raise e' => Raise e' end,
        Log info "refreshing_query_ids_for_retry" :: t'))).
  { intros e0. unfold bind, raise.
    destruct (BirdClient.refresh_query_ids (scrape_client w) w) as [[[]|e'] t'];
      by rewrite ?app_nil_r. }
  destruct e as [[] m s rc | c m]; unfold asks_refresh; cbn [exn_str]; try done;
    (destruct (_ || _); [|done]); rewrite Hrefresh;
    by destruct (BirdClient.refresh_query_ids (scrape_client w) w) as [[[]|e'] t'].
Qed.

Lemma run_bird_cases lib self w args :
  BirdClient._run_bird lib self w args =
  let cmd := ["bird"] ++ args ++ ["--json"] in
  let pre := [Log debug "executing_bird";
              Run cmd (BirdClient._build_env self w) (BirdClient.timeout self)] in
  match subprocess_run w cmd with
  | RunTimeout =>
      (Raise (Bird BirdError ("Bird command timed out after "
                                +:+ str_of_int (BirdClient.timeout self) +:+ "s") "" 1), pre)
  | RunFileNotFound => (Raise BirdNotFoundError_new, pre)
  | RunCompleted rc out err =>
      if rc =? 0 then
        match lib_json_loads lib out with
        | inl v => (Ok v, pre)
        | inr e =>
            if is_JSONDecodeError e then
              (Raise (Bird BirdError
                           ("Failed to parse Bird output as JSON: " +:+ exn_str e) "" 1),
               pre ++ [Log error "bird_json_parse_error"])
            else (Raise e, pre)
        end
      else (Raise (BirdClient.classify_error (PyStr.strip err) rc),
            pre ++ [Log error "bird_failed"])
  | RunRaised cls message => (Raise (Builtin cls message), pre)
  end.
Proof.
  unfold BirdClient._run_bird. cbn zeta.
  destruct (subprocess_run w _) as [| |rc out err|cls message]; try reflexivity.
  destruct (rc =? 0); [|reflexivity].
  destruct (lib_json_loads lib out) as [v|e]; [reflexivity|].
  destruct (is_JSONDecodeError e); reflexivity.
Qed.

Lemma job_step_returned max wait lib w data n r t :
  scrape_tweets lib w data = (Ok r, t) →
  job_step max wait lib w data n =
  (if ScraperResult.success r then Succeeded r (S n) else Failed r (S n), t).
Proof. intros H. unfold job_step. by rewrite H. Qed.

Lemma job_step_raised max wait lib w data n e t :
  scrape_tweets lib w data = (Raise e, t) → (S n < max)%nat →
  job_step max wait lib w data n = (Invoking (S n), t ++ [Sleep wait]).
Proof.
  intros H Hn. unfold job_step. rewrite H.
  by destruct (Nat.ltb_spec (S n) max); [|lia].
Qed.

Lemma run_from_terminal max wait lib ws data fuel n st t :
  job_step max wait lib (ws n) data n = (st, t) → terminal st = true →
  run_from max wait lib fuel ws data n = (st, t).
Proof.
  intros H Ht. destruct fuel; simpl; rewrite H; by destruct st.
Qed.

(** The read of [scrape_tweets] in a world whose run has failure kind [k]. *)
Lemma read_raises_kind lib w url k :
  run_kind lib (subprocess_run w (read_cmd url)) = Some k →
  ∃ e t, BirdClient._run_bird lib (scrape_client w) w ["read"; url] = (Raise e, t)
         ∧ failure_kind e = k
         ∧ match subprocess_run w (read_cmd url) with
           | RunTimeout => e = Bird BirdError "Bird command timed out after 60s" "" 1
           | RunFileNotFound => e = BirdNotFoundError_new
           | RunCompleted rc out err =>
               if rc =? 0 then
                 ∃ e', lib_json_loads lib out = inr e'
                       ∧ e = Bird BirdError
                               ("Failed to parse Bird output as JSON: " +:+ exn_str e') "" 1
               else e = BirdClient.classify_error (PyStr.strip err) rc
           | RunRaised _ _ => False
           end.
Proof.
  intros Hk. rewrite run_bird_cases. cbn zeta.
  change (["bird"] ++ ["read"; url] ++ ["--json"]) with (read_cmd url).
  destruct (subprocess_run w (read_cmd url)) as [| |rc out err|cls message]; simpl in Hk.
  - injection Hk as <-. by eexists _, _.
  - injection Hk as <-. by eexists _, _.
  - destruct (rc =? 0); simpl in Hk.
    + destruct (lib_json_loads lib out) as [v|e']; [done|].
      destruct (is_JSONDecodeError e'); [|done].
      injection Hk as <-. eexists _, _. split; [done|]. split; [done|]. by exists e'.
    + injection Hk as <-. eexists _, _. split; [done|]. split; [|done].
      apply classify_error_kind.
  - done.
Qed.

(** C10.  When the ['url'] of the job input is absent or the empty string,
    [scrape_tweets] returns the failure [success = False], [url = ""],
    [error = "No URL provided"], and its trace is empty: no client was
    constructed and no subprocess was run. *)
Theorem scrape_tweets_no_url lib w data :
  data !! "url" = None ∨ data !! "url" = Some (JStr "") →
  ∃ r t, scrape_tweets lib w data = (Ok r, t)
         ∧ ScraperResult.success r = false
         ∧ ScraperResult.url r = ""
         ∧ ScraperResult.data r = None
         ∧ ScraperResult.error r = Some "No URL provided"
         ∧ t = []
         ∧ (NewBirdClient ∉ t)
         ∧ ∀ cmd env timeout, Run cmd env timeout ∉ t.
Proof.
  intros H. exists (failed "" "No URL provided"), [].
  split.
  - unfold scrape_tweets, Py.dict_get. by destruct H as [-> | ->].
  - repeat split; try done; try apply not_elem_of_nil. intros; apply not_elem_of_nil.
Qed.

Lemma scrape_tweets_no_url_witness :
  ((∅ : gmap string json) !! "url") = None
  ∧ scrape_tweets sample_lib (sample_world RunTimeout RunTimeout noon) ∅
    = (Ok (failed "" "No URL provided"), []).
Proof.
  split; [reflexivity|].
  destruct (scrape_tweets_no_url sample_lib (sample_world RunTimeout RunTimeout noon) ∅)
    as (r & t & Heq & _); [by left|].
  reflexivity.
Defined.

(** C4.  A job whose first attempt is classified AuthExpired ends at once:
    the attempt returns the failure carrying the authentication message, the
    job is [Failed] with one attempt consumed whatever [max_attempts] is, the
    tool was run once and nothing waited for a retry. *)
Theorem auth_expired_fails_at_once max wait lib ws data u :
  data !! "url" = Some (JStr u) → u ≠ "" → which_bird (ws 0%nat) = true →
  run_kind lib (subprocess_run (ws 0%nat) (read_cmd (normalize_x_url u))) = Some AuthExpired →
  ∃ t, run_job max wait lib ws data =
       (Failed (failed (normalize_x_url u)
                       "Authentication failed. Re-extract cookies from your browser.") 1, t)
       ∧ (Sleep wait ∉ t)
       ∧ count_runs t = 1%nat.
Proof.
  intros Hurl Hu Hwhich Hk.
  destruct (read_raises_kind _ _ _ _ Hk) as (e & t & Hrun & Hkind & Hshape).
  assert (He : e = Bird BirdAuthError
                 "Authentication failed. Re-extract cookies from your browser."
                 match subprocess_run (ws 0%nat) (read_cmd (normalize_x_url u)) with
                 | RunCompleted _ _ err => PyStr.strip err | _ => "" end
                 match subprocess_run (ws 0%nat) (read_cmd (normalize_x_url u)) with
                 | RunCompleted rc _ _ => rc | _ => 1 end).
  { destruct (subprocess_run _ _) as [| |rc out err|cls message]; simpl in Hk; try done.
    destruct (rc =? 0); simpl in Hk.
    - destruct (lib_json_loads lib out) as [v|e']; [done|]. by destruct (is_JSONDecodeError e').
    - injection Hk as Hk. by rewrite Hshape, classify_error_shape, Hk. }
  pose proof (scrape_tweets_read_raises _ _ _ _ _ _ Hurl Hu Hwhich Hrun) as Hs.
  rewrite He in Hs. cbn in Hs.
  eexists. split.
  - unfold run_job. eapply run_from_terminal; [|done].
    by rewrite (job_step_returned _ _ _ _ _ _ _ _ Hs).
  - rewrite run_bird_cases in Hrun. cbn zeta in Hrun.
    change (["bird"] ++ ["read"; normalize_x_url u] ++ ["--json"])
      with (read_cmd (normalize_x_url u)) in Hrun.
    destruct (subprocess_run _ _) as [| |rc out err|cls message]; simpl in Hk; try done.
    destruct (rc =? 0); simpl in Hk.
    + destruct (lib_json_loads lib out) as [v|e']; [done|]. by destruct (is_JSONDecodeError e').
    + injection Hrun as _ <-. cbn. split; [|reflexivity].
      intros H. repeat (apply elem_of_cons in H as [H|H]; [discriminate|]).
      by apply elem_of_nil in H.
Qed.

Lemma auth_expired_fails_at_once_witness :
  let w := sample_world (RunCompleted 1 "" "401 Unauthorized") RunTimeout noon in
  (run_job 5 10 sample_lib (λ _, w) sample_data).1
  = Failed (failed "https://x.com/bozhou_ai/status/2011738838767423983"
                   "Authentication failed. Re-extract cookies from your browser.") 1.
Proof.
  intros w.
  destruct (auth_expired_fails_at_once 5 10 sample_lib (λ _, w) sample_data sample_url)
    as (t & H & _); [reflexivity | discriminate | reflexivity | reflexivity |].
  rewrite H. reflexivity.
Defined.

(** ** The retry policy *)



Lemma classify_error_bird stderr rc :
  ∃ c m, BirdClient.classify_error stderr rc = Bird c m stderr rc.
Proof.
  unfold BirdClient.classify_error.
  repeat match goal with |- context [if ?b then _ else _] => destruct b end; by eexists _, _.
Qed.

(** An exception of [_run_bird] is one of its own, of the [BirdError]
    family, or one that [subprocess.run] or the decoder raised and that it
    does not handle. *)
Lemma run_bird_raises lib self w args e t :
  BirdClient._run_bird lib self w args = (Raise e, t) →
  (∃ c m s rc, e = Bird c m s rc)
  ∨ (∃ cls message, subprocess_run w (["bird"] ++ args ++ ["--json"]) = RunRaised cls message
                    ∧ e = Builtin cls message)
  ∨ (∃ out err, subprocess_run w (["bird"] ++ args ++ ["--json"]) = RunCompleted 0 out err
                ∧ lib_json_loads lib out = inr e
                ∧ is_JSONDecodeError e = false).
Proof.
  rewrite run_bird_cases. cbn zeta.
  destruct (subprocess_run w _) as [| |rc out err|cls message].
  - intros [= <- _]. left. by eexists _, _, _, _.
  - intros [= <- _]. left. by eexists _, _, _, _.
  - destruct (Z.eqb_spec rc 0) as [->|Hrc].
    + destruct (lib_json_loads lib out) as [v|e'] eqn:Hl; [done|].
      destruct (is_JSONDecodeError e') eqn:He'.
      * intros [= <- _]. left. by eexists _, _, _, _.
      * intros [= <- _]. right. right. by eexists _, _.
    + intros [= <- _]. destruct (classify_error_bird (PyStr.strip err) rc) as (c & m & ->).
      left. by eexists _, _, _, _.
  - intros [= <- _]. right. left. by eexists _, _.
Qed.


Lemma refresh_cases self w :
  BirdClient.refresh_query_ids self w =
  let pre := [Log info "refreshing_query_ids";
              Run refresh_cmd (BirdClient._build_env self w) 120] in
  match subprocess_run w refresh_cmd with
  | RunTimeout => (Ok tt, pre ++ [Log warning "query_ids_refresh_timeout"])
  | RunFileNotFound => (Raise BirdNotFoundError_new, pre)
  | RunCompleted _ _ _ => (Ok tt, pre)
  | RunRaised cls message => (Raise (Builtin cls message), pre)
  end.
Proof.
  unfold BirdClient.refresh_query_ids. cbn zeta. fold refresh_cmd.
  by destruct (subprocess_run w refresh_cmd).
Qed.




(** ** The refresh side action *)

(** C5, as the specification states it, fails: when the executable cannot be
    found the refresh call raises [BirdNotFoundError], and the attempt that
    called it raises this error in place of its own. *)
Lemma refresh_escalates_tool_missing :
  let w := sample_world (RunCompleted 1 "" "HTTP 404 Not Found") RunFileNotFound noon in
  run_kind sample_lib (subprocess_run w (read_cmd (normalize_x_url sample_url)))
  = Some NotFoundOrStale
  ∧ BirdClient.refresh_query_ids sample_client w
    = (Raise BirdNotFoundError_new,
       [Log info "refreshing_query_ids"; Run ["bird"; "query-ids"; "--fresh"] ∅ 120])
  ∧ (scrape_tweets sample_lib w sample_data).1 = Raise BirdNotFoundError_new
  ∧ ¬ refresh_never_escalates.
Proof.
  intros w. split; [reflexivity|]. split; [reflexivity|]. split; [reflexivity|].
  intros H. destruct (H sample_client w) as [t Ht].
  vm_compute in Ht. discriminate Ht.
Qed.

(** C5, amended.  An attempt classified NotFoundOrStale runs the refresh
    action after the read and before the wait for the retry.  A timeout of
    the refresh is swallowed and logged, a nonzero exit of it is ignored;
    when the executable cannot be found the refresh call raises
    [BirdNotFoundError], and an exception of the subprocess call that the
    refresh does not handle leaves it unchanged.  In each case the attempt
    ends by raising and the job, with attempts remaining, is re-invoked: the
    refresh never makes the job [Failed]. *)
Theorem not_found_refreshes_then_retries max wait lib w data u n :
  data !! "url" = Some (JStr u) → u ≠ "" → which_bird w = true →
  run_kind lib (subprocess_run w (read_cmd (normalize_x_url u))) = Some NotFoundOrStale →
  (S n < max)%nat →
  let client := scrape_client w in
  let refresh := Run refresh_cmd (BirdClient._build_env client w) 120 in
  ∃ t1 t2,
    job_step max wait lib w data n = (Invoking (S n), t1 ++ refresh :: t2 ++ [Sleep wait])
    ∧ count_runs t1 = 1%nat
    ∧ match subprocess_run w refresh_cmd with
      | RunTimeout =>
          (BirdClient.refresh_query_ids client w).1 = Ok tt
          ∧ t2 = [Log warning "query_ids_refresh_timeout"]
      | RunCompleted _ _ _ =>
          (BirdClient.refresh_query_ids client w).1 = Ok tt ∧ t2 = []
      | RunFileNotFound =>
          (BirdClient.refresh_query_ids client w).1 = Raise BirdNotFoundError_new ∧ t2 = []
      | RunRaised cls message =>
          (BirdClient.refresh_query_ids client w).1 = Raise (Builtin cls message) ∧ t2 = []
      end.
Proof.
  intros Hurl Hu Hwhich Hk Hn client refresh.
  destruct (read_raises_kind _ _ _ _ Hk) as (e & t & Hrun & Hkind & Hshape).
  pose proof (scrape_tweets_read_raises _ _ _ _ _ _ Hurl Hu Hwhich Hrun) as Hs.
  assert (He : ∃ s rc, e = Bird BirdError
                 "Tweet not found or query IDs outdated. Try: bird query-ids --fresh" s rc
               ∧ t = [Log debug "executing_bird";
                      Run (read_cmd (normalize_x_url u)) (BirdClient._build_env client w) 60;
                      Log error "bird_failed"]).
  { rewrite run_bird_cases in Hrun. cbn zeta in Hrun.
    change (["bird"] ++ ["read"; normalize_x_url u] ++ ["--json"])
      with (read_cmd (normalize_x_url u)) in Hrun.
    destruct (subprocess_run w (read_cmd _)) as [| |rc out err|cls message];
      simpl in Hk; try done.
    destruct (rc =? 0); simpl in Hk.
    - destruct (lib_json_loads lib out) as [v|e']; [done|]. by destruct (is_JSONDecodeError e').
    - injection Hk as Hk. injection Hrun as <- <-.
      rewrite classify_error_shape, Hk. by eexists _, _. }
  destruct He as (s & rc & -> & ->). cbn zeta in Hs.
  change (asks_refresh _) with true in Hs. cbn iota in Hs.
  fold client in Hs. rewrite refresh_cases in Hs. rewrite refresh_cases.
  cbn zeta in *. fold refresh in Hs |- *.
  exists [NewBirdClient; Log info "scraping_tweet"; Log info "reading_tweet";
          Log debug "executing_bird";
          Run (read_cmd (normalize_x_url u)) (BirdClient._build_env client w) 60;
          Log error "bird_failed"; Log info "refreshing_query_ids_for_retry";
          Log info "refreshing_query_ids"].
  destruct (subprocess_run w refresh_cmd) as [| |rc' out' err'|cls' message'].
  - exists [Log warning "query_ids_refresh_timeout"].
    by rewrite (job_step_raised _ _ _ _ _ _ _ _ Hs Hn).
  - exists []. by rewrite (job_step_raised _ _ _ _ _ _ _ _ Hs Hn).
  - exists []. by rewrite (job_step_raised _ _ _ _ _ _ _ _ Hs Hn).
  - exists []. by rewrite (job_step_raised _ _ _ _ _ _ _ _ Hs Hn).
Qed.

Lemma not_found_refreshes_then_retries_witness :
  let w := sample_world (RunCompleted 1 "" "HTTP 404 Not Found") RunTimeout noon in
  ∃ tr, job_step 5 10 sample_lib w sample_data 0 = (Invoking 1, tr)
        ∧ Run refresh_cmd ∅ 120 ∈ tr.
Proof.
  intros w.
  destruct (not_found_refreshes_then_retries 5 10 sample_lib w sample_data sample_url 0)
    as (t1 & t2 & H & _); [reflexivity | discriminate | reflexivity | reflexivity | lia |].
  eexists. split; [exact H|].
  apply elem_of_app. right. apply elem_of_cons. left. reflexivity.
Defined.

(** ** Date parsing *)

Lemma make_valid y mo d h mi s us tz r :
  PyTime.make y mo d h mi s us tz = Some r → PyTime.valid r = true.
Proof.
  unfold PyTime.make. destruct (PyTime.valid _) eqn:Hv; [|done]. by intros [= <-].
Qed.

Lemma strptime_twitter_valid s d :
  PyTime.strptime_twitter s = Some d → PyTime.valid d = true.
Proof.
  unfold PyTime.strptime_twitter. intros H.
  repeat (simplify_option_eq || case_match); eauto using make_valid.
Qed.

Lemma fromisoformat_valid s d :
  PyTime.fromisoformat s = Some d → PyTime.valid d = true.
Proof.
  unfold PyTime.fromisoformat. intros H.
  repeat (simplify_option_eq || case_match); eauto using make_valid.
Qed.

Lemma replace_trailing_Z s :
  PyStr.contains "Z" s = false →
  PyStr.replace "Z" "+00:00" (s +:+ "Z") = s +:+ "+00:00".
Proof.
  unfold PyStr.replace. induction s as [|c s IH]; intros Hs; [reflexivity|].
  change (String c s +:+ "Z") with (String c (s +:+ "Z")).
  change (String c s +:+ "+00:00") with (String c (s +:+ "+00:00")).
  rewrite contains_cons in Hs. apply orb_false_elim in Hs as [Hc Hs].
  cbn [PyStr.replace_from].
  assert (Hhead : PyStr.startswith "Z" (String c (s +:+ "Z")) = false).
  { simpl in Hc |- *. by destruct (Ascii.eqb "Z" c). }
  rewrite Hhead. by rewrite IH.
Qed.

Lemma of_option_raises msg o e : of_option msg o = Raise e → is_ValueError e = true.
Proof. destruct o; [done|]. by intros [= <-]. Qed.

Lemma of_option_ok msg o d : of_option msg o = Ok d → o = Some d.
Proof. destruct o; [|done]. by intros [= <-]. Qed.

(** C6.  [parse_twitter_date] tries the native format of the tool, then the
    ISO format with ["Z"] replaced by ["+00:00"] (so that a trailing [Z]
    reads as the offset [+00:00]), then takes the current time.  As the two
    parsers raise nothing but [ValueError] on a string and build valid
    timestamps, it never raises and its result is a valid timestamp.  With
    the reference parsers, "Wed Jan 08 20:25:00 +0000 2026" is 2026-01-08,
    "2026-01-15T10:30:00Z" is rejected by the first parser and read by the
    second as January 2026, and "not a date" gives the current time. *)
Theorem parse_twitter_date_fallback lib w date_str :
  (∀ s e, lib_strptime lib s = Raise e → is_ValueError e = true) →
  (∀ s e, lib_fromisoformat lib s = Raise e → is_ValueError e = true) →
  (∀ s d, lib_strptime lib s = Ok d → PyTime.valid d = true) →
  (∀ s d, lib_fromisoformat lib s = Ok d → PyTime.valid d = true) →
  PyTime.valid (now w) = true →
  (∃ d, parse_twitter_date lib w date_str = Ok d
        ∧ PyTime.valid d = true
        ∧ match lib_strptime lib date_str with
          | Ok d1 => d = d1
          | Raise _ =>
              match lib_fromisoformat lib (PyStr.replace "Z" "+00:00" date_str) with
              | Ok d2 => d = d2
              | Raise _ => d = now w
              end
          end)
  ∧ (∀ s, PyStr.contains "Z" s = false →
          PyStr.replace "Z" "+00:00" (s +:+ "Z") = s +:+ "+00:00")
  ∧ (∀ loads w',
       (∃ d, parse_twitter_date (reference_lib loads) w' "Wed Jan 08 20:25:00 +0000 2026" = Ok d
             ∧ year d = 2026 ∧ month d = 1 ∧ day d = 8)
       ∧ (∃ d, parse_twitter_date (reference_lib loads) w' "2026-01-15T10:30:00Z" = Ok d
               ∧ year d = 2026 ∧ month d = 1
               ∧ PyTime.strptime_twitter "2026-01-15T10:30:00Z" = None)
       ∧ parse_twitter_date (reference_lib loads) w' "not a date" = Ok (now w')).
Proof.
  intros Hs_err Hi_err Hs_ok Hi_ok Hnow. split; [|split].
  - unfold parse_twitter_date.
    destruct (lib_strptime lib date_str) as [d1|e1] eqn:H1.
    { exists d1. eauto. }
    rewrite (Hs_err _ _ H1).
    destruct (lib_fromisoformat lib _) as [d2|e2] eqn:H2.
    { exists d2. eauto. }
    rewrite (Hi_err _ _ H2). exists (now w). eauto.
  - apply replace_trailing_Z.
  - intros loads w'. split; [|split].
    + eexists. split; [reflexivity|]. done.
    + eexists. split; [reflexivity|]. done.
    + reflexivity.
Qed.

Lemma parse_twitter_date_fallback_witness :
  ∃ d, parse_twitter_date sample_lib (sample_world RunTimeout RunTimeout noon)
                          "2026-01-15T10:30:00Z" = Ok d
       ∧ PyTime.valid d = true.
Proof.
  destruct (parse_twitter_date_fallback sample_lib (sample_world RunTimeout RunTimeout noon)
              "2026-01-15T10:30:00Z") as [(d & Hd & Hv & _) _].
  - intros s e. apply of_option_raises.
  - intros s e. apply of_option_raises.
  - intros s d H. apply of_option_ok in H. by apply strptime_twitter_valid in H.
  - intros s d H. apply of_option_ok in H. by apply fromisoformat_valid in H.
  - reflexivity.
  - exists d. by split.
Defined.

(** ** The response normaliser *)

(** C7, as the specification states it, fails: a date that neither parser
    reads is replaced by the current time, which differs between two calls. *)
Lemma normalize_twice_differs :
  let w1 := sample_world RunTimeout RunTimeout noon in
  let w2 := sample_world RunTimeout RunTimeout later in
  (∃ t1 t2, parse_bird_response sample_lib w1 sample_reply sample_url = Ok t1
            ∧ parse_bird_response sample_lib w2 sample_reply sample_url = Ok t2
            ∧ TweetData.created_at t1 = CreatedParsed noon
            ∧ TweetData.created_at t2 = CreatedParsed later
            ∧ t1 ≠ t2)
  ∧ ¬ normalize_twice_identical.
Proof.
  intros w1 w2. split.
  - eexists _, _. split; [reflexivity|]. split; [reflexivity|].
    split; [reflexivity|]. split; [reflexivity|]. discriminate.
  - intros H.
    specialize (H sample_lib w1 w2 sample_reply sample_url eq_refl eq_refl eq_refl eq_refl).
    vm_compute in H. discriminate H.
Qed.

Lemma validate_two_dates lib i u tx d1 d2 ah an im vi th tp ci :
  match TweetData.validate lib
          (TweetData.Make i u tx (CreatedParsed d1) ah an im vi th tp ci),
        TweetData.validate lib
          (TweetData.Make i u tx (CreatedParsed d2) ah an im vi th tp ci) with
  | Ok t1, Ok t2 =>
      t1 = set_created_at (TweetData.created_at t1) t2
      ∧ TweetData.created_at t1 = CreatedParsed d1
      ∧ TweetData.created_at t2 = CreatedParsed d2
  | Raise e1, Raise e2 => e1 = e2
  | _, _ => False
  end.
Proof.
  unfold TweetData.validate, TweetData.errors.
  cbn [TweetData.created_at TweetData.validate_created_at TweetData.id TweetData.text
       TweetData.author_handle TweetData.author_name TweetData.videos
       TweetData.conversation_id].
  by destruct (_ ++ _).
Qed.

Lemma validate_raw_date lib i u tx v ah an im vi th tp ci t :
  TweetData.validate lib (TweetData.Make i u tx (CreatedRaw (JStr v)) ah an im vi th tp ci)
  = Ok t →
  TweetData.created_at t = CreatedRaw (JStr v).
Proof.
  unfold TweetData.validate, TweetData.errors.
  cbn [TweetData.created_at TweetData.validate_created_at].
  destruct (_ ++ _); [|done]. by intros [= <-].
Qed.

Lemma or_else_value a b : Py.or_else a (Ok b) = Ok (if Py.truthy a then a else b).
Proof. unfold Py.or_else. by destruct (Py.truthy a). Qed.

(** The two media passes, which do not depend on the world. *)
Ltac media_passes :=
  (destruct (extract_image_urls _) as [?|?]; cbn [rbind]; [|done]);
  (destruct (extract_video_urls _) as [?|?]; cbn [rbind]; [|done]).

Ltac two_dates d1 d2 :=
  match goal with
  | |- context [TweetData.validate ?lib
                  (TweetData.Make ?i ?u ?tx (CreatedParsed d1) ?ah ?an ?im ?vi ?th ?tp ?ci)] =>
      pose proof (validate_two_dates lib i u tx d1 d2 ah an im vi th tp ci) as Hv
  end.

(** C7, amended.  Normalising the same raw JSON twice gives two records
    equal in every field but [created_at], or the same exception twice.  The
    two [created_at] are equal as well - the empty string for an empty date,
    the timestamp the first parser reads, or else the one the second parser
    reads - unless the date is non-empty and read by neither parser: then each
    is the time of its own call.  When the clock reads the same at both calls
    the two results are equal. *)
Theorem normalize_twice lib w1 w2 raw_data url :
  match parse_bird_response lib w1 raw_data url, parse_bird_response lib w2 raw_data url with
  | Ok t1, Ok t2 =>
      t1 = set_created_at (TweetData.created_at t1) t2
      ∧ ∃ d, raw_data = JObj d
             ∧ match raw_date d with
               | JStr s =>
                   if String.eqb s "" then
                     TweetData.created_at t1 = CreatedRaw (JStr "")
                     ∧ TweetData.created_at t2 = CreatedRaw (JStr "")
                   else
                     match lib_strptime lib s with
                     | Ok native =>
                         TweetData.created_at t1 = CreatedParsed native
                         ∧ TweetData.created_at t2 = CreatedParsed native
                     | Raise _ =>
                         match lib_fromisoformat lib (PyStr.replace "Z" "+00:00" s) with
                         | Ok iso =>
                             TweetData.created_at t1 = CreatedParsed iso
                             ∧ TweetData.created_at t2 = CreatedParsed iso
                         | Raise _ =>
                             TweetData.created_at t1 = CreatedParsed (now w1)
                             ∧ TweetData.created_at t2 = CreatedParsed (now w2)
                         end
                     end
               | _ => TweetData.created_at t1 = TweetData.created_at t2
               end
  | Raise e1, Raise e2 => e1 = e2
  | _, _ => False
  end
  ∧ (now w1 = now w2 →
     parse_bird_response lib w1 raw_data url = parse_bird_response lib w2 raw_data url).
Proof.
  split.
  2:{ intros Hnow. unfold parse_bird_response, parse_twitter_date. by rewrite Hnow. }
  destruct raw_data as [| | | | |d]; try done.
  unfold parse_bird_response.
  cbn [Py.get rbind]. rewrite !or_else_value. fold (raw_date d).
  repeat match goal with
  | |- context [rbind (Py.get ?a ?b ?c) _] =>
      destruct (Py.get a b c) as [?|?]; cbn [rbind]; [|done]
  | |- context [rbind (Py.or_else ?a ?b) _] =>
      destruct (Py.or_else a b) as [?|?]; cbn [rbind]; [|done]
  end.
  destruct (raw_date d) as [| | |s| |] eqn:Hraw; cbn [Py.truthy].
  4:{ destruct (String.eqb_spec s "") as [->|Hs]; cbn [negb rbind].
      - media_passes.
        destruct (TweetData.validate _ _) as [t|e] eqn:Hv; [|done].
        split; [by destruct t|]. exists d. split; [done|]. rewrite Hraw. cbn.
        by rewrite (validate_raw_date _ _ _ _ _ _ _ _ _ _ _ _ _ Hv).
      - unfold parse_twitter_date.
        destruct (lib_strptime lib s) as [native|e] eqn:Hnative; cbn [rbind].
        { media_passes. two_dates native native.
          destruct (TweetData.validate _ _) as [t|e]; [|done].
          destruct Hv as (_ & Hc & _). split; [by destruct t|].
          exists d. split; [done|]. rewrite Hraw, Hnative.
          by destruct (String.eqb_spec s ""). }
        destruct (is_ValueError e); cbn [rbind]; [|done].
        destruct (lib_fromisoformat lib _) as [iso|e'] eqn:Hiso; cbn [rbind].
        { media_passes. two_dates iso iso.
          destruct (TweetData.validate _ _) as [t|e0]; [|done].
          destruct Hv as (_ & Hc & _). split; [by destruct t|].
          exists d. split; [done|]. rewrite Hraw, Hnative, Hiso.
          by destruct (String.eqb_spec s ""). }
        destruct (is_ValueError e'); cbn [rbind]; [|done].
        media_passes. two_dates (now w1) (now w2).
        destruct (TweetData.validate lib (TweetData.Make _ _ _ (CreatedParsed (now w1)) _ _ _ _ _ _ _))
          as [t1|e1],
          (TweetData.validate lib (TweetData.Make _ _ _ (CreatedParsed (now w2)) _ _ _ _ _ _ _))
          as [t2|e2]; try done.
        destruct Hv as (Hset & Hc1 & Hc2). split; [done|].
        exists d. split; [done|]. rewrite Hraw, Hnative, Hiso.
        by destruct (String.eqb_spec s ""). }
  all: try (destruct (negb _)); try (destruct b); try (destruct l);
    try (destruct (bool_decide _)); cbn [negb rbind]; try done;
    media_passes;
    (destruct (TweetData.validate _ _) as [t|e] eqn:Hv; [|done]);
    (split; [by destruct t|]); exists d; (split; [done|]); by rewrite Hraw.
Qed.

Lemma py_eq_null v : Py.eq v JNull = true ↔ v = JNull.
Proof. destruct v; simpl; split; done. Qed.

(** A model that passed the validation has the keyword arguments as its
    fields, [created_at] possibly converted, and none of them failed its
    annotation. *)
Lemma validate_ok lib kw t :
  TweetData.validate lib kw = Ok t →
  TweetData.errors lib kw = []
  ∧ t = set_created_at (TweetData.created_at t) kw
  ∧ TweetData.validate_created_at lib (TweetData.created_at kw)
    = Some (TweetData.created_at t).
Proof.
  unfold TweetData.validate.
  destruct (TweetData.errors lib kw); [|done].
  destruct (TweetData.validate_created_at lib _) as [c|]; [|done].
  by intros [= <-].
Qed.

(** What a record [parse_bird_response] returns holds. *)
Lemma parse_bird_response_fields lib w raw_data url t :
  parse_bird_response lib w raw_data url = Ok t →
  ∃ d, raw_data = JObj d
       ∧ TweetData.url t = url
       ∧ TweetData.id t = Py.dict_get d "id" (JStr "")
       ∧ TweetData.conversation_id t =
           (if Py.truthy (Py.dict_get d "conversationId" JNull)
            then Py.dict_get d "conversationId" JNull
            else safe_get raw_data ["legacy"; "conversation_id_str"] JNull)
       ∧ TweetData.is_thread t =
           negb (Py.eq (TweetData.conversation_id t) JNull)
           && negb (Py.eq (TweetData.conversation_id t) (TweetData.id t))
       ∧ extract_image_urls raw_data = Ok (TweetData.images t)
       ∧ extract_video_urls raw_data = Ok (TweetData.videos t).
Proof.
  intros H. destruct raw_data as [| | | | |d]; try discriminate H.
  exists d. split; [done|].
  unfold parse_bird_response in H. cbn [Py.get rbind] in H.
  repeat match type of H with
  | context [rbind ?r _] =>
      lazymatch r with
      | Ok _ => fail
      | _ => destruct r as [?|?] eqn:?; cbn [rbind] in H; [|discriminate H]
      end
  end.
  unfold Py.or_else in *.
  apply validate_ok in H as (_ & -> & _). cbn.
  repeat match goal with
  | Hc : (if Py.truthy ?v then Ok ?v else Ok _) = Ok _ |- _ =>
      destruct (Py.truthy v) eqn:?; injection Hc as <-
  end.
  all: repeat split; done.
Qed.

(** C8.  In a record the normaliser returns, the thread flag is true exactly
    when the conversation identifier is there (not [None]) and differs from
    the identifier of the record; the conversation identifier is the
    top-level [conversationId] when that is truthy and the nested
    [legacy.conversation_id_str] otherwise, [None] when neither is there.  For
    two strings, the flag says that they differ; without a conversation
    identifier it is false. *)
Theorem thread_flag_invariant lib w raw_data url t :
  parse_bird_response lib w raw_data url = Ok t →
  ∃ d, raw_data = JObj d
       ∧ TweetData.id t = Py.dict_get d "id" (JStr "")
       ∧ TweetData.conversation_id t =
           (if Py.truthy (Py.dict_get d "conversationId" JNull)
            then Py.dict_get d "conversationId" JNull
            else safe_get raw_data ["legacy"; "conversation_id_str"] JNull)
       ∧ (TweetData.is_thread t = true ↔
          TweetData.conversation_id t ≠ JNull
          ∧ Py.eq (TweetData.conversation_id t) (TweetData.id t) = false)
       ∧ (∀ c i, TweetData.conversation_id t = JStr c → TweetData.id t = JStr i →
                 (TweetData.is_thread t = true ↔ c ≠ i))
       ∧ (TweetData.conversation_id t = JNull → TweetData.is_thread t = false).
Proof.
  intros H.
  destruct (parse_bird_response_fields _ _ _ _ _ H) as (d & -> & _ & Hid & Hconv & Hflag & _).
  exists d. split; [done|]. split; [done|]. split; [done|].
  rewrite Hflag. clear. split; [|split].
  - rewrite andb_true_iff, !negb_true_iff. split.
    + intros [Hn He]. split; [|done]. intros Heq. apply py_eq_null in Heq. congruence.
    + intros [Hn He]. split; [|done].
      destruct (Py.eq (TweetData.conversation_id t) JNull) eqn:Heq; [|done].
      by apply py_eq_null in Heq.
  - intros c i -> ->. simpl. by destruct (String.eqb_spec c i).
  - by intros ->.
Qed.

Lemma thread_flag_invariant_witness :
  ∃ t, parse_bird_response sample_lib (sample_world RunTimeout RunTimeout noon)
                           sample_reply sample_url = Ok t
       ∧ TweetData.is_thread t = true
       ∧ TweetData.conversation_id t = JStr "2011700000000000000".
Proof.
  eexists. split; [reflexivity|].
  destruct (thread_flag_invariant sample_lib (sample_world RunTimeout RunTimeout noon)
              sample_reply sample_url _ eq_refl) as (d & _ & _ & _ & _ & Hs & _).
  split; [|reflexivity].
  apply (Hs "2011700000000000000" "2011738838767423983"); [reflexivity | reflexivity | discriminate].
Defined.

(** ** Image extraction *)

Lemma startswith_refl s : PyStr.startswith s s = true.
Proof. induction s as [|c s IH]; [done|]. simpl. by rewrite Ascii.eqb_refl. Qed.

Lemma endswith_contains suf s : PyStr.endswith suf s = true → PyStr.contains suf s = true.
Proof.
  induction s as [|c s IH]; cbn [PyStr.endswith PyStr.contains].
  - rewrite orb_false_r. intros H%String.eqb_eq. by subst.
  - intros [H%String.eqb_eq | H]%orb_true_iff.
    + subst suf. by rewrite (startswith_refl (String c s)).
    + rewrite (IH H). apply orb_true_r.
Qed.

Lemma startswith_split_first p sep u :
  PyStr.startswith p (PyStr.split_first sep u) = true → PyStr.startswith p u = true.
Proof.
  revert u. induction p as [|a p IH]; intros [|b u]; simpl; try done.
  destruct (Ascii.eqb b sep); [done|]. simpl.
  intros [-> H]%andb_true_iff. by rewrite (IH _ H).
Qed.

Lemma contains_split_first x sep u :
  PyStr.contains x (PyStr.split_first sep u) = true → PyStr.contains x u = true.
Proof.
  induction u as [|b u IH]; [done|].
  cbn [PyStr.split_first]. destruct (Ascii.eqb b sep) eqn:Hb.
  - by destruct x.
  - rewrite !contains_cons. intros [H|H]%orb_true_iff.
    + assert (Hs : PyStr.split_first sep (String b u) = String b (PyStr.split_first sep u)).
      { cbn [PyStr.split_first]. by rewrite Hb. }
      rewrite <- Hs in H. apply startswith_split_first in H. by rewrite H.
    + rewrite (IH H). apply orb_true_r.
Qed.

Lemma contains_app_r x s t : PyStr.contains x t = true → PyStr.contains x (s +:+ t) = true.
Proof.
  intros H. induction s as [|c s IH]; [done|].
  change (String c s +:+ t) with (String c (s +:+ t)).
  rewrite contains_cons, IH. apply orb_true_r.
Qed.

Lemma full_size_has_marker u : has_orig_marker (full_size u) = true.
Proof.
  unfold has_orig_marker, full_size. cbn zeta.
  destruct (PyStr.endswith ":orig" _) eqn:He.
  - apply endswith_contains, contains_split_first in He. by rewrite He.
  - rewrite (contains_app_r "name=orig"); [apply orb_true_r | done].
Qed.

Lemma extract_image_urls_loop_spec items acc :
  Forall media_item items →
  extract_image_urls_loop items acc = Ok (acc ++ omap (λ m, full_size <$> photo_url m) items).
Proof.
  intros Hitems. revert acc. induction Hitems as [|media items Hm _ IH]; intros acc.
  - by rewrite app_nil_r.
  - destruct media as [| | | | |d]; try done.
    cbn [extract_image_urls_loop omap list_omap photo_url Py.get rbind].
    destruct (Py.eq (Py.dict_get d "type" JNull) (JStr "photo")); [|apply IH].
    unfold Py.dict_get. simpl in Hm.
    destruct (d !! "url") as [[| | |u| |]|]; try done.
    + cbn [Py.truthy Py.contains rbind].
      destruct (String.eqb_spec u "") as [->|Hu]; cbn [negb rbind].
      * apply IH.
      * destruct (PyStr.contains "twimg.com" u); cbn [fmap option_fmap option_map]; [|apply IH].
        fold (full_size u). rewrite IH. by rewrite <- app_assoc.
    + cbn. apply IH.
Qed.

(** Whatever the items are, a list the loop returns is the list of the
    photos kept, each under its full-size URL: an item that is no object, or
    a photo whose URL is no string and holds ["twimg.com"], makes it raise. *)
Lemma extract_image_urls_loop_returns items acc images :
  extract_image_urls_loop items acc = Ok images →
  images = acc ++ omap (λ m, full_size <$> photo_url m) items.
Proof.
  revert acc. induction items as [|media items IH]; intros acc.
  - intros [= <-]. by rewrite app_nil_r.
  - destruct media as [| | | | |d]; try done.
    cbn [extract_image_urls_loop omap list_omap photo_url Py.get rbind].
    destruct (Py.eq (Py.dict_get d "type" JNull) (JStr "photo")); [|apply IH].
    destruct (Py.dict_get d "url" (JStr "")) as [|b|z|u|l|m]; cbn [Py.truthy].
    + cbn [rbind]. apply IH.
    + destruct b; cbn [Py.contains rbind]; [done | apply IH].
    + destruct (negb _); cbn [Py.contains rbind]; [done | apply IH].
    + destruct (negb _) eqn:Hu; cbn [Py.contains rbind].
      * destruct (PyStr.contains "twimg.com" u); cbn [fmap option_fmap option_map];
          [|apply IH].
        fold (full_size u). intros H%IH. by rewrite H, <- app_assoc.
      * apply negb_false_iff, String.eqb_eq in Hu as ->. apply IH.
    + destruct l; cbn [Py.contains rbind]; [apply IH|].
      destruct (existsb _ _); [done | apply IH].
    + destruct (negb _); cbn [Py.contains rbind]; [|apply IH].
      destruct (bool_decide _); [done | apply IH].
Qed.

Lemma omap_fmap_length {A B C} (f : B → C) (g : A → option B) (l : list A) :
  length (omap (λ x, f <$> g x) l) = length (omap g l).
Proof.
  induction l as [|x l IH]; [done|]. cbn [omap list_omap].
  destruct (g x); simpl; by rewrite ?IH.
Qed.

(** C9, as the specification states it, fails: a URL that has [":orig"]
    before a query string does not end with a mark of the original size, yet
    it is kept as it is, query string included, and the canonical query is
    not appended. *)
Lemma orig_url_keeps_its_query :
  PyStr.endswith ":orig" sample_orig_url = false
  ∧ PyStr.endswith "name=orig" sample_orig_url = false
  ∧ extract_image_urls (JObj sample_orig_fields) = Ok [sample_orig_url]
  ∧ full_size_as_stated sample_orig_url
    = "https://pbs.twimg.com/media/a.jpg:orig?format=jpg&name=orig"
  ∧ ¬ image_urls_as_stated.
Proof.
  split; [reflexivity|]. split; [reflexivity|]. split; [reflexivity|].
  split; [reflexivity|].
  intros H.
  specialize (H sample_orig_fields
                [JObj (list_to_map [("type", JStr "photo"); ("url", JStr sample_orig_url)])]
                eq_refl).
  assert (Hitems : Forall media_item
            [JObj (list_to_map [("type", JStr "photo"); ("url", JStr sample_orig_url)])]).
  { repeat constructor. }
  specialize (H Hitems). vm_compute in H. discriminate H.
Qed.

(** C9, amended.  A list [extract_image_urls] returns for a response with
    a media list holds, in the order of the list, one URL for each item of
    type ["photo"] whose URL contains ["twimg.com"]; when the items are objects
    with a string (or no) ["url"], it returns one.  The URL returned is the
    query-less URL followed by ["?format=jpg&name=orig"], unless the URL, its
    query string left aside, already ends with [":orig"]: then it is returned
    as it is, query string included.  Each URL returned carries a mark of the
    original size, two photos that qualify give two URLs, and an empty or
    absent media list gives the empty list. *)
Theorem image_urls_full_size d items :
  Py.dict_get d "media" (JArr []) = JArr items →
  (∀ images, extract_image_urls (JObj d) = Ok images →
             images = omap (λ m, full_size <$> photo_url m) items)
  ∧ (Forall media_item items → ∃ images, extract_image_urls (JObj d) = Ok images)
  ∧ length (omap (λ m, full_size <$> photo_url m) items) = length (omap photo_url items)
  ∧ Forall (λ u, has_orig_marker u = true) (omap (λ m, full_size <$> photo_url m) items)
  ∧ (items = [] → extract_image_urls (JObj d) = Ok [])
  ∧ (∀ u, full_size u =
          if PyStr.endswith ":orig" (PyStr.split_first "?" u) then u
          else PyStr.split_first "?" u +:+ "?format=jpg&name=orig").
Proof.
  intros Hmedia.
  assert (Hrun : extract_image_urls (JObj d) = extract_image_urls_loop items []).
  { unfold extract_image_urls. cbn [Py.get rbind]. by rewrite Hmedia. }
  split; [|split; [|split; [|split; [|split]]]].
  - intros images. rewrite Hrun. apply extract_image_urls_loop_returns.
  - intros Hitems. rewrite Hrun, (extract_image_urls_loop_spec _ _ Hitems). by eexists.
  - apply omap_fmap_length.
  - clear. induction items as [|m items IH]; [constructor|].
    cbn [omap list_omap]. destruct (photo_url m); [|done].
    constructor; [apply full_size_has_marker | done].
  - intros ->. by rewrite Hrun.
  - done.
Qed.

Lemma image_urls_full_size_witness :
  extract_image_urls sample_bird_response
  = Ok ["https://pbs.twimg.com/media/sample1.jpg?format=jpg&name=orig";
        "https://pbs.twimg.com/media/sample2.jpg?format=jpg&name=orig"].
Proof.
  destruct (image_urls_full_size sample_bird_fields sample_media eq_refl)
    as (Hlist & Hreturns & _).
  destruct Hreturns as [images Hrun].
  - repeat (constructor; [vm_compute; exact I|]). constructor.
  - unfold sample_bird_response. rewrite Hrun, (Hlist images Hrun). reflexivity.
Defined.

(** ** The batch *)

Section Batch.

Variable max_attempts : nat.
Variable retry_wait : Z.
Variable lib : pylib.
Variable wss : nat → nat → world.
Variable inputs : list (gmap string json).

Local Abbreviation finish := (complete max_attempts retry_wait lib wss inputs).
Local Abbreviation result_of := (outcome max_attempts retry_wait lib wss).

Lemma complete_length slots i : length (finish slots i) = length slots.
Proof.
  unfold finish, complete. destruct (inputs !! i); [apply length_insert | done].
Qed.

Lemma foldl_complete_length schedule slots :
  length (foldl finish slots schedule) = length slots.
Proof.
  revert slots. induction schedule as [|i schedule IH]; intros slots; [done|].
  simpl. by rewrite IH, complete_length.
Qed.

(** The slot of job [j] after the jobs of [schedule] completed. *)
Lemma foldl_complete_lookup schedule slots j data :
  length slots = length inputs → inputs !! j = Some data →
  foldl finish slots schedule !! j =
  if bool_decide (j ∈ schedule) then Some (Some (result_of j data)) else slots !! j.
Proof.
  intros Hlen Hj. revert slots Hlen.
  induction schedule as [|i schedule IH]; intros slots Hlen; [done|].
  cbn [foldl]. rewrite IH by (by rewrite complete_length).
  destruct (decide (j = i)) as [->|Hne].
  - rewrite (bool_decide_eq_true_2 (i ∈ i :: schedule)) by (apply elem_of_cons; by left).
    case_bool_decide; [done|].
    unfold finish, complete. rewrite Hj.
    apply list_lookup_insert_eq. rewrite Hlen. by eapply lookup_lt_Some.
  - assert (Hmem : bool_decide (j ∈ i :: schedule) = bool_decide (j ∈ schedule)).
    { apply bool_decide_ext. rewrite elem_of_cons. intuition. }
    rewrite Hmem. clear Hmem. destruct (bool_decide (j ∈ schedule)); [done|].
    unfold finish, complete.
    destruct (inputs !! i); [|done]. by rewrite list_lookup_insert_ne.
Qed.

Lemma run_batch_by_index schedule :
  schedule ≡ₚ seq 0 (length inputs) →
  run_batch max_attempts retry_wait lib wss inputs schedule = Some (imap result_of inputs).
Proof.
  intros Hperm. unfold run_batch.
  assert (Hslots : foldl finish (replicate (length inputs) None) schedule
                   = Some <$> imap result_of inputs).
  { apply list_eq. intros j.
    rewrite list_lookup_fmap, list_lookup_imap.
    destruct (inputs !! j) as [data|] eqn:Hj.
    - rewrite (foldl_complete_lookup _ _ _ data) by (by rewrite ?length_replicate).
      rewrite bool_decide_eq_true_2; [done|].
      rewrite Hperm. apply elem_of_seq. apply lookup_lt_Some in Hj. lia.
    - apply lookup_ge_None. rewrite foldl_complete_length, length_replicate.
      by apply lookup_ge_None. }
  rewrite Hslots. by apply mapM_fmap_Some.
Qed.

End Batch.

Lemma run_from_ends max wait lib ws data fuel n :
  (max ≤ n + fuel)%nat → terminal (run_from max wait lib fuel ws data n).1 = true.
Proof.
  revert n. induction fuel as [|fuel IH]; intros n Hfuel; cbn [run_from].
  - unfold job_step. destruct (scrape_tweets lib (ws n) data) as [[r|e] t].
    + by destruct (ScraperResult.success r).
    + destruct (Nat.ltb_spec (S n) max); [lia | done].
  - unfold job_step. destruct (scrape_tweets lib (ws n) data) as [[r|e] t].
    + by destruct (ScraperResult.success r).
    + destruct (Nat.ltb_spec (S n) max); [|done].
      specialize (IH (S n) ltac:(lia)).
      by destruct (run_from max wait lib fuel ws data (S n)).
Qed.

(** C1.  Whatever the order in which the jobs of a batch complete, the batch
    returns one outcome for each input: the list of outcomes has the length
    of the list of URLs, the outcome at index [i] is the outcome of the job
    run on the URL at index [i], and every job has come to an end. *)
Theorem batch_outcomes_by_input max wait lib wss urls schedule :
  schedule ≡ₚ seq 0 (length urls) →
  ∃ outcomes,
    scrape_urls max wait lib wss urls schedule = Some outcomes
    ∧ length outcomes = length urls
    ∧ (∀ i url, urls !! i = Some url →
                outcomes !! i = Some (outcome max wait lib wss i {[ "url" := JStr url ]}))
    ∧ Forall (λ st, terminal st = true) outcomes.
Proof.
  intros Hperm. unfold scrape_urls, scrape_urls_data.
  eexists. split.
  - apply run_batch_by_index. by rewrite length_fmap.
  - split; [by rewrite length_imap, length_fmap|]. split.
    + intros i url Hi. by rewrite list_lookup_imap, list_lookup_fmap, Hi.
    + apply Forall_forall. intros st [i [data [-> _]]]%elem_of_lookup_imap.
      unfold outcome, run_job. apply run_from_ends. lia.
Qed.

Lemma batch_outcomes_by_input_witness :
  let wss := λ i _ : nat,
    if (i =? 0)%nat then sample_world (RunCompleted 1 "" "401 Unauthorized") RunTimeout noon
    else sample_world RunTimeout RunTimeout noon in
  ∃ r0 r1,
    scrape_urls 5 10 sample_lib wss ["https://x.com/a/status/1"; "https://x.com/b/status/2"]
                [1; 0]%nat
    = Some [Failed r0 1; Failed r1 1]
    ∧ ScraperResult.url r0 = "https://x.com/a/status/1"
    ∧ ScraperResult.url r1 = "https://x.com/b/status/2".
Proof.
  intros wss.
  destruct (batch_outcomes_by_input 5 10 sample_lib wss
              ["https://x.com/a/status/1"; "https://x.com/b/status/2"] [1; 0]%nat)
    as (outcomes & Hrun & _ & Hat & _).
  - apply Permutation_swap.
  - pose proof (Hat 0%nat _ eq_refl) as H0. pose proof (Hat 1%nat _ eq_refl) as H1.
    destruct outcomes as [|o0 [|o1 [|]]]; try discriminate.
    injection H0 as ->. injection H1 as ->.
    eexists _, _. split; [exact Hrun|]. split; reflexivity.
Defined.

(** * Further properties of the code *)

(** ** [normalize_x_url] *)

Lemma replace_from_cons old new c s :
  PyStr.replace_from old new 0 (String c s) =
  if PyStr.startswith old (String c s)
  then new +:+ PyStr.replace_from old new (Nat.pred (String.length old)) s
  else String c (PyStr.replace_from old new 0 s).
Proof. done. Qed.

Lemma contains_char_cons x a p :
  PyStr.contains (String x EmptyString) (String a p) = false →
  a ≠ x ∧ PyStr.contains (String x EmptyString) p = false.
Proof.
  rewrite contains_cons. intros [H1 H2]%orb_false_elim. split; [|done].
  intros ->. simpl in H1. by rewrite Ascii.eqb_refl in H1.
Qed.

(** A text without an [x] at the start of the normalised URL was at the
    start of the URL. *)
Lemma normalize_startswith p s :
  PyStr.contains "x" p = false →
  PyStr.startswith p (PyStr.replace_from "twitter.com" "x.com" 0 s) = true →
  PyStr.startswith p s = true.
Proof.
  revert p. induction s as [|c s IH]; intros p Hp Hs.
  - by destruct p.
  - destruct p as [|a p]; [done|].
    apply contains_char_cons in Hp as [Ha Hp].
    rewrite replace_from_cons in Hs.
    destruct (PyStr.startswith "twitter.com" (String c s)).
    + change ("x.com" +:+ ?r) with (String "x" ("." +:+ "com" +:+ r)) in Hs.
      rewrite startswith_cons in Hs. apply andb_true_iff in Hs as [Hs _].
      by apply Ascii.eqb_eq in Hs.
    + rewrite startswith_cons in Hs |- *. apply andb_true_iff in Hs as [-> Hs].
      by rewrite (IH _ Hp Hs).
Qed.

Lemma normalize_from_no_twitter s k :
  PyStr.contains "twitter.com" (PyStr.replace_from "twitter.com" "x.com" k s) = false.
Proof.
  revert k. induction s as [|c s IH]; intros k; [by destruct k|].
  destruct k as [|k]; [|apply IH].
  rewrite replace_from_cons.
  destruct (PyStr.startswith "twitter.com" (String c s)) eqn:Hocc.
  - change (Nat.pred (String.length "twitter.com")) with 10%nat.
    specialize (IH 10%nat). revert IH.
    generalize (PyStr.replace_from "twitter.com" "x.com" 10 s). intros r Hr.
    change ("x.com" +:+ r) with (String "x" (String "." (String "c" (String "o" (String "m" r))))).
    rewrite !contains_cons, Hr. reflexivity.
  - rewrite contains_cons, IH, orb_false_r.
    destruct (PyStr.startswith "twitter.com" (String c (PyStr.replace_from _ _ _ _)))
      eqn:Hout; [|done].
    rewrite startswith_cons in Hout. apply andb_true_iff in Hout as [Hc Hout].
    apply normalize_startswith in Hout; [|done].
    rewrite startswith_cons, Hc, Hout in Hocc. done.
Qed.

Lemma replace_from_absent old new s :
  PyStr.contains old s = false → PyStr.replace_from old new 0 s = s.
Proof.
  induction s as [|c s IH]; [done|].
  rewrite contains_cons, replace_from_cons. intros [-> Hs]%orb_false_elim.
  by rewrite (IH Hs).
Qed.

(** X1.  The normalised URL never contains ["twitter.com"]. *)
Theorem normalize_x_url_no_twitter url :
  PyStr.contains "twitter.com" (normalize_x_url url) = false.
Proof. apply normalize_from_no_twitter. Qed.

(** X2.  [normalize_x_url] leaves a URL as it is exactly when the URL does
    not contain ["twitter.com"]; normalising twice is normalising once. *)
Theorem normalize_x_url_fixed_point url :
  (normalize_x_url url = url ↔ PyStr.contains "twitter.com" url = false)
  ∧ normalize_x_url (normalize_x_url url) = normalize_x_url url.
Proof.
  split; [split|].
  - intros H. rewrite <- H. apply normalize_from_no_twitter.
  - apply replace_from_absent.
  - apply replace_from_absent, normalize_from_no_twitter.
Qed.

(** ** [parse_x_url] *)

Lemma rstrip_id s : PyStr.ends_nonspace s = true → PyStr.rstrip s = s.
Proof.
  induction s as [|c s IH]; [done|]. intros H.
  cbn [PyStr.rstrip]. destruct s as [|b s].
  - simpl in *. by destruct (PyStr.isspace c).
  - rewrite IH by done. done.
Qed.

Lemma strip_id s :
  PyStr.begins_nonspace s = true → PyStr.ends_nonspace s = true → PyStr.strip s = s.
Proof.
  intros Hb He. unfold PyStr.strip.
  assert (PyStr.lstrip s = s) as ->; [|by apply rstrip_id].
  destruct s as [|c s]; [done|]. simpl in *. by destruct (PyStr.isspace c).
Qed.

Lemma ends_nonspace_app a b :
  b ≠ "" → PyStr.ends_nonspace (a +:+ b) = PyStr.ends_nonspace b.
Proof.
  intros Hb. induction a as [|c a IH]; [done|].
  change (String c a +:+ b) with (String c (a +:+ b)).
  rewrite <- IH. destruct (a +:+ b) eqn:Hab; [|done].
  destruct a; [by subst | done].
Qed.

Lemma span_app keep u r :
  str_forall keep u = true →
  match r with EmptyString => True | String c _ => keep c = false end →
  XUrl.span keep (u +:+ r) = (u, r).
Proof.
  intros Hu Hr. induction u as [|a u IH].
  - destruct r as [|c r]; [done|]. change ("" +:+ String c r) with (String c r).
    simpl. by rewrite Hr.
  - simpl in Hu. apply andb_true_iff in Hu as [Ha Hu].
    change (String a u +:+ r) with (String a (u +:+ r)).
    simpl. by rewrite Ha, (IH Hu).
Qed.

Lemma span_all keep u : str_forall keep u = true → XUrl.span keep u = (u, "").
Proof.
  induction u as [|a u IH]; [done|]. simpl.
  intros [-> Hu]%andb_true_iff. by rewrite (IH Hu).
Qed.

Lemma span_fst_forall keep s : str_forall keep (XUrl.span keep s).1 = true.
Proof.
  induction s as [|c s IH]; [done|]. simpl.
  destruct (keep c) eqn:Hc; [|done].
  destruct (XUrl.span keep s). simpl in *. by rewrite Hc.
Qed.

Lemma match_host_x_hosts prefix rest :
  In prefix x_hosts → XUrl.match_host (prefix +:+ rest) = Some rest.
Proof.
  unfold x_hosts. simpl. intros H.
  repeat (destruct H as [<-|H]; [reflexivity|]). done.
Qed.

Lemma begins_nonspace_x_hosts prefix rest :
  In prefix x_hosts → PyStr.begins_nonspace (prefix +:+ rest) = true.
Proof.
  unfold x_hosts. simpl. intros H.
  repeat (destruct H as [<-|H]; [reflexivity|]). done.
Qed.

Lemma str_forall_isdigit_nonspace d :
  d ≠ "" → str_forall XUrl.isdigit d = true → PyStr.ends_nonspace d = true.
Proof.
  induction d as [|c d IH]; [done|]. intros _ [Hc Hd]%andb_true_iff.
  destruct d as [|b d].
  - simpl. clear -Hc. destruct c as [[] [] [] [] [] [] [] []]; done.
  - by apply IH.
Qed.

(** X3.  A tweet URL - one of the eight beginnings, a user name without
    ["/"], ["/status/"] and a decimal number - parses to that user name and
    that number, with type ["tweet"]. *)
Theorem parse_x_url_tweet prefix user digits :
  In prefix x_hosts →
  user ≠ "" → str_forall XUrl.nonslash user = true →
  digits ≠ "" → str_forall XUrl.isdigit digits = true →
  parse_x_url (prefix +:+ user +:+ "/status/" +:+ digits)
  = XUrl.Make (Some user) (Some digits) "tweet".
Proof.
  intros Hp Hu Hus Hd Hds. unfold parse_x_url. cbn zeta.
  rewrite strip_id; cycle 1.
  { by apply begins_nonspace_x_hosts. }
  { rewrite !ends_nonspace_app; [by apply str_forall_isdigit_nonspace | done..|].
    by destruct user. }
  rewrite (match_host_x_hosts _ _ Hp). cbn [mbind option_bind].
  unfold XUrl.match_tweet. rewrite (span_app _ user ("/status/" +:+ digits)) by done.
  destruct (String.eqb_spec user ""); [done|].
  change (XUrl.strip_prefix "/status/" ("/status/" +:+ digits)) with (Some digits).
  cbn [mbind option_bind]. rewrite (span_all _ _ Hds).
  by destruct (String.eqb_spec digits "").
Qed.

Lemma parse_x_url_tweet_witness :
  parse_x_url "https://twitter.com/elonmusk/status/123456789"
  = XUrl.Make (Some "elonmusk") (Some "123456789") "tweet".
Proof.
  apply (parse_x_url_tweet "https://twitter.com/" "elonmusk" "123456789");
    [simpl; auto | discriminate | reflexivity | discriminate | reflexivity].
Defined.

Lemma match_tweet_some s user digits :
  XUrl.match_tweet s = Some (user, digits) →
  user ≠ "" ∧ str_forall XUrl.nonslash user = true
  ∧ digits ≠ "" ∧ str_forall XUrl.isdigit digits = true.
Proof.
  unfold XUrl.match_tweet.
  pose proof (span_fst_forall XUrl.nonslash s) as Hu.
  destruct (XUrl.span XUrl.nonslash s) as [u rest]. simpl in Hu.
  destruct (String.eqb_spec u ""); [done|].
  destruct (XUrl.strip_prefix "/status/" rest) as [r|]; [|done]. cbn [mbind option_bind].
  pose proof (span_fst_forall XUrl.isdigit r) as Hd.
  destruct (XUrl.span XUrl.isdigit r) as [d rest']. simpl in Hd.
  destruct (String.eqb_spec d ""); [done|].
  by intros [= <- <-].
Qed.

Lemma match_profile_some s user :
  XUrl.match_profile s = Some user → user ≠ "" ∧ str_forall XUrl.nonslash user = true.
Proof.
  unfold XUrl.match_profile.
  pose proof (span_fst_forall XUrl.nonslash s) as Hu.
  destruct (XUrl.span XUrl.nonslash s) as [u rest]. simpl in Hu.
  destruct (String.eqb_spec u ""); [done|].
  destruct (_ || _); [|done]. by intros [= <-].
Qed.

(** X4.  What [parse_x_url] returns is of one of three shapes: a tweet, with
    a non-empty user name free of ["/"] and a non-empty decimal tweet id; a
    profile, with such a user name and no tweet id; or unknown, with
    neither. *)
Theorem parse_x_url_shapes url :
  (∃ user digits,
     parse_x_url url = XUrl.Make (Some user) (Some digits) "tweet"
     ∧ user ≠ "" ∧ str_forall XUrl.nonslash user = true
     ∧ digits ≠ "" ∧ str_forall XUrl.isdigit digits = true)
  ∨ (∃ user,
       parse_x_url url = XUrl.Make (Some user) None "profile"
       ∧ user ≠ "" ∧ str_forall XUrl.nonslash user = true)
  ∨ parse_x_url url = XUrl.Make None None "unknown".
Proof.
  unfold parse_x_url. cbn zeta.
  destruct (XUrl.match_host (PyStr.strip url)) as [rest|]; cbn [mbind option_bind]; [|auto].
  destruct (XUrl.match_tweet rest) as [[user digits]|] eqn:Ht.
  - left. exists user, digits. split; [done|]. by apply match_tweet_some in Ht.
  - destruct (XUrl.match_profile rest) as [user|] eqn:Hp; [|auto].
    right. left. exists user. split; [done|]. by apply match_profile_some in Hp.
Qed.

(** X5.  A profile URL - one of the eight beginnings and a user name without
    ["/"], followed or not by one ["/"] - parses to that user name, with type
    ["profile"] and no tweet id. *)
Theorem parse_x_url_profile prefix user :
  In prefix x_hosts →
  str_forall XUrl.nonslash user = true → PyStr.ends_nonspace user = true →
  parse_x_url (prefix +:+ user) = XUrl.Make (Some user) None "profile"
  ∧ parse_x_url (prefix +:+ user +:+ "/") = XUrl.Make (Some user) None "profile".
Proof.
  intros Hp Hus He.
  assert (Hu : user ≠ "") by (by destruct user).
  unfold parse_x_url. cbn zeta. split.
  - rewrite strip_id; [|by apply begins_nonspace_x_hosts | by rewrite ends_nonspace_app].
    rewrite (match_host_x_hosts _ _ Hp). cbn [mbind option_bind].
    unfold XUrl.match_tweet, XUrl.match_profile. rewrite (span_all _ _ Hus).
    by destruct (String.eqb_spec user "").
  - rewrite strip_id; [|by apply begins_nonspace_x_hosts |].
    2:{ rewrite !ends_nonspace_app; [done..|]. by destruct user. }
    rewrite (match_host_x_hosts _ _ Hp). cbn [mbind option_bind].
    unfold XUrl.match_tweet, XUrl.match_profile.
    rewrite (span_app _ user "/") by done.
    by destruct (String.eqb_spec user "").
Qed.

Lemma parse_x_url_profile_witness :
  parse_x_url "https://x.com/bozhou_ai" = XUrl.Make (Some "bozhou_ai") None "profile".
Proof.
  apply (parse_x_url_profile "https://x.com/" "bozhou_ai");
    [simpl; auto | reflexivity | reflexivity].
Defined.

(** ** [format_image_url] *)

Lemma str_app_cons c a b : String c a +:+ b = String c (a +:+ b).
Proof. done. Qed.

Lemma str_app_assoc a b c : (a +:+ b) +:+ c = a +:+ b +:+ c.
Proof. induction a as [|x a IH]; [done|]. by rewrite !str_app_cons, IH. Qed.

Lemma str_length_app a b :
  String.length (a +:+ b) = (String.length a + String.length b)%nat.
Proof. induction a as [|x a IH]; [done|]. rewrite str_app_cons. simpl. by rewrite IH. Qed.

Lemma split_first_app_sep sep u r :
  PyStr.split_first sep (PyStr.split_first sep u +:+ String sep r) = PyStr.split_first sep u.
Proof.
  induction u as [|a u IH]; simpl.
  - change ("" +:+ String sep r) with (String sep r). simpl. by rewrite Ascii.eqb_refl.
  - destruct (Ascii.eqb a sep) eqn:Ha.
    + change ("" +:+ String sep r) with (String sep r). simpl. by rewrite Ascii.eqb_refl.
    + rewrite str_app_cons. simpl. by rewrite Ha, IH.
Qed.

Lemma startswith_app_l p s t :
  PyStr.startswith p s = true → PyStr.startswith p (s +:+ t) = true.
Proof.
  revert s. induction p as [|x p IH]; intros [|a s]; try done.
  rewrite str_app_cons, !startswith_cons. intros [-> Hp]%andb_true_iff.
  by rewrite (IH _ Hp).
Qed.

Lemma contains_app_l x s t :
  PyStr.contains x s = true → PyStr.contains x (s +:+ t) = true.
Proof.
  induction s as [|c s IH].
  - destruct x; [by destruct t | done].
  - rewrite str_app_cons, !contains_cons. intros [H|H]%orb_true_iff.
    + by rewrite <- str_app_cons, (startswith_app_l _ _ _ H).
    + rewrite (IH H). apply orb_true_r.
Qed.

(** X6.  Formatting a formatted image URL again with the same size changes
    nothing; when the image host is in the URL before its query string, the
    size asked last is the one the URL carries. *)
Theorem format_image_url_again url size size' :
  format_image_url (format_image_url url size) size = format_image_url url size
  ∧ (PyStr.contains "twimg.com" (PyStr.split_first "?" url) = true →
     format_image_url (format_image_url url size) size' = format_image_url url size').
Proof.
  assert (Hbase : ∀ s, PyStr.split_first "?" (PyStr.split_first "?" url +:+ "?format=jpg&name=" +:+ s)
                       = PyStr.split_first "?" url).
  { intros s. apply (split_first_app_sep "?" url ("format=jpg&name=" +:+ s)). }
  assert (Hne : ∀ s, String.eqb (PyStr.split_first "?" url +:+ "?format=jpg&name=" +:+ s) ""
                     = false).
  { intros s. by destruct (PyStr.split_first "?" url). }
  split.
  - unfold format_image_url at 2. cbn zeta.
    destruct (String.eqb url "" || negb (PyStr.contains "twimg.com" url)) eqn:Hskip.
    + unfold format_image_url. by rewrite Hskip.
    + unfold format_image_url. cbn zeta. rewrite Hne, Hbase, Hskip.
      by destruct (PyStr.contains "twimg.com" (_ +:+ _)).
  - intros Hhost.
    assert (Hurl : PyStr.contains "twimg.com" url = true).
    { by apply contains_split_first in Hhost. }
    assert (url ≠ "") as Hu%String.eqb_neq by (by intros ->).
    unfold format_image_url. cbn zeta. rewrite Hu, Hurl. cbn [orb negb].
    rewrite Hne, Hbase.
    assert (PyStr.contains "twimg.com"
              (PyStr.split_first "?" url +:+ "?format=jpg&name=" +:+ size) = true) as ->; [|done].
    by apply contains_app_l.
Qed.

(** X7.  For a URL on the image host, [extract_image_urls] and
    [format_image_url] agree: the URL kept for a photo is
    [format_image_url(url, "orig")], unless the URL without its query string
    ends with [":orig"], where [extract_image_urls] keeps the URL. *)
Theorem full_size_is_format_image_url url :
  PyStr.contains "twimg.com" url = true →
  full_size url =
  if PyStr.endswith ":orig" (PyStr.split_first "?" url) then url
  else format_image_url url "orig".
Proof.
  intros Hurl. assert (url ≠ "") as Hu%String.eqb_neq by (by intros ->).
  unfold full_size, format_image_url. cbn zeta. rewrite Hu, Hurl. cbn [orb negb].
  destruct (PyStr.endswith ":orig" _); [done|]. reflexivity.
Qed.

Lemma full_size_is_format_image_url_witness :
  full_size "https://pbs.twimg.com/media/sample1.jpg?name=small"
  = format_image_url "https://pbs.twimg.com/media/sample1.jpg?name=small" "orig".
Proof.
  rewrite (full_size_is_format_image_url
             "https://pbs.twimg.com/media/sample1.jpg?name=small" eq_refl).
  reflexivity.
Defined.

(** ** [truncate_text] *)

Lemma str_take_length n s : String.length (str_take n s) = Nat.min n (String.length s).
Proof.
  revert s. induction n as [|n IH]; intros [|c s]; simpl; try done. by rewrite IH.
Qed.

(** X8.  With a maximal length of at least 3, the text [truncate_text]
    returns is never longer than the maximal length: a text that fits is
    returned as it is, a longer one is cut to exactly the maximal length and
    ends with ["..."]. *)
Theorem truncate_text_length text max_length :
  3 ≤ max_length →
  Z.of_nat (String.length (truncate_text text max_length))
  = Z.min (Z.of_nat (String.length text)) max_length
  ∧ (Z.of_nat (String.length text) ≤ max_length → truncate_text text max_length = text)
  ∧ (max_length < Z.of_nat (String.length text) →
     truncate_text text max_length = str_take (Z.to_nat (max_length - 3)) text +:+ "...").
Proof.
  intros Hm. unfold truncate_text, slice_to.
  destruct (Z.leb_spec (Z.of_nat (String.length text)) max_length) as [Hfit|Hlong].
  - split; [lia|]. split; [done | lia].
  - destruct (Z.leb_spec 0 (max_length - 3)); [|lia].
    split; [|split; [lia | done]].
    rewrite str_length_app, str_take_length. simpl. lia.
Qed.

Lemma truncate_text_length_witness :
  3 ≤ 8 ∧ truncate_text "abcdefghij" 8 = "abcde...".
Proof.
  split; [lia|].
  destruct (truncate_text_length "abcdefghij" 8) as (_ & _ & H); [lia|].
  rewrite H; [reflexivity | simpl; lia].
Defined.

(** X9.  With a maximal length below 3, a text longer than the maximal
    length comes back longer than the maximal length: the three dots alone
    exceed it. *)
Theorem truncate_text_small_max text max_length :
  max_length < 3 → max_length < Z.of_nat (String.length text) →
  max_length < Z.of_nat (String.length (truncate_text text max_length))
  ∧ truncate_text text max_length
    = str_take (Z.to_nat (Z.of_nat (String.length text) + (max_length - 3))) text +:+ "...".
Proof.
  intros Hm Hlong. unfold truncate_text, slice_to.
  destruct (Z.leb_spec (Z.of_nat (String.length text)) max_length); [lia|].
  destruct (Z.leb_spec 0 (max_length - 3)); [lia|].
  split; [|done]. rewrite str_length_app. simpl. lia.
Qed.

Lemma truncate_text_small_max_witness :
  0 < 3 ∧ truncate_text "abcd" 0 = "a...".
Proof.
  split; [lia|].
  destruct (truncate_text_small_max "abcd" 0) as [_ H]; [lia | simpl; lia |].
  rewrite H. reflexivity.
Defined.

(** ** [safe_get] *)

(** X10.  With at least one key, [safe_get] returns the default or a value
    that is not [None]: a [None] found on the way is never handed out. *)
Theorem safe_get_default_or_value data keys default :
  keys ≠ [] →
  safe_get data keys default = default ∨ is_none (safe_get data keys default) = false.
Proof.
  revert data. induction keys as [|key keys IH]; intros data Hk; [done|].
  cbn [safe_get]. destruct data as [| | | | |d]; auto.
  destruct (d !! key) as [v|]; [|auto].
  destruct keys as [|key' keys].
  - destruct v; auto.
  - destruct v; auto; by apply IH.
Qed.

Lemma safe_get_default_or_value_witness :
  let data := JObj {[ "a" := JNull ]} in
  ["a"; "b"] ≠ []
  ∧ (safe_get data ["a"; "b"] (JStr "default") = JStr "default"
     ∨ is_none (safe_get data ["a"; "b"] (JStr "default")) = false).
Proof.
  intros data. split; [discriminate|].
  apply (safe_get_default_or_value data ["a"; "b"] (JStr "default")). discriminate.
Defined.

(** X11.  A path can be followed in two steps: looking up [keys1 ++ keys2]
    is looking up [keys1] and then, unless that gave nothing, [keys2] in what
    was found. *)
Theorem safe_get_app data keys1 keys2 default :
  keys1 ≠ [] →
  safe_get data (keys1 ++ keys2) default =
  match safe_get data keys1 JNull with
  | JNull => default
  | v => safe_get v keys2 default
  end.
Proof.
  revert data. induction keys1 as [|key keys1 IH]; intros data Hk; [done|].
  cbn [app safe_get]. destruct data as [| | | | |d]; try done.
  destruct (d !! key) as [v|]; [|done].
  destruct keys1 as [|key' keys1].
  - by destruct v.
  - destruct v; try done; by apply IH.
Qed.

Lemma safe_get_app_witness :
  safe_get (JObj {[ "a" := JObj {[ "b" := JObj {[ "c" := JNum 42 ]} ]} ]}) ["a"; "b"; "c"] JNull
  = JNum 42.
Proof.
  rewrite (safe_get_app _ ["a"; "b"] ["c"] JNull); [reflexivity | discriminate].
Defined.

(** ** [extract_video_urls] *)

Lemma extract_video_urls_loop_spec items acc :
  Forall is_object items →
  extract_video_urls_loop items acc = Ok (acc ++ omap video_url items).
Proof.
  intros Hitems. revert acc. induction Hitems as [|media items Hm _ IH]; intros acc.
  - by rewrite app_nil_r.
  - destruct media as [| | | | |d]; try done.
    cbn [extract_video_urls_loop omap list_omap video_url Py.get rbind].
    destruct (_ || _); [|apply IH].
    destruct (Py.truthy _); [|apply IH].
    rewrite IH. by rewrite <- app_assoc.
Qed.

Lemma py_eq_str v s : Py.eq v (JStr s) = true → v = JStr s.
Proof. destruct v; try done. simpl. by intros ->%String.eqb_eq. Qed.

(** X12.  For a media list of objects, [extract_video_urls] returns, in the
    order of the list, the ["videoUrl"] of each item of type ["video"] or
    ["animated_gif"] that has a non-empty one.  Nothing it returns is empty,
    and an item that gives an image URL gives no video URL. *)
Theorem video_urls_in_order d items :
  Py.dict_get d "media" (JArr []) = JArr items →
  Forall is_object items →
  ∃ videos,
    extract_video_urls (JObj d) = Ok videos
    ∧ videos = omap video_url items
    ∧ Forall (λ v, Py.truthy v = true) videos
    ∧ Forall (λ m, is_Some (photo_url m) → video_url m = None) items.
Proof.
  intros Hmedia Hitems. eexists. split.
  - unfold extract_video_urls. cbn [Py.get rbind]. rewrite Hmedia.
    cbn [Py.iter rbind]. rewrite (extract_video_urls_loop_spec _ _ Hitems). reflexivity.
  - cbn [app]. split; [done|]. split.
    + clear. induction items as [|m items IH]; [constructor|].
      cbn [omap list_omap]. destruct (video_url m) as [v|] eqn:Hv; [|done].
      constructor; [|done]. destruct m; try done. unfold video_url in Hv. cbn zeta in Hv.
      destruct (_ || _); [|done].
      destruct (Py.truthy _) eqn:Ht; [|done]. by injection Hv as <-.
    + apply Forall_forall. intros m _ [u Hu].
      destruct m as [| | | | |dm]; try done. unfold photo_url in Hu. unfold video_url. cbn zeta.
      destruct (Py.eq (Py.dict_get dm "type" JNull) (JStr "photo")) eqn:Hty; [|done].
      apply py_eq_str in Hty. by rewrite Hty.
Qed.

Lemma video_urls_in_order_witness :
  extract_video_urls sample_bird_response
  = Ok [JStr "https://video.twimg.com/ext_tw_video/sample.mp4"].
Proof.
  destruct (video_urls_in_order sample_bird_fields sample_media)
    as (videos & Hrun & -> & _).
  - reflexivity.
  - repeat (constructor; [exact I|]). constructor.
  - exact Hrun.
Defined.

(** ** The environment of the subprocess *)

Lemma set_if_lookup key value env k :
  BirdClient.set_if key value env !! k =
  match opt_or value None with
  | Some v => if bool_decide (key = k) then Some v else env !! k
  | None => env !! k
  end.
Proof.
  unfold BirdClient.set_if. destruct (opt_or value None); [|done].
  case_bool_decide; [subst; apply lookup_insert_eq | by apply lookup_insert_ne].
Qed.

(** X13.  The environment built for the subprocess is the environment of
    the process with at most four variables replaced: a non-empty proxy is
    written to both [HTTPS_PROXY] and [HTTP_PROXY], a non-empty token to
    [AUTH_TOKEN] and [CT0]; a variable whose value is missing or empty keeps
    what the process had, and no other variable changes. *)
Theorem build_env_overrides self w :
  let env := BirdClient._build_env self w in
  let set value key :=
    env !! key = match opt_or value None with
                 | Some v => Some v
                 | None => environ w !! key
                 end in
  set (BirdClient.auth_token self) "AUTH_TOKEN"
  ∧ set (BirdClient.ct0 self) "CT0"
  ∧ set (BirdClient.proxy_url self) "HTTPS_PROXY"
  ∧ set (BirdClient.proxy_url self) "HTTP_PROXY"
  ∧ (∀ p, BirdClient.proxy_url self = Some p → p ≠ "" →
          env !! "HTTPS_PROXY" = Some p ∧ env !! "HTTP_PROXY" = Some p)
  ∧ (∀ key, key ∉ ["AUTH_TOKEN"; "CT0"; "HTTPS_PROXY"; "HTTP_PROXY"] →
            env !! key = environ w !! key).
Proof.
  cbn zeta. unfold BirdClient._build_env. cbn zeta.
  split; [|split; [|split; [|split; [|split]]]].
  - rewrite !set_if_lookup.
    repeat (destruct (opt_or _ None)); reflexivity.
  - rewrite !set_if_lookup.
    repeat (destruct (opt_or _ None)); reflexivity.
  - rewrite !set_if_lookup.
    repeat (destruct (opt_or _ None)); reflexivity.
  - rewrite !set_if_lookup.
    repeat (destruct (opt_or _ None)); reflexivity.
  - intros p Hp Hne. rewrite !set_if_lookup, Hp. simpl.
    destruct (String.eqb_spec p ""); [done|].
    by repeat (destruct (opt_or _ None)).
  - intros key Hkey. rewrite !set_if_lookup.
    rewrite !not_elem_of_cons in Hkey. destruct Hkey as (H1 & H2 & H3 & H4 & _).
    repeat (destruct (opt_or _ None)); by rewrite ?bool_decide_eq_false_2.
Qed.

Lemma opt_or_first_nonempty a b : opt_or (opt_or a b) None = first_nonempty [a; b].
Proof.
  destruct a as [s|]; simpl; [|by destruct (opt_or b None)].
  destruct (String.eqb s "") eqn:Hs; simpl; [by destruct (opt_or b None) | by rewrite Hs].
Qed.

(** X14.  A client can only be built when [bird] is installed, and the token
    its subprocesses see is the first non-empty one among the argument of the
    constructor and the setting; when both are missing or empty it is what
    the environment of the process holds.  The same goes for [CT0] and the
    proxy. *)
Theorem client_credentials_priority w auth_token ct0 proxy_url timeout self tr :
  BirdClient.__init__ w auth_token ct0 proxy_url timeout = (Ok self, tr) →
  let settings := get_settings w in
  let env := BirdClient._build_env self w in
  let chosen argument setting key :=
    env !! key = match first_nonempty [argument; setting] with
                 | Some v => Some v
                 | None => environ w !! key
                 end in
  which_bird w = true
  ∧ BirdClient.timeout self = timeout
  ∧ chosen auth_token (Settings.auth_token settings) "AUTH_TOKEN"
  ∧ chosen ct0 (Settings.ct0 settings) "CT0"
  ∧ chosen proxy_url (Settings.proxy_url settings) "HTTPS_PROXY"
  ∧ chosen proxy_url (Settings.proxy_url settings) "HTTP_PROXY".
Proof.
  unfold BirdClient.__init__, BirdClient._verify_bird_installed.
  destruct (which_bird w); [|done]. cbn [bind emit ret raise app]. intros [= <- _]. cbv zeta.
  unfold BirdClient._build_env. cbn [BirdClient.auth_token BirdClient.ct0 BirdClient.proxy_url
                                     BirdClient.timeout].
  rewrite <- !opt_or_first_nonempty.
  repeat split; rewrite !set_if_lookup; repeat (destruct (opt_or (opt_or _ _) None)); reflexivity.
Qed.

Lemma client_credentials_priority_witness :
  let w := World (Settings.Make (Some "from-settings") (Some "") None)
                 {[ "CT0" := "ambient" ]} true (λ _, RunTimeout) noon in
  ∃ self tr, BirdClient.__init__ w (Some "") None None 60 = (Ok self, tr)
             ∧ BirdClient._build_env self w !! "AUTH_TOKEN" = Some "from-settings"
             ∧ BirdClient._build_env self w !! "CT0" = Some "ambient".
Proof.
  intros w. eexists _, _. split; [reflexivity|].
  destruct (client_credentials_priority w (Some "") None None 60 _ _ eq_refl)
    as (_ & _ & Ha & Hc & _).
  split; [exact Ha | exact Hc].
Defined.

(** ** [_run_bird] *)

(** X15.  [_run_bird] returns a value exactly when the tool exited with
    code 0 and its output decodes as JSON, and the value is the decoded
    output. *)
Theorem run_bird_ok_iff lib self w args v :
  (BirdClient._run_bird lib self w args).1 = Ok v
  ↔ ∃ stdout stderr,
      subprocess_run w (["bird"] ++ args ++ ["--json"]) = RunCompleted 0 stdout stderr
      ∧ lib_json_loads lib stdout = inl v.
Proof.
  rewrite run_bird_cases. cbn zeta.
  destruct (subprocess_run w _) as [| |rc out err|cls message].
  - split; [done | by intros (? & ? & ? & _)].
  - split; [done | by intros (? & ? & ? & _)].
  - destruct (Z.eqb_spec rc 0) as [->|Hrc].
    + destruct (lib_json_loads lib out) as [v'|e'] eqn:Hv; simpl.
      * split.
        -- intros [= <-]. by exists out, err.
        -- intros (o & e & [= <- <-] & Hl). congruence.
      * split; [by destruct (is_JSONDecodeError e')|].
        intros (o & e & [= <- <-] & Hl). congruence.
    + split; [done|]. intros (o & e & [= ? ? ?] & _). done.
  - split; [done | by intros (? & ? & ? & _)].
Qed.

(** X16.  Whatever happens to the tool, [_run_bird] starts exactly one
    subprocess: the command [bird <args> --json] with the environment of the
    client and its timeout.  A timeout, a missing executable and a nonzero
    exit each surface as an exception of the [BirdError] family, the last
    with the stripped stderr and the exit code.  An exception of
    [_run_bird] that is not of that family was raised by [subprocess.run]
    or by the decoder and passed on unchanged. *)
Theorem run_bird_one_subprocess lib self w args :
  let cmd := ["bird"] ++ args ++ ["--json"] in
  let '(r, t) := BirdClient._run_bird lib self w args in
  count_runs t = 1%nat
  ∧ Run cmd (BirdClient._build_env self w) (BirdClient.timeout self) ∈ t
  ∧ match subprocess_run w cmd with
    | RunTimeout => ∃ message, r = Raise (Bird BirdError message "" 1)
    | RunFileNotFound => r = Raise BirdNotFoundError_new
    | RunCompleted returncode stdout stderr =>
        returncode ≠ 0 →
        ∃ cls message, r = Raise (Bird cls message (PyStr.strip stderr) returncode)
    | RunRaised cls message => r = Raise (Builtin cls message)
    end
  ∧ match r with
    | Ok _ => True
    | Raise e =>
        (∃ cls message stderr returncode, e = Bird cls message stderr returncode)
        ∨ (∃ cls message, subprocess_run w cmd = RunRaised cls message
                          ∧ e = Builtin cls message)
        ∨ (∃ stdout stderr, subprocess_run w cmd = RunCompleted 0 stdout stderr
                            ∧ lib_json_loads lib stdout = inr e
                            ∧ is_JSONDecodeError e = false)
    end.
Proof.
  cbn zeta.
  pose proof (run_bird_raises lib self w args) as Hraises.
  rewrite run_bird_cases in Hraises |- *. cbn zeta in Hraises |- *.
  assert (Hin : ∀ l, Run (["bird"] ++ args ++ ["--json"]) (BirdClient._build_env self w)
                         (BirdClient.timeout self)
                     ∈ [Log debug "executing_bird";
                        Run (["bird"] ++ args ++ ["--json"]) (BirdClient._build_env self w)
                            (BirdClient.timeout self)] ++ l).
  { intros l. apply elem_of_app. left. apply elem_of_cons. right. apply elem_of_cons. by left. }
  destruct (subprocess_run w _) as [| |rc out err|cls message].
  - split; [done|]. split; [apply (Hin [])|]. split; [by eexists|]. by eapply Hraises.
  - split; [done|]. split; [apply (Hin [])|]. split; [done|]. by eapply Hraises.
  - destruct (Z.eqb_spec rc 0) as [->|Hrc].
    + destruct (lib_json_loads lib out) as [v|e'].
      * split; [done|]. split; [apply (Hin [])|done].
      * destruct (is_JSONDecodeError e').
        -- split; [done|]. split; [apply Hin|]. split; [done|]. by eapply Hraises.
        -- split; [done|]. split; [apply (Hin [])|]. split; [done|]. by eapply Hraises.
    + split; [done|]. split; [apply Hin|]. split; [|by eapply Hraises].
      intros _. destruct (classify_error_bird (PyStr.strip err) rc) as (c & m & ->).
      by eexists _, _.
  - split; [done|]. split; [apply (Hin [])|]. split; [done|]. by eapply Hraises.
Qed.

(** ** [scrape_tweets] *)

(** One attempt on a non-empty URL with the tool installed, by what the read
    and the normaliser give. *)
Lemma scrape_tweets_cases lib w data u :
  data !! "url" = Some (JStr u) → u ≠ "" → which_bird w = true →
  scrape_tweets lib w data =
  let url := normalize_x_url u in
  let '(r0, t0) := BirdClient._run_bird lib (scrape_client w) w ["read"; url] in
  let pre := [NewBirdClient; Log info "scraping_tweet"; Log info "reading_tweet"] ++ t0 in
  match (match r0 with
         | Ok v => match parse_bird_response lib w v url with
                   | Ok tweet => inl tweet
                   | Raise e => inr e
                   end
         | Raise e => inr e
         end) with
  | inl tweet => (Ok (ScraperResult.Make true url (Some tweet) None),
                  pre ++ [Log info "tweet_scraped"])
  | inr e =>
      match e with
      | Bird BirdRateLimitError _ _ _ => (Raise e, pre ++ [Log warning "rate_limited"])
      | Bird _ _ _ _ =>
          if asks_refresh e then
            let '(r, t') := BirdClient.refresh_query_ids (scrape_client w) w in
            (match r with Ok _ => Raise e | Raise e' => Raise e' end,
             pre ++ [Log info "refreshing_query_ids_for_retry"] ++ t')
          else (Ok (failed url (exn_str e)), pre ++ [Log error "scrape_failed"])
      | Builtin _ _ =>
          (Ok (failed url ("Unexpected error: " +:+ exn_str e)),
           pre ++ [Log exception "unexpected_error"])
      end
  end.
Proof.
  intros Hurl Hu Hwhich. cbn zeta.
  destruct (BirdClient._run_bird lib (scrape_client w) w ["read"; normalize_x_url u])
    as [[v|e0] t0] eqn:Hrun.
  2:{ rewrite (scrape_tweets_read_raises _ _ _ _ _ _ Hurl Hu Hwhich Hrun). done. }
  unfold scrape_tweets, Py.dict_get. rewrite Hurl, (truthy_nonempty u Hu).
  cbn [negb]. unfold BirdClient.__init__, BirdClient._verify_bird_installed.
  rewrite Hwhich. fold (scrape_client w).
  unfold BirdClient.read_tweet. cbn [bind ret emit raise lift try_except app].
  rewrite Hrun. cbn [bind ret emit raise lift try_except app].
  destruct (parse_bird_response lib w v (normalize_x_url u)) as [tweet|e].
  { cbn [bind ret emit raise lift try_except app]. by rewrite ?app_nil_r. }
  cbn [bind ret emit raise lift try_except app]. rewrite ?app_nil_r.
  assert (Hrefresh : ∀ e0 : exn,
    (let '(r, t') := (BirdClient.refresh_query_ids (scrape_client w) w ;;;
                      (raise e0 : M ScraperResult.t))%M in
     (r, Log info "refreshing_query_ids_for_retry" :: t'))
    = (let '(r, t') := BirdClient.refresh_query_ids (scrape_client w) w in
       (match r with Ok _ => Raise e0 | Raise e' => Raise e' end,
        Log info "refreshing_query_ids_for_retry" :: t'))).
  { intros e0. unfold bind, raise.
    destruct (BirdClient.refresh_query_ids (scrape_client w) w) as [[[]|e'] t'];
      by rewrite ?app_nil_r. }
  destruct e as [[] m s rc | c m]; unfold asks_refresh; cbn [exn_str]; try done;
    (destruct (_ || _); [|done]); rewrite Hrefresh;
    by destruct (BirdClient.refresh_query_ids (scrape_client w) w) as [[[]|e'] t'].
Qed.

Lemma scrape_tweets_tool_missing lib w data u :
  data !! "url" = Some (JStr u) → u ≠ "" → which_bird w = false →
  scrape_tweets lib w data = (Raise BirdNotFoundError_new, [NewBirdClient]).
Proof.
  intros Hurl Hu Hwhich.
  unfold scrape_tweets, Py.dict_get. rewrite Hurl, (truthy_nonempty u Hu).
  cbn [negb]. unfold BirdClient.__init__, BirdClient._verify_bird_installed.
  by rewrite Hwhich.
Qed.

Lemma scrape_tweets_falsy_url lib w data :
  Py.truthy (Py.dict_get data "url" (JStr "")) = false →
  scrape_tweets lib w data = (Ok (failed "" "No URL provided"), []).
Proof. intros H. unfold scrape_tweets. by rewrite H. Qed.

Lemma count_runs_app t1 t2 : count_runs (t1 ++ t2) = (count_runs t1 + count_runs t2)%nat.
Proof. unfold count_runs. by rewrite List.filter_app, length_app. Qed.

Lemma count_runs_run_bird lib self w args :
  count_runs (BirdClient._run_bird lib self w args).2 = 1%nat.
Proof.
  rewrite run_bird_cases. cbn zeta.
  destruct (subprocess_run w _) as [| |rc out err|cls message]; try done.
  destruct (rc =? 0); [|done].
  destruct (lib_json_loads lib out) as [v|e]; [done|]. by destruct (is_JSONDecodeError e).
Qed.

Lemma count_runs_refresh self w :
  count_runs (BirdClient.refresh_query_ids self w).2 = 1%nat.
Proof. rewrite refresh_cases. cbn zeta. by destruct (subprocess_run w refresh_cmd). Qed.

(** X17.  An exception of the [BirdError] family leaves [scrape_tweets]
    only when the tool is not installed, when the tool reported a rate
    limit, or when the text of the error contains ["404"] or ["query"].  Once
    a subprocess has been started, an exception of another class leaves it
    only out of the refresh, and it is the one that the subprocess call of
    the refresh raised: what the read of the tool, the decoder and the
    normaliser raise besides is returned as a failure. *)
Theorem scrape_tweets_raises lib w data e t :
  scrape_tweets lib w data = (Raise e, t) →
  match e with
  | Bird cls _ _ _ =>
      cls = BirdNotFoundError ∨ cls = BirdRateLimitError ∨ asks_refresh e = true
  | Builtin cls message =>
      count_runs t = 0%nat
      ∨ (count_runs t = 2%nat ∧ subprocess_run w refresh_cmd = RunRaised cls message)
  end.
Proof.
  intros Hraise.
  destruct (Py.truthy (Py.dict_get data "url" (JStr ""))) eqn:Htruthy;
    [|by rewrite (scrape_tweets_falsy_url _ _ _ Htruthy) in Hraise].
  destruct (data !! "url") as [v|] eqn:Hurl;
    [|by unfold Py.dict_get in Htruthy; rewrite Hurl in Htruthy].
  destruct v as [| | |u| |];
    try (unfold scrape_tweets in Hraise; rewrite Htruthy in Hraise;
         unfold Py.dict_get in Hraise; rewrite Hurl in Hraise;
         injection Hraise as <- <-; by left).
  assert (Hu : u ≠ "").
  { intros ->. unfold Py.dict_get in Htruthy. by rewrite Hurl in Htruthy. }
  destruct (which_bird w) eqn:Hwhich.
  2:{ rewrite (scrape_tweets_tool_missing _ _ _ _ Hurl Hu Hwhich) in Hraise.
      injection Hraise as <- _. by left. }
  rewrite (scrape_tweets_cases _ _ _ _ Hurl Hu Hwhich) in Hraise. cbn zeta in Hraise.
  pose proof (count_runs_run_bird lib (scrape_client w) w ["read"; normalize_x_url u]) as H1.
  destruct (BirdClient._run_bird _ _ _ _) as [r0 t0]. simpl in H1.
  set (attempt := match r0 with Ok _ => _ | Raise _ => _ end) in Hraise.
  destruct attempt as [tweet|e1]; [done|].
  destruct e1 as [cls m s rc|c m]; [|done].
  assert (Hgen : cls ≠ BirdRateLimitError →
            (if asks_refresh (Bird cls m s rc) then
               let '(r, t') := BirdClient.refresh_query_ids (scrape_client w) w in
               (match r with Ok _ => Raise (Bird cls m s rc) | Raise e' => Raise e' end,
                ([NewBirdClient; Log info "scraping_tweet"; Log info "reading_tweet"] ++ t0)
                  ++ [Log info "refreshing_query_ids_for_retry"] ++ t')
             else (Ok (failed (normalize_x_url u) (exn_str (Bird cls m s rc))),
                   ([NewBirdClient; Log info "scraping_tweet"; Log info "reading_tweet"] ++ t0)
                     ++ [Log error "scrape_failed"])) = (Raise e, t) →
            match e with
            | Bird cls' _ _ _ =>
                cls' = BirdNotFoundError ∨ cls' = BirdRateLimitError ∨ asks_refresh e = true
            | Builtin cls' message =>
                count_runs t = 0%nat
                ∨ (count_runs t = 2%nat
                   ∧ subprocess_run w refresh_cmd = RunRaised cls' message)
            end).
  { intros _. destruct (asks_refresh (Bird cls m s rc)) eqn:Hasks; [|done].
    rewrite refresh_cases. cbn zeta.
    destruct (subprocess_run w refresh_cmd) as [| |rc' out' err'|cls' message'].
    - intros [= <- _]. auto.
    - intros [= <- _]. by left.
    - intros [= <- _]. auto.
    - intros [= <- <-]. right. split; [|done].
      match goal with
      | |- count_runs (?a :: ?b :: ?c :: t0 ++ ?l) = _ =>
          change (count_runs ([a; b; c] ++ t0 ++ l) = 2%nat)
      end.
      rewrite !count_runs_app, H1. reflexivity. }
  destruct cls; try (by apply Hgen).
  injection Hraise as <- _. auto.
Qed.

Lemma scrape_tweets_raises_witness :
  let w := sample_world (RunCompleted 1 "" "HTTP 404 Not Found")
                        (RunRaised OSError "[Errno 8] Exec format error: 'bird'") noon in
  ∃ t, scrape_tweets sample_lib w sample_data
       = (Raise (Builtin OSError "[Errno 8] Exec format error: 'bird'"), t)
       ∧ count_runs t = 2%nat.
Proof.
  intros w.
  destruct (scrape_tweets sample_lib w sample_data) as [r t] eqn:Hs.
  assert (Hr : r = Raise (Builtin OSError "[Errno 8] Exec format error: 'bird'")).
  { vm_compute in Hs. by injection Hs as <- _. }
  subst r. exists t. split; [reflexivity|].
  destruct (scrape_tweets_raises sample_lib w sample_data _ t Hs) as [H0|[H2 _]]; [|exact H2].
  vm_compute in Hs. injection Hs as <-. vm_compute in H0. discriminate H0.
Defined.

(** X18.  A result [scrape_tweets] returns is either a success - the
    normalised URL, the record of the tweet with that same URL, and no error
    - or a failure with an error message and no record, whose URL is the
    normalised URL or, when no URL was given, the empty string. *)
Theorem scrape_tweets_result lib w data r t :
  scrape_tweets lib w data = (Ok r, t) →
  (ScraperResult.success r = true
   ∧ ScraperResult.error r = None
   ∧ ∃ u tweet, data !! "url" = Some (JStr u)
                ∧ ScraperResult.url r = normalize_x_url u
                ∧ ScraperResult.data r = Some tweet
                ∧ TweetData.url tweet = normalize_x_url u)
  ∨ (ScraperResult.success r = false
     ∧ ScraperResult.data r = None
     ∧ (∃ message, ScraperResult.error r = Some message)
     ∧ (ScraperResult.url r = ""
        ∨ ∃ u, data !! "url" = Some (JStr u) ∧ ScraperResult.url r = normalize_x_url u)).
Proof.
  intros Hres.
  destruct (Py.truthy (Py.dict_get data "url" (JStr ""))) eqn:Htruthy.
  2:{ rewrite (scrape_tweets_falsy_url _ _ _ Htruthy) in Hres. injection Hres as <- _.
      right. repeat split; eauto. }
  destruct (data !! "url") as [v|] eqn:Hurl;
    [|by unfold Py.dict_get in Htruthy; rewrite Hurl in Htruthy].
  assert (∃ u, v = JStr u ∧ u ≠ "") as (u & -> & Hu).
  { destruct v as [| | |u| |].
    all: try (unfold scrape_tweets in Hres; rewrite Htruthy in Hres;
              unfold Py.dict_get in Hres; rewrite Hurl in Hres; discriminate Hres).
    exists u. split; [done|]. intros ->.
    unfold Py.dict_get in Htruthy. by rewrite Hurl in Htruthy. }
  destruct (which_bird w) eqn:Hwhich;
    [|by rewrite (scrape_tweets_tool_missing _ _ _ _ Hurl Hu Hwhich) in Hres].
  rewrite (scrape_tweets_cases _ _ _ _ Hurl Hu Hwhich) in Hres. cbn zeta in Hres.
  destruct (BirdClient._run_bird _ _ _ _) as [r0 t0].
  destruct r0 as [v|e0].
  - destruct (parse_bird_response lib w v (normalize_x_url u)) as [tweet|e1] eqn:Hparse.
    + injection Hres as <- _. left. split; [done|]. split; [done|].
      exists u, tweet. repeat split; try done.
      by destruct (parse_bird_response_fields _ _ _ _ _ Hparse) as (d & _ & Hu' & _).
    + right. destruct e1 as [[] m s rc|c m];
        try (destruct (asks_refresh _);
             [by destruct (BirdClient.refresh_query_ids _ _) as [[[]|] ?]|]);
        try done; injection Hres as <- _; repeat split; eauto.
  - right. destruct e0 as [[] m s rc|c m];
      try (destruct (asks_refresh _);
           [by destruct (BirdClient.refresh_query_ids _ _) as [[[]|] ?]|]);
      try done; injection Hres as <- _; repeat split; eauto.
Qed.

Lemma scrape_tweets_result_witness :
  let w := sample_world (RunCompleted 0 "{}" "") RunTimeout noon in
  ∃ r t, scrape_tweets sample_lib w sample_data = (Ok r, t)
         ∧ ScraperResult.success r = true
         ∧ ScraperResult.url r = "https://x.com/bozhou_ai/status/2011738838767423983".
Proof.
  intros w. eexists _, _. split; [reflexivity|].
  match goal with
  | |- ScraperResult.success ?r = _ ∧ _ =>
      destruct (scrape_tweets_result sample_lib w sample_data r _ eq_refl)
        as [(Hs & _ & u & tweet & Hu & Hurl & _)|(Hf & _)]
  end.
  - split; [exact Hs|]. reflexivity.
  - discriminate Hf.
Defined.

Ltac no_runs :=
  split; [unfold count_runs; simpl; lia|]; split; [done|]; split; [done|];
  let H := fresh in intros H; vm_compute in H; discriminate H.

(** X19.  One run of [scrape_tweets] starts at most two subprocesses, the
    read and the refresh.  It starts none when the tool is not installed or
    no URL was given, and when it started two it ends by raising. *)
Theorem scrape_tweets_runs lib w data :
  let '(r, t) := scrape_tweets lib w data in
  (count_runs t ≤ 2)%nat
  ∧ (which_bird w = false → count_runs t = 0%nat)
  ∧ (Py.truthy (Py.dict_get data "url" (JStr "")) = false → t = [])
  ∧ (count_runs t = 2%nat → ∃ e, r = Raise e).
Proof.
  destruct (Py.truthy (Py.dict_get data "url" (JStr ""))) eqn:Htruthy.
  2:{ rewrite (scrape_tweets_falsy_url _ _ _ Htruthy). no_runs. }
  destruct (data !! "url") as [v|] eqn:Hurl;
    [|by unfold Py.dict_get in Htruthy; rewrite Hurl in Htruthy].
  destruct v as [| | |u| |];
    try (unfold scrape_tweets; rewrite Htruthy; unfold Py.dict_get; rewrite Hurl;
         cbn [negb bind raise]; no_runs).
  assert (Hu : u ≠ "").
  { intros ->. unfold Py.dict_get in Htruthy. by rewrite Hurl in Htruthy. }
  destruct (which_bird w) eqn:Hwhich.
  2:{ rewrite (scrape_tweets_tool_missing _ _ _ _ Hurl Hu Hwhich). no_runs. }
  rewrite (scrape_tweets_cases _ _ _ _ Hurl Hu Hwhich). cbn zeta.
  pose proof (count_runs_run_bird lib (scrape_client w) w ["read"; normalize_x_url u]) as H1.
  pose proof (count_runs_refresh (scrape_client w) w) as H2.
  destruct (BirdClient._run_bird _ _ _ _) as [r0 t0]. simpl in H1.
  destruct (BirdClient.refresh_query_ids (scrape_client w) w) as [rr tr]. simpl in H2.
  set (attempt := match r0 with Ok _ => _ | Raise _ => _ end).
  destruct attempt as [tweet|e].
  { rewrite !count_runs_app, H1.
    change (count_runs [Log info "tweet_scraped"]) with 0%nat. simpl.
    split; [lia|]. split; [done|]. split; [done|]. intros; lia. }
  destruct e as [[] m s rc|c m]; try destruct (asks_refresh _);
    rewrite !count_runs_app, ?H1, ?H2;
    repeat match goal with
           | |- context [count_runs [Log ?lv ?name]] =>
               change (count_runs [Log lv name]) with 0%nat
           end; simpl;
    (split; [lia|]); (split; [done|]); (split; [done|]);
    intros; try lia; destruct rr; eauto.
Qed.

(** X20.  When the tool succeeded but the normaliser fails on its output -
    the JSON is not an object, or a field is of the wrong type - the attempt
    does not raise: it returns the failure "Unexpected error: ..." with the
    text of the exception, after the one run of the tool. *)
Theorem scrape_tweets_unexpected_error lib w data u stdout stderr v cls message :
  data !! "url" = Some (JStr u) → u ≠ "" → which_bird w = true →
  subprocess_run w (read_cmd (normalize_x_url u)) = RunCompleted 0 stdout stderr →
  lib_json_loads lib stdout = inl v →
  parse_bird_response lib w v (normalize_x_url u) = Raise (Builtin cls message) →
  ∃ t, scrape_tweets lib w data
       = (Ok (failed (normalize_x_url u) ("Unexpected error: " +:+ message)), t)
       ∧ count_runs t = 1%nat
       ∧ last t = Some (Log exception "unexpected_error").
Proof.
  intros Hurl Hu Hwhich Hrun Hloads Hparse.
  rewrite (scrape_tweets_cases _ _ _ _ Hurl Hu Hwhich). cbn zeta.
  rewrite run_bird_cases. cbn zeta.
  change (["bird"] ++ ["read"; normalize_x_url u] ++ ["--json"])
    with (read_cmd (normalize_x_url u)).
  rewrite Hrun. cbn [Z.eqb]. rewrite Hloads, Hparse. cbn [exn_str].
  eexists. split; [reflexivity|]. split; [reflexivity|]. reflexivity.
Qed.

Lemma scrape_tweets_unexpected_error_witness :
  let w := sample_world (RunCompleted 0 "[]" "") RunTimeout noon in
  (scrape_tweets sample_lib w sample_data).1
  = Ok (failed "https://x.com/bozhou_ai/status/2011738838767423983"
               "Unexpected error: 'list' object has no attribute 'get'").
Proof.
  intros w.
  destruct (scrape_tweets_unexpected_error sample_lib w sample_data sample_url "[]" ""
              (JArr []) AttributeError "'list' object has no attribute 'get'")
    as (t & -> & _); [reflexivity | discriminate | reflexivity..|].
  reflexivity.
Defined.

(** ** [parse_bird_response] on well-formed output *)

Lemma parse_twitter_date_ok lib w s :
  (∀ s e, lib_strptime lib s = Raise e → is_ValueError e = true) →
  (∀ s e, lib_fromisoformat lib s = Raise e → is_ValueError e = true) →
  ∃ d, parse_twitter_date lib w s = Ok d.
Proof.
  intros Hs Hi. unfold parse_twitter_date.
  destruct (lib_strptime lib s) as [d|e] eqn:H1; [by eexists|].
  rewrite (Hs _ _ H1).
  destruct (lib_fromisoformat lib _) as [d|e'] eqn:H2; [by eexists|].
  rewrite (Hi _ _ H2). by eexists.
Qed.

Lemma media_item_is_object m : media_item m → is_object m.
Proof. by destruct m. Qed.

Lemma str_or_absent_get m key :
  str_or_absent (m !! key) → ∃ s, Py.dict_get m key (JStr "") = JStr s.
Proof.
  unfold Py.dict_get. destruct (m !! key) as [[]|]; try done; by eexists.
Qed.

Lemma well_formed_media d :
  well_formed_response d →
  ∃ items, Py.dict_get d "media" (JArr []) = JArr items
           ∧ Forall well_formed_media_item items.
Proof.
  intros (_ & _ & _ & Hm & _). unfold Py.dict_get.
  destruct (d !! "media") as [[| | | |items|]|]; try done; by eexists.
Qed.

Lemma well_formed_author d :
  well_formed_response d →
  ∃ a, Py.dict_get d "author" (JObj ∅) = JObj a
       ∧ str_or_absent (a !! "username") ∧ str_or_absent (a !! "handle")
       ∧ str_or_absent (a !! "screen_name") ∧ str_or_absent (a !! "name")
       ∧ str_or_absent (a !! "displayName").
Proof.
  intros (Ha & _). unfold Py.dict_get.
  destruct (d !! "author") as [[| | | | |a]|]; try done.
  - by exists a.
  - exists ∅. by rewrite !lookup_empty.
Qed.

Lemma videos_are_strings items :
  Forall well_formed_media_item items →
  TweetData.is_list_of_str (omap video_url items) = true.
Proof.
  induction 1 as [|m items [_ Hm] _ IH]; [done|].
  cbn [omap list_omap]. destruct m as [| | | | |d]; try done.
  cbn [video_url]. cbn zeta.
  destruct (_ || _); [|exact IH].
  destruct (str_or_absent_get d "videoUrl" Hm) as [v ->].
  destruct (Py.truthy (JStr v)); [|exact IH]. exact IH.
Qed.

(** X21.  On a response of the tool that is well formed, with library
    parsers that raise only [ValueError], [parse_bird_response] does not
    raise: neither the normaliser nor the validation of the model rejects
    it.  The record has the URL it was given, the images and videos of the
    two extraction passes, strings for its identifier, text and author
    handle, and, when the response has neither ["createdAt"] nor
    ["created_at"], the empty string as its date rather than the current
    time. *)
Theorem parse_bird_response_total lib w d url :
  (∀ s e, lib_strptime lib s = Raise e → is_ValueError e = true) →
  (∀ s e, lib_fromisoformat lib s = Raise e → is_ValueError e = true) →
  well_formed_response d →
  ∃ t items,
    parse_bird_response lib w (JObj d) url = Ok t
    ∧ TweetData.url t = url
    ∧ Py.dict_get d "media" (JArr []) = JArr items
    ∧ TweetData.images t = omap (λ m, full_size <$> photo_url m) items
    ∧ TweetData.videos t = omap video_url items
    ∧ TweetData.is_str (TweetData.id t) = true
    ∧ TweetData.is_str (TweetData.text t) = true
    ∧ TweetData.is_str (TweetData.author_handle t) = true
    ∧ (d !! "createdAt" = None → d !! "created_at" = None →
       TweetData.created_at t = CreatedRaw (JStr "")).
Proof.
  intros Hs Hi Hwf.
  destruct (well_formed_media d Hwf) as (items & Hmedia & Hitems).
  destruct (well_formed_author d Hwf) as (a & Ha & Ha1 & Ha2 & Ha3 & Ha4 & Ha5).
  destruct Hwf as (_ & Hc1 & Hc2 & _ & Hid & Htext & Hfull & Hconv & Hlegacy).
  assert (Himages : extract_image_urls (JObj d)
                    = Ok (omap (λ m, full_size <$> photo_url m) items)).
  { unfold extract_image_urls. cbn [Py.get rbind]. rewrite Hmedia. cbn [Py.iter rbind].
    rewrite extract_image_urls_loop_spec; [done|].
    eapply Forall_impl; [exact Hitems | by intros m [Hm _]]. }
  assert (Hvideos : extract_video_urls (JObj d) = Ok (omap video_url items)).
  { unfold extract_video_urls. cbn [Py.get rbind]. rewrite Hmedia. cbn [Py.iter rbind].
    rewrite extract_video_urls_loop_spec; [done|].
    eapply Forall_impl; [exact Hitems | intros m [Hm _]; by apply media_item_is_object]. }
  destruct (str_or_absent_get a "username" Ha1) as [n1 Hn1].
  destruct (str_or_absent_get a "handle" Ha2) as [n2 Hn2].
  destruct (str_or_absent_get a "screen_name" Ha3) as [n3 Hn3].
  destruct (str_or_absent_get a "name" Ha4) as [n4 Hn4].
  destruct (str_or_absent_get a "displayName" Ha5) as [n5 Hn5].
  destruct (str_or_absent_get d "id" Hid) as [i Hi'].
  destruct (str_or_absent_get d "text" Htext) as [tx Htx].
  destruct (str_or_absent_get d "full_text" Hfull) as [ft Hft].
  assert (Hraw : ∃ s, raw_date d = JStr s
                      ∧ (d !! "createdAt" = None → d !! "created_at" = None → s = "")).
  { unfold raw_date, Py.dict_get.
    destruct (d !! "createdAt") as [[]|], (d !! "created_at") as [[]|]; try done;
      cbn [Py.truthy]; try destruct (negb _); eexists; split; try done. }
  destruct Hraw as (s & Hraw & Hempty).
  assert (Hvalid : ∀ c handle name text conv,
    TweetData.validate_created_at lib c = Some c →
    TweetData.is_str_or_none conv = true →
    TweetData.validate lib
      (TweetData.Make (JStr i) url (JStr text) c (JStr handle) (JStr name)
                      (omap (λ m, full_size <$> photo_url m) items) (omap video_url items)
                      (negb (Py.eq conv JNull) && negb (Py.eq conv (JStr i))) None conv)
    = Ok (TweetData.Make (JStr i) url (JStr text) c (JStr handle) (JStr name)
                      (omap (λ m, full_size <$> photo_url m) items) (omap video_url items)
                      (negb (Py.eq conv JNull) && negb (Py.eq conv (JStr i))) None conv)).
  { intros c handle name text conv Hc Hcv.
    unfold TweetData.validate, TweetData.errors, TweetData.check.
    cbn [TweetData.created_at TweetData.id TweetData.text TweetData.author_handle
         TweetData.author_name TweetData.videos TweetData.conversation_id
         TweetData.url TweetData.images TweetData.is_thread TweetData.thread_position
         TweetData.is_str TweetData.is_str_or_none].
    rewrite Hc, Hcv, (videos_are_strings _ Hitems). by destruct c. }
  unfold parse_bird_response. cbn [Py.get rbind]. rewrite Ha. cbn [Py.get rbind].
  rewrite Hn1, Hn2, Hn3, Hn4, Hn5, Hi', Htx, Hft, !or_else_value. fold (raw_date d).
  rewrite Hraw, Himages, Hvideos. cbn [rbind].
  set (conv := if Py.truthy (Py.dict_get d "conversationId" JNull)
               then Py.dict_get d "conversationId" JNull
               else safe_get (JObj d) ["legacy"; "conversation_id_str"] JNull).
  assert (Hcv : TweetData.is_str_or_none conv = true).
  { unfold conv. by destruct (Py.truthy _). }
  assert (Hhandle : ∃ h, (if Py.truthy (JStr n1) then JStr n1
                          else if Py.truthy (JStr n2) then JStr n2 else JStr n3) = JStr h).
  { destruct (Py.truthy (JStr n1)); [by eexists|].
    destruct (Py.truthy (JStr n2)); by eexists. }
  destruct Hhandle as [h Hh].
  assert (Hname : ∃ n, (if Py.truthy (JStr n4) then JStr n4 else JStr n5) = JStr n).
  { destruct (Py.truthy (JStr n4)); by eexists. }
  destruct Hname as [n Hn].
  assert (Htxt : ∃ x, (if Py.truthy (JStr tx) then JStr tx else JStr ft) = JStr x).
  { destruct (Py.truthy (JStr tx)); by eexists. }
  destruct Htxt as [x Hx].
  rewrite ?or_else_value. cbn [rbind].
  rewrite ?Hh, ?Hn, ?Hx.
  destruct (Py.truthy (JStr s)) eqn:Htruthy.
  - destruct (parse_twitter_date_ok lib w s Hs Hi) as [dt ->]. cbn [rbind].
    rewrite ?Hh, ?Hn, ?Hx. fold conv.
    rewrite Hvalid; [|done..].
    eexists _, items. split; [reflexivity|]. cbn. repeat split; try done.
    intros H1 H2. rewrite (Hempty H1 H2) in Htruthy. done.
  - cbn [rbind]. rewrite ?Hh, ?Hn, ?Hx. fold conv.
    rewrite Hvalid; [|done..].
    eexists _, items. split; [reflexivity|]. cbn. repeat split; try done.
    intros H1 H2. by rewrite (Hempty H1 H2).
Qed.

Lemma parse_bird_response_total_witness :
  ∃ t, parse_bird_response sample_lib (sample_world RunTimeout RunTimeout noon)
                           sample_bird_response sample_url = Ok t
       ∧ length (TweetData.images t) = 2%nat
       ∧ length (TweetData.videos t) = 1%nat.
Proof.
  destruct (parse_bird_response_total sample_lib (sample_world RunTimeout RunTimeout noon)
              sample_bird_fields sample_url)
    as (t & items & Ht & _ & Hm & Hi & Hv & _).
  - intros s e. apply of_option_raises.
  - intros s e. apply of_option_raises.
  - repeat split; try exact I; try reflexivity.
    change (Forall well_formed_media_item sample_media).
    repeat (constructor; [vm_compute; done|]). constructor.
  - exists t. split; [exact Ht|].
    injection Hm as <-. rewrite Hi, Hv. split; reflexivity.
Defined.

(** ** [get_version] *)

Lemma lstrip_begins s :
  PyStr.lstrip s = "" ∨ PyStr.begins_nonspace (PyStr.lstrip s) = true.
Proof.
  induction s as [|c s IH]; [by left|]. simpl.
  destruct (PyStr.isspace c) eqn:Hc; [done|]. right. simpl. by rewrite Hc.
Qed.

Lemma rstrip_ends s :
  PyStr.rstrip s = "" ∨ PyStr.ends_nonspace (PyStr.rstrip s) = true.
Proof.
  induction s as [|c s IH]; [by left|]. simpl.
  destruct (PyStr.rstrip s) as [|b r].
  - destruct (PyStr.isspace c) eqn:Hc; [by left|]. right. simpl. by rewrite Hc.
  - right. by destruct IH.
Qed.

Lemma rstrip_begins s :
  PyStr.begins_nonspace s = true → PyStr.begins_nonspace (PyStr.rstrip s) = true.
Proof.
  destruct s as [|c s]; [done|]. simpl.
  destruct (PyStr.rstrip s); [|done].
  destruct (PyStr.isspace c) eqn:Hc; simpl; [done|]. by rewrite Hc.
Qed.

Lemma strip_strip s : PyStr.strip (PyStr.strip s) = PyStr.strip s.
Proof.
  unfold PyStr.strip at 2 3.
  destruct (lstrip_begins s) as [->|Hb]; [done|].
  apply rstrip_begins in Hb.
  destruct (rstrip_ends (PyStr.lstrip s)) as [->|He]; [done|].
  by apply strip_id.
Qed.

(** X22.  [get_version] starts one subprocess, [bird --version].  It
    answers ["unknown"] when the tool timed out or is missing, and otherwise
    the output of the tool without the white space around it, whatever the
    exit code; an answer has no white space around it.  It raises only
    what [subprocess.run] raised besides these two, unchanged. *)
Theorem get_version_answer self w :
  let '(r, t) := get_version self w in
  t = [Run ["bird"; "--version"] (environ w) 10]
  ∧ match subprocess_run w ["bird"; "--version"] with
    | RunTimeout | RunFileNotFound => r = Ok "unknown"
    | RunCompleted _ stdout _ => r = Ok (PyStr.strip stdout)
    | RunRaised cls message => r = Raise (Builtin cls message)
    end
  ∧ ∀ version, r = Ok version → PyStr.strip version = version.
Proof.
  unfold get_version. cbn zeta.
  destruct (subprocess_run w ["bird"; "--version"]) as [| |rc out err|cls message];
    (split; [reflexivity|]); (split; [reflexivity|]); intros version [= <-];
    [reflexivity | reflexivity | apply strip_strip].
Qed.

(** ** [get_best_cookies] *)

Lemma extract_cookies_via_bird_cases w :
  ∃ t, count_runs t = 1%nat
       ∧ (extract_cookies_via_bird w = (Ok (Some bird_managed), t)
          ∨ extract_cookies_via_bird w = (Ok None, t)
          ∨ ∃ cls message, subprocess_run w ["bird"; "whoami"] = RunRaised cls message
                           ∧ extract_cookies_via_bird w = (Raise (Builtin cls message), t)).
Proof.
  unfold extract_cookies_via_bird. cbn zeta.
  destruct (subprocess_run w _) as [| |rc out err|cls message].
  - eexists. split; [|right; left; reflexivity]. done.
  - eexists. split; [|right; left; reflexivity]. done.
  - destruct (_ && _); eexists; (split; [|by (left + (right; left))]); done.
  - destruct (is_JSONDecodeError _) eqn:He.
    + eexists. split; [|right; left; reflexivity]. done.
    + eexists. split; [|right; right; by eexists _, _]. done.
Qed.

Lemma extract_cookies_from_env_truthy w cookies :
  extract_cookies_from_env w = Some cookies → Py.truthy (XCookies.auth_token cookies) = true.
Proof.
  unfold extract_cookies_from_env. cbn zeta.
  destruct (Settings.auth_token (get_settings w)) as [a|]; [|done]. simpl.
  destruct (String.eqb a "") eqn:Ha; [done|].
  destruct (opt_or (Settings.ct0 (get_settings w)) None); [|done].
  intros [= <-]. simpl. by rewrite Ha.
Qed.

Lemma count_runs_load_cookies lib file : count_runs (load_cookies lib file).2 = 0%nat.
Proof.
  unfold load_cookies. destruct file as [|text|cls message]; [done| |].
  - destruct (lib_json_loads lib text) as [v|e]; cbn [lift bind try_except].
    + destruct v; try done.
    + by destruct (load_cookies_catches e).
  - cbn [raise try_except]. by destruct (load_cookies_catches _).
Qed.

(** X23.  Cookies [get_best_cookies] returns have a non-empty auth token,
    and come from one of three places: the settings, without any
    subprocess; the cookies file, without any subprocess, and then the token
    is not the placeholder ["[bird-managed]"]; or the [bird whoami] probe,
    after one subprocess, and then they are the placeholder. *)
Theorem get_best_cookies_sources lib w file cookies t :
  get_best_cookies lib w file = (Ok (Some cookies), t) →
  Py.truthy (XCookies.auth_token cookies) = true
  ∧ ((extract_cookies_from_env w = Some cookies ∧ count_runs t = 0%nat)
     ∨ (extract_cookies_from_env w = None
        ∧ (load_cookies lib file).1 = Ok (Some cookies)
        ∧ Py.eq (XCookies.auth_token cookies) (JStr "[bird-managed]") = false
        ∧ count_runs t = 0%nat)
     ∨ (extract_cookies_from_env w = None
        ∧ cookies = bird_managed
        ∧ count_runs t = 1%nat)).
Proof.
  unfold get_best_cookies.
  destruct (extract_cookies_from_env w) as [c|] eqn:Henv.
  { intros [= <- <-]. split; [by eapply extract_cookies_from_env_truthy|]. by left. }
  destruct (extract_cookies_via_bird_cases w) as (tb & Hcount & Hbird).
  pose proof (count_runs_load_cookies lib file) as Hload.
  destruct (load_cookies lib file) as [[saved|e] tl]; [|done]. simpl in Hload.
  cbn [bind]. destruct saved as [c|].
  - destruct (Py.truthy (XCookies.auth_token c)) eqn:Htruthy; cbn [andb].
    + destruct (Py.eq (XCookies.auth_token c) (JStr "[bird-managed]")) eqn:Hph; cbn [negb].
      * destruct Hbird as [-> | [-> | (cls & message & _ & ->)]]; cbn; [|done..].
        intros [= <- <-]. split; [done|]. right. right.
        rewrite !count_runs_app, Hload, Hcount. done.
      * cbn. intros [= <- <-]. split; [done|]. right. left.
        rewrite !count_runs_app, Hload. done.
    + destruct Hbird as [-> | [-> | (cls & message & _ & ->)]]; cbn; [|done..].
      intros [= <- <-]. split; [done|]. right. right.
      rewrite !count_runs_app, Hload, Hcount. done.
  - destruct Hbird as [-> | [-> | (cls & message & _ & ->)]]; cbn; [|done..].
    intros [= <- <-]. split; [done|]. right. right.
    rewrite !count_runs_app, Hload, Hcount. done.
Qed.

Lemma get_best_cookies_sources_witness :
  let w := sample_world (RunCompleted 0 "logged in as @someone" "") RunTimeout noon in
  ∃ t, get_best_cookies sample_lib w (FileText "not json") = (Ok (Some bird_managed), t)
       ∧ count_runs t = 1%nat.
Proof.
  intros w. eexists. split; [reflexivity|].
  match goal with
  | |- count_runs ?t = _ =>
      destruct (get_best_cookies_sources sample_lib w (FileText "not json") bird_managed t
                  eq_refl)
        as [_ [[He _]|[(_ & Hl & _)|(_ & _ & Hc)]]]
  end.
  - discriminate He.
  - discriminate Hl.
  - exact Hc.
Defined.

(** X24.  When the settings give no cookies, the cookies file decides as
    follows.  A file that decodes to JSON that is no object makes
    [get_best_cookies] raise the [AttributeError] of the failed [.get], which
    [load_cookies] does not catch, before any log or subprocess; so does an
    exception of reading the file that is neither of the two classes caught.
    A file that is missing, or whose text is no JSON, never does: the answer
    is then the one of the [bird whoami] probe. *)
Theorem get_best_cookies_file lib w file :
  extract_cookies_from_env w = None →
  match file with
  | FileMissing => (get_best_cookies lib w file).1 = (extract_cookies_via_bird w).1
  | FileText text =>
      match lib_json_loads lib text with
      | inl (JObj _) => True
      | inl v => get_best_cookies lib w file = (Raise (Py.no_attribute v "get"), [])
      | inr e =>
          if load_cookies_catches e
          then (get_best_cookies lib w file).1 = (extract_cookies_via_bird w).1
          else get_best_cookies lib w file = (Raise e, [])
      end
  | FileRaised cls message =>
      if load_cookies_catches (Builtin cls message)
      then (get_best_cookies lib w file).1 = (extract_cookies_via_bird w).1
      else get_best_cookies lib w file = (Raise (Builtin cls message), [])
  end.
Proof.
  intros Henv. unfold get_best_cookies. rewrite Henv.
  set (after := λ saved : option XCookies.t, _).
  assert (Hprobe : ∀ m : M (option XCookies.t),
            m.1 = Ok None → (bind m after).1 = (extract_cookies_via_bird w).1).
  { intros [[[c|]|e] tl] [=]. unfold after. cbn [bind].
    destruct (extract_cookies_via_bird w) as [[[c|]|e] tb]; reflexivity. }
  unfold load_cookies. destruct file as [|text|cls message].
  - by apply Hprobe.
  - destruct (lib_json_loads lib text) as [v|e].
    + by destruct v.
    + destruct (load_cookies_catches e) eqn:Hcatch.
      * apply Hprobe. cbn [lift bind try_except]. by rewrite Hcatch.
      * cbn [lift bind try_except]. by rewrite Hcatch.
  - destruct (load_cookies_catches _) eqn:Hcatch.
    + apply Hprobe. cbn [raise try_except]. by rewrite Hcatch.
    + cbn [raise try_except]. by rewrite Hcatch.
Qed.

Lemma get_best_cookies_file_witness :
  let w := sample_world RunTimeout RunTimeout noon in
  get_best_cookies sample_lib w (FileText "[]")
  = (Raise (Builtin AttributeError "'list' object has no attribute 'get'"), []).
Proof.
  intros w.
  exact (get_best_cookies_file sample_lib w (FileText "[]") eq_refl).
Defined.
